(** * cuppa-tools: specification parsers and code generators

    A shallow embedding of the parsers of cuppa-cli (JSON Schema, OpenAPI,
    design tokens, component and plugin specifications), of its generators
    (Kotlin theme, TypeScript theme, Swift component, Swift plugin) and of
    the templates of the component and plugin commands, followed by the
    properties the specification states about them and by further
    properties read off the code.

    Conventions of the embedding.
    - A JavaScript string is a [string]; the embedding covers ASCII text:
      the case mappings act on the letters a-z and A-Z and leave every
      other character alone.
    - A TypeScript optional field [f?: T] is an [option T]; [undefined] is
      [None].
    - A [Record<string, T>] read through [Object.entries] is the list of
      its entries in that order.
    - [throw new Error(m)] is the outcome [Thrown m].
    - Lookups in a literal table find the entries written in the table. *)

From Stdlib Require Import String Ascii List ZArith NArith Bool Arith Lia.
From Stdlib Require Import DecimalString DecimalN.
Import ListNotations.
Open Scope string_scope.
Set Warnings "-register-all".

(** Concatenation of lists of lines; [++] is kept for strings. *)
Notation "xs +++ ys" := (@List.app _ xs ys) (at level 65, right associativity).

(** ** JavaScript values and string primitives *)

Module JS.

(** The value a numeric literal denotes, before it is rounded to a double:
    [Finite neg m e] is (-1)^neg * m * 10^e.  Rounding is a function of this
    value, so two equal values here are the same number in JavaScript. *)
Inductive number : Type :=
| NaN
| Infinity (neg : bool)
| Finite (neg : bool) (m : N) (e : Z).

Definition ofN (n : N) : number := Finite false n 0.

(** A finite value rounds to zero exactly when its magnitude is at most
    2^-1075, half of the smallest subnormal double. *)
Definition roundsToZero (m : N) (e : Z) : bool :=
  if (m =? 0)%N then true
  else if (0 <=? e)%Z then false
  else (Z.of_N m * 2 ^ 1075 <=? 10 ^ (- e))%Z.

Definition numberTruthy (x : number) : bool :=
  match x with
  | NaN => false
  | Infinity _ => true
  | Finite _ m e => negb (roundsToZero m e)
  end.

(** [x || 0] on numbers. *)
Definition numberOrZero (x : number) : number :=
  if numberTruthy x then x else ofN 0.

(** A value of type [any] that came out of a JSON document. *)
Inductive value : Type :=
| VNull
| VBool (b : bool)
| VNumber (x : number)
| VString (s : string)
| VArray (items : list value)
| VObject (fields : list (string * value)).

Definition truthy (v : value) : bool :=
  match v with
  | VNull => false
  | VBool b => b
  | VNumber x => numberTruthy x
  | VString s => negb (s =? "")
  | VArray _ | VObject _ => true
  end.

(** [s || d] for an optional string: [undefined] and the empty string are
    both falsy. *)
Definition strOr (s : option string) (d : string) : string :=
  match s with
  | Some t => if t =? "" then d else t
  | None => d
  end.

(** [b || false] for an optional boolean. *)
Definition boolOr (b : option bool) : bool :=
  match b with Some true => true | _ => false end.

(** [l || []] for an optional array or record. *)
Definition listOr {A : Type} (l : option (list A)) : list A :=
  match l with Some xs => xs | None => [] end.

Definition isSome {A : Type} (o : option A) : bool :=
  match o with Some _ => true | None => false end.

(** Truthiness of an optional string. *)
Definition strTruthy (s : option string) : bool :=
  match s with Some t => negb (t =? "") | None => false end.

Definition nl : string := String (ascii_of_nat 10) "".
Definition dq : string := String (ascii_of_nat 34) "".

Definition isLower (c : ascii) : bool :=
  (97 <=? nat_of_ascii c)%nat && (nat_of_ascii c <=? 122)%nat.
Definition isUpper (c : ascii) : bool :=
  (65 <=? nat_of_ascii c)%nat && (nat_of_ascii c <=? 90)%nat.
Definition isDigit (c : ascii) : bool :=
  (48 <=? nat_of_ascii c)%nat && (nat_of_ascii c <=? 57)%nat.

Definition upperChar (c : ascii) : ascii :=
  if isLower c then ascii_of_nat (nat_of_ascii c - 32) else c.
Definition lowerChar (c : ascii) : ascii :=
  if isUpper c then ascii_of_nat (nat_of_ascii c + 32) else c.

Fixpoint mapChars (f : ascii -> ascii) (s : string) : string :=
  match s with
  | EmptyString => EmptyString
  | String c s' => String (f c) (mapChars f s')
  end.

Definition toUpperCase : string -> string := mapChars upperChar.
Definition toLowerCase : string -> string := mapChars lowerChar.

Fixpoint filterChars (f : ascii -> bool) (s : string) : string :=
  match s with
  | EmptyString => EmptyString
  | String c s' => if f c then String c (filterChars f s') else filterChars f s'
  end.

Fixpoint allChars (f : ascii -> bool) (s : string) : bool :=
  match s with
  | EmptyString => true
  | String c s' => f c && allChars f s'
  end.

(** [s.startsWith(p)] *)
Definition startsWith (p s : string) : bool := String.prefix p s.

(** [s.endsWith(p)] *)
Definition endsWith (p s : string) : bool :=
  (String.length p <=? String.length s)%nat
  && (String.substring (String.length s - String.length p) (String.length p) s =? p).

(** [s.slice(a)] and [s.slice(a, -b)] for non-negative [a] and [b]. *)
Definition sliceFrom (a : nat) (s : string) : string :=
  String.substring a (String.length s - a) s.
Definition slice (a b : nat) (s : string) : string :=
  String.substring a (String.length s - b - a) s.

(** [s.charAt(0)] *)
Definition charAt0 (s : string) : string :=
  match s with
  | EmptyString => EmptyString
  | String c _ => String c EmptyString
  end.

(** [s.split(sep)] for a separator of one character. *)
Fixpoint split (sep : ascii) (s : string) : list string :=
  match s with
  | EmptyString => [EmptyString]
  | String c s' =>
      if Ascii.eqb c sep then EmptyString :: split sep s'
      else match split sep s' with
           | seg :: rest => String c seg :: rest
           | [] => [String c EmptyString]
           end
  end.

(** [xs.join(sep)] *)
Fixpoint join (sep : string) (xs : list string) : string :=
  match xs with
  | [] => EmptyString
  | [x] => x
  | x :: rest => x ++ sep ++ join sep rest
  end.

(** [s.replace(c, '')] for a pattern of one character: the first occurrence
    only. *)
Fixpoint removeFirst (c : ascii) (s : string) : string :=
  match s with
  | EmptyString => EmptyString
  | String d s' => if Ascii.eqb d c then s' else String d (removeFirst c s')
  end.

(** [xs.includes(x)] on strings. *)
Definition includes (xs : list string) (x : string) : bool :=
  existsb (String.eqb x) xs.

(** [record[key]] on a record given by its entries. *)
Definition lookup {A : Type} (key : string) (entries : list (string * A)) : option A :=
  option_map snd (find (fun e => fst e =? key) entries).

(** [Object.keys(record)[0]] *)
Definition firstKey {A : Type} (entries : list (string * A)) : option string :=
  option_map fst (List.hd_error entries).

(** [cond] guards the lines an [if] block pushes. *)
Definition pushIf (cond : bool) (lines : list string) : list string :=
  if cond then lines else [].

(** [xs.length > 0] *)
Definition nonEmpty {A : Type} (xs : list A) : bool :=
  match xs with [] => false | _ :: _ => true end.

(** [t] occurs in [s] as a contiguous piece. *)
Definition occursIn (t s : string) : Prop :=
  exists before after, s = before ++ t ++ after.

(** The capitalize helper the generators and parsers each define:
    [str.charAt(0).toUpperCase() + str.slice(1)]. *)
Definition capitalize (str : string) : string :=
  toUpperCase (charAt0 str) ++ sliceFrom 1 str.

End JS.

(** The outcome of a call that may throw. *)
Inductive outcome (A : Type) : Type :=
| Returned (a : A)
| Thrown (message : string).
Arguments Returned {A} a.
Arguments Thrown {A} message.

(** ** Model parser (json-schema-types.ts) *)

Module JSONSchemaParser.
Import JS.

(** [type: string | string[]] *)
Inductive TypeDecl : Type :=
| TypeName (t : string)
| TypeUnion (ts : list string).

(** The fields of a property schema the parser reads. *)
Inductive JSONSchemaProperty : Type :=
  mkProperty {
    prop_type : TypeDecl;
    prop_description : option string;
    prop_format : option string;
    prop_items : option JSONSchemaProperty;
    prop_default : option value;
    prop_nullable : option bool
  }.

Record JSONSchema : Type :=
  mkSchema {
    schema_title : option string;
    schema_description : option string;
    schema_type : string;
    schema_properties : option (list (string * JSONSchemaProperty));
    schema_required : option (list string)
  }.

Record ParsedProperty : Type :=
  mkParsedProperty {
    name : string;
    type : string;
    description : option string;
    optional : bool;
    isArray : bool;
    format : option string;
    defaultValue : option value
  }.

Record ParsedModel : Type :=
  mkParsedModel {
    model_name : string;
    model_description : option string;
    properties : list ParsedProperty
  }.

Definition resolveType (prop : JSONSchemaProperty) : string :=
  match prop_type prop with
  | TypeUnion ts =>
      let nonNullType := find (fun t => negb (t =? "null")) ts in
      strOr nonNullType "any"
  | TypeName t => t
  end.

Definition parseProperty (name : string) (prop : JSONSchemaProperty)
  (isRequired : bool) : ParsedProperty :=
  let type := resolveType prop in
  let isArray := type =? "array" in
  let actualType :=
    match isArray, prop_items prop with
    | true, Some items => resolveType items
    | _, _ => type
    end in
  {| name := name;
     type := actualType;
     description := prop_description prop;
     optional := negb isRequired || match prop_nullable prop with Some true => true | _ => false end;
     isArray := isArray;
     format := prop_format prop;
     defaultValue := prop_default prop |}.

Definition parseProperties (properties : list (string * JSONSchemaProperty))
  (required : list string) : list ParsedProperty :=
  map (fun '(name, prop) => parseProperty name prop (includes required name))
      properties.

Definition unsupported : string :=
  "Only object schemas are supported for model generation".

Definition parse (schema : JSONSchema) : outcome ParsedModel :=
  if negb (schema_type schema =? "object") then Thrown unsupported
  else
    let name := strOr (schema_title schema) "UnnamedModel" in
    let description := schema_description schema in
    let properties :=
      parseProperties (listOr (schema_properties schema))
                      (listOr (schema_required schema)) in
    Returned {| model_name := name;
                model_description := description;
                properties := properties |}.

End JSONSchemaParser.

(** ** API parser (openapi-types.ts) *)

Module OpenAPIParser.
Import JS.

Inductive OpenAPISchema : Type :=
  mkOpenAPISchema {
    schema_type : option string;
    schema_format : option string;
    schema_properties : option (list (string * OpenAPISchema));
    schema_items : option OpenAPISchema;
    schema_required : option (list string);
    schema_ref : option string;
    schema_description : option string
  }.

Record OpenAPIParameter : Type :=
  mkOpenAPIParameter {
    param_name : string;
    param_in : string;
    param_description : option string;
    param_required : option bool;
    param_schema : OpenAPISchema
  }.

Record OpenAPIMediaType : Type :=
  mkOpenAPIMediaType { media_schema : option OpenAPISchema }.

Record OpenAPIRequestBody : Type :=
  mkOpenAPIRequestBody {
    body_description : option string;
    body_required : option bool;
    body_content : list (string * OpenAPIMediaType)
  }.

Record OpenAPIResponse : Type :=
  mkOpenAPIResponse {
    response_description : string;
    response_content : option (list (string * OpenAPIMediaType))
  }.

Record OpenAPIOperation : Type :=
  mkOpenAPIOperation {
    op_operationId : option string;
    op_summary : option string;
    op_description : option string;
    op_tags : option (list string);
    op_parameters : option (list OpenAPIParameter);
    op_requestBody : option OpenAPIRequestBody;
    op_responses : list (string * OpenAPIResponse)
  }.

Record OpenAPIPath : Type :=
  mkOpenAPIPath {
    path_get : option OpenAPIOperation;
    path_post : option OpenAPIOperation;
    path_put : option OpenAPIOperation;
    path_patch : option OpenAPIOperation;
    path_delete : option OpenAPIOperation;
    path_parameters : option (list OpenAPIParameter)
  }.

Record OpenAPIInfo : Type :=
  mkOpenAPIInfo {
    info_title : string;
    info_version : string;
    info_description : option string
  }.

Record OpenAPIServer : Type :=
  mkOpenAPIServer { server_url : string; server_description : option string }.

Record OpenAPIComponents : Type :=
  mkOpenAPIComponents { schemas : option (list (string * OpenAPISchema)) }.

Record OpenAPISpec : Type :=
  mkOpenAPISpec {
    openapi : string;
    info : OpenAPIInfo;
    servers : option (list OpenAPIServer);
    paths : list (string * OpenAPIPath);
    components : option OpenAPIComponents
  }.

Record ParsedParameter : Type :=
  mkParsedParameter {
    name : string;
    type : string;
    description : option string;
    required : bool;
    isArray : bool;
    format : option string
  }.

Record ParsedRequestBody : Type :=
  mkParsedRequestBody {
    rb_type : string;
    rb_description : option string;
    rb_required : bool;
    rb_contentType : string
  }.

Record ParsedResponse : Type :=
  mkParsedResponse {
    statusCode : string;
    resp_type : option string;
    resp_description : string;
    resp_contentType : option string
  }.

Record ParsedEndpoint : Type :=
  mkParsedEndpoint {
    operationId : string;
    method : string;
    path : string;
    summary : option string;
    ep_description : option string;
    pathParams : list ParsedParameter;
    queryParams : list ParsedParameter;
    headerParams : list ParsedParameter;
    requestBody : option ParsedRequestBody;
    responses : list ParsedResponse;
    tags : option (list string)
  }.

Record ParsedAPIProperty : Type :=
  mkParsedAPIProperty {
    p_type : string;
    p_description : option string;
    p_isArray : bool;
    p_format : option string
  }.

Record ParsedAPIModel : Type :=
  mkParsedAPIModel {
    m_name : string;
    m_description : option string;
    m_properties : list (string * ParsedAPIProperty);
    m_required : list string
  }.

Record ParsedAPI : Type :=
  mkParsedAPI {
    api_name : string;
    api_version : string;
    api_description : option string;
    baseUrl : option string;
    endpoints : list ParsedEndpoint;
    models : list ParsedAPIModel
  }.

Definition typeIsArray (schema : OpenAPISchema) : bool :=
  match schema_type schema with Some t => t =? "array" | None => false end.

Fixpoint resolveType (schema : OpenAPISchema) : string :=
  if strTruthy (schema_ref schema) then
    let parts := split "/" (strOr (schema_ref schema) "") in
    List.last parts EmptyString
  else
    match typeIsArray schema, schema_items schema with
    | true, Some items => resolveType items
    | _, _ => strOr (schema_type schema) "any"
    end.

Definition parseParameter (param : OpenAPIParameter) : ParsedParameter :=
  let isArray := typeIsArray (param_schema param) in
  let type :=
    match isArray, schema_items (param_schema param) with
    | true, Some items => resolveType items
    | _, _ => resolveType (param_schema param)
    end in
  {| name := param_name param;
     type := type;
     description := param_description param;
     required := boolOr (param_required param);
     isArray := isArray;
     format := schema_format (param_schema param) |}.

Definition parseRequestBody (body : OpenAPIRequestBody) : ParsedRequestBody :=
  let contentType := strOr (firstKey (body_content body)) "application/json" in
  let schema :=
    match lookup contentType (body_content body) with
    | Some media => media_schema media
    | None => None
    end in
  {| rb_type := match schema with Some s => resolveType s | None => "any" end;
     rb_description := body_description body;
     rb_required := boolOr (body_required body);
     rb_contentType := contentType |}.

Definition parseResponses (responses : list (string * OpenAPIResponse))
  : list ParsedResponse :=
  map (fun '(statusCode, response) =>
         let contentType :=
           match response_content response with
           | Some content => firstKey content
           | None => None
           end in
         let schema :=
           if strTruthy contentType then
             match response_content response with
             | Some content =>
                 match lookup (strOr contentType "") content with
                 | Some media => media_schema media
                 | None => None
                 end
             | None => None
             end
           else None in
         {| statusCode := statusCode;
            resp_type := option_map resolveType schema;
            resp_description := response_description response;
            resp_contentType := contentType |})
      responses.

Definition segmentToName (p : string) : string :=
  if startsWith "{" p && endsWith "}" p then "By" ++ capitalize (slice 1 1 p)
  else capitalize p.

Definition generateOperationId (method path : string) : string :=
  let parts := filter (fun p => negb (p =? "")) (split "/" path) in
  let sanitized := map segmentToName parts in
  toLowerCase method ++ join "" sanitized.

Definition inLocation (loc : string) (p : OpenAPIParameter) : bool :=
  param_in p =? loc.

(** [[...pathParams, ...(operation.parameters || [])]] *)
Definition allParamsOf (pathParams : list OpenAPIParameter)
  (operation : OpenAPIOperation) : list OpenAPIParameter :=
  pathParams +++ listOr (op_parameters operation).

Definition parseOperation (method path : string) (operation : OpenAPIOperation)
  (pathParams : list OpenAPIParameter) : ParsedEndpoint :=
  let operationId :=
    if strTruthy (op_operationId operation)
    then strOr (op_operationId operation) ""
    else generateOperationId method path in
  let allParams := allParamsOf pathParams operation in
  let pathParameters := filter (inLocation "path") allParams in
  let queryParameters := filter (inLocation "query") allParams in
  let headerParameters := filter (inLocation "header") allParams in
  {| operationId := operationId;
     method := toUpperCase method;
     path := path;
     summary := op_summary operation;
     ep_description := op_description operation;
     pathParams := map parseParameter pathParameters;
     queryParams := map parseParameter queryParameters;
     headerParams := map parseParameter headerParameters;
     requestBody := option_map parseRequestBody (op_requestBody operation);
     responses := parseResponses (op_responses operation);
     tags := op_tags operation |}.

(** The five methods, in the order the parser visits them, each with the
    field of the path item it reads. *)
Definition methods : list (string * (OpenAPIPath -> option OpenAPIOperation)) :=
  [("get", path_get); ("post", path_post); ("put", path_put);
   ("patch", path_patch); ("delete", path_delete)].

Definition parsePathItem (path : string) (pathItem : OpenAPIPath)
  : list ParsedEndpoint :=
  flat_map (fun '(method, field) =>
              match field pathItem with
              | Some operation =>
                  [parseOperation method path operation
                     (listOr (path_parameters pathItem))]
              | None => []
              end)
           methods.

Definition parseEndpoints (paths : list (string * OpenAPIPath))
  : list ParsedEndpoint :=
  flat_map (fun '(path, pathItem) => parsePathItem path pathItem) paths.

Definition parseProperties (properties : list (string * OpenAPISchema))
  : list (string * ParsedAPIProperty) :=
  map (fun '(name, schema) =>
         let isArray := typeIsArray schema in
         let type :=
           match isArray, schema_items schema with
           | true, Some items => resolveType items
           | _, _ => resolveType schema
           end in
         (name, {| p_type := type;
                   p_description := schema_description schema;
                   p_isArray := isArray;
                   p_format := schema_format schema |}))
      properties.

Definition parseModels (schemas : list (string * OpenAPISchema))
  : list ParsedAPIModel :=
  map (fun '(name, schema) =>
         {| m_name := name;
            m_description := schema_description schema;
            m_properties := parseProperties (listOr (schema_properties schema));
            m_required := listOr (schema_required schema) |})
      schemas.

Definition isAlphaNum (c : ascii) : bool := isLower c || isUpper c || isDigit c.

Definition sanitizeName (name : string) : string := filterChars isAlphaNum name.

Definition parse (spec : OpenAPISpec) : ParsedAPI :=
  {| api_name := sanitizeName (info_title (info spec));
     api_version := info_version (info spec);
     api_description := info_description (info spec);
     baseUrl :=
       match servers spec with
       | Some (server :: _) => Some (server_url server)
       | _ => None
       end;
     endpoints := parseEndpoints (paths spec);
     models :=
       parseModels
         (match components spec with
          | Some c => listOr (schemas c)
          | None => []
          end) |}.

End OpenAPIParser.

(** ** Plugin-spec parser (plugin-types.ts) *)

Module PluginSpecParser.
Import JS.

Record PluginConfigProperty : Type :=
  mkPluginConfigProperty {
    cfg_name : string;
    cfg_type : string;
    cfg_description : option string;
    cfg_required : bool;
    cfg_defaultValue : option value
  }.

Record PluginConfigSpec : Type :=
  mkPluginConfigSpec { cfg_properties : list PluginConfigProperty }.

Record PluginMethodParameter : Type :=
  mkPluginMethodParameter {
    mp_name : string;
    mp_type : string;
    mp_required : bool;
    mp_defaultValue : option value
  }.

Record PluginMethod : Type :=
  mkPluginMethod {
    meth_name : string;
    meth_description : option string;
    meth_parameters : list PluginMethodParameter;
    meth_returnType : string;
    meth_isAsync : bool;
    meth_throws : bool
  }.

Record PluginModelProperty : Type :=
  mkPluginModelProperty {
    mprop_name : string;
    mprop_type : string;
    mprop_description : option string;
    mprop_required : bool
  }.

Record PluginModel : Type :=
  mkPluginModel {
    pm_name : string;
    pm_description : option string;
    pm_properties : list PluginModelProperty
  }.

Record PluginProvider : Type :=
  mkPluginProvider {
    prov_name : string;
    prov_description : option string;
    prov_protocol : option string
  }.

Record PluginSpec : Type :=
  mkPluginSpec {
    spec_name : string;
    spec_identifier : string;
    spec_version : string;
    spec_description : option string;
    spec_author : option string;
    spec_dependencies : option (list string);
    spec_configuration : option PluginConfigSpec;
    spec_methods : option (list PluginMethod);
    spec_models : option (list PluginModel);
    spec_providers : option (list PluginProvider)
  }.

Record ParsedConfigProperty : Type :=
  mkParsedConfigProperty {
    pc_name : string;
    pc_type : string;
    pc_description : string;
    pc_required : bool;
    pc_defaultValue : option value
  }.

Record ParsedPluginConfig : Type :=
  mkParsedPluginConfig { pc_properties : list ParsedConfigProperty }.

Record ParsedMethodParameter : Type :=
  mkParsedMethodParameter {
    pmp_name : string;
    pmp_type : string;
    pmp_required : bool;
    pmp_defaultValue : option value
  }.

Record ParsedPluginMethod : Type :=
  mkParsedPluginMethod {
    pmeth_name : string;
    pmeth_description : string;
    pmeth_parameters : list ParsedMethodParameter;
    pmeth_returnType : string;
    pmeth_isAsync : bool;
    pmeth_throws : bool
  }.

Record ParsedModelProperty : Type :=
  mkParsedModelProperty {
    pmprop_name : string;
    pmprop_type : string;
    pmprop_description : string;
    pmprop_required : bool
  }.

Record ParsedPluginModel : Type :=
  mkParsedPluginModel {
    ppm_name : string;
    ppm_description : string;
    ppm_properties : list ParsedModelProperty
  }.

Record ParsedPluginProvider : Type :=
  mkParsedPluginProvider {
    pprov_name : string;
    pprov_description : string;
    pprov_protocol : string
  }.

Record ParsedPlugin : Type :=
  mkParsedPlugin {
    name : string;
    identifier : string;
    version : string;
    description : string;
    author : string;
    dependencies : list string;
    configuration : ParsedPluginConfig;
    methods : list ParsedPluginMethod;
    models : list ParsedPluginModel;
    providers : list ParsedPluginProvider;
    managerName : string;
    protocolName : option string
  }.

Definition parseConfig (config : option PluginConfigSpec) (pluginName : string)
  : ParsedPluginConfig :=
  match config with
  | None =>
      {| pc_properties :=
           [ {| pc_name := "enableDebugLogging";
                pc_type := "boolean";
                pc_description := "Whether to enable debug logging";
                pc_required := false;
                pc_defaultValue := Some (VBool false) |} ] |}
  | Some config =>
      {| pc_properties :=
           map (fun prop =>
                  {| pc_name := cfg_name prop;
                     pc_type := cfg_type prop;
                     pc_description := strOr (cfg_description prop) (cfg_name prop);
                     pc_required := cfg_required prop;
                     pc_defaultValue := cfg_defaultValue prop |})
               (cfg_properties config) |}
  end.

Definition parseMethods (methods : list PluginMethod) : list ParsedPluginMethod :=
  map (fun method =>
         {| pmeth_name := meth_name method;
            pmeth_description := strOr (meth_description method) (meth_name method);
            pmeth_parameters :=
              map (fun param =>
                     {| pmp_name := mp_name param;
                        pmp_type := mp_type param;
                        pmp_required := mp_required param;
                        pmp_defaultValue := mp_defaultValue param |})
                  (meth_parameters method);
            pmeth_returnType := meth_returnType method;
            pmeth_isAsync := meth_isAsync method;
            pmeth_throws := meth_throws method |})
      methods.

Definition parseModels (models : list PluginModel) : list ParsedPluginModel :=
  map (fun model =>
         {| ppm_name := pm_name model;
            ppm_description := strOr (pm_description model) (pm_name model);
            ppm_properties :=
              map (fun prop =>
                     {| pmprop_name := mprop_name prop;
                        pmprop_type := mprop_type prop;
                        pmprop_description := strOr (mprop_description prop) (mprop_name prop);
                        pmprop_required := mprop_required prop |})
                  (pm_properties model) |})
      models.

Definition parseProviders (providers : list PluginProvider) (defaultProtocol : string)
  : list ParsedPluginProvider :=
  map (fun provider =>
         {| pprov_name := prov_name provider;
            pprov_description := strOr (prov_description provider) (prov_name provider);
            pprov_protocol := strOr (prov_protocol provider) defaultProtocol |})
      providers.

(** [spec.providers && spec.providers.length > 0] *)
Definition declaresProvider (spec : PluginSpec) : bool :=
  match spec_providers spec with
  | Some (_ :: _) => true
  | _ => false
  end.

Definition parse (spec : PluginSpec) : ParsedPlugin :=
  let name := spec_name spec in
  let pluginName := "Cuppa" ++ name ++ "Plugin" in
  let managerName := name ++ "Manager" in
  let protocolName :=
    if declaresProvider spec then Some (name ++ "Provider") else None in
  {| name := pluginName;
     identifier := strOr (Some (spec_identifier spec)) ("com.cuppa." ++ toLowerCase name);
     version := strOr (Some (spec_version spec)) "1.0.0";
     description := strOr (spec_description spec) ("Plugin for " ++ name ++ " functionality");
     author := strOr (spec_author spec) "MyCuppa Team";
     dependencies := listOr (spec_dependencies spec);
     configuration := parseConfig (spec_configuration spec) name;
     methods := parseMethods (listOr (spec_methods spec));
     models := parseModels (listOr (spec_models spec));
     providers := parseProviders (listOr (spec_providers spec)) (strOr protocolName "");
     managerName := managerName;
     protocolName := protocolName |}.

End PluginSpecParser.

(** ** Design-token parser (design-tokens-types.ts) *)

Module DesignTokensParser.
Import JS.

(** [string | number] *)
Inductive StringOrNumber : Type :=
| IsNumber (x : number)
| IsString (s : string).

(** [string | ColorToken] and [string | ShadowToken]: a bare value, or an
    object with [value] and an optional [description]. *)
Inductive DescribedToken : Type :=
| BareToken (value : string)
| TokenObject (value : string) (description : option string).

(** [string | FontFamily] *)
Inductive FontFamilyToken : Type :=
| BareFamily (value : string)
| FamilyObject (value : string) (fallback : option (list string)).

(** [string | number | SpacingToken] *)
Inductive SpacingTokenValue : Type :=
| BareSpacing (value : StringOrNumber)
| SpacingObject (value : StringOrNumber) (description : option string).

Record TypographyTokens : Type :=
  mkTypographyTokens {
    tok_fontFamilies : option (list (string * FontFamilyToken));
    tok_fontSizes : option (list (string * StringOrNumber));
    tok_fontWeights : option (list (string * StringOrNumber));
    tok_lineHeights : option (list (string * StringOrNumber));
    tok_letterSpacing : option (list (string * StringOrNumber))
  }.

Record DesignTokens : Type :=
  mkDesignTokens {
    tok_colors : option (list (string * DescribedToken));
    tok_typography : option TypographyTokens;
    tok_spacing : option (list (string * SpacingTokenValue));
    tok_borderRadius : option (list (string * StringOrNumber));
    tok_shadows : option (list (string * DescribedToken));
    tok_breakpoints : option (list (string * StringOrNumber))
  }.

(** [ParsedColorGroup] and [ParsedShadow] *)
Record ParsedDescribed : Type :=
  mkParsedDescribed {
    d_name : string;
    d_value : string;
    d_description : option string
  }.

Record ParsedFontFamily : Type :=
  mkParsedFontFamily {
    ff_name : string;
    ff_value : string;
    ff_fallback : option (list string)
  }.

(** [ParsedFontSize], [ParsedLineHeight], [ParsedLetterSpacing],
    [ParsedSpacing], [ParsedBorderRadius] and [ParsedBreakpoint] all have
    this shape. *)
Record ParsedMeasure : Type :=
  mkParsedMeasure {
    name : string;
    value : number;
    unit : string
  }.

Record ParsedFontWeight : Type :=
  mkParsedFontWeight {
    fw_name : string;
    fw_value : StringOrNumber
  }.

Record ParsedTypography : Type :=
  mkParsedTypography {
    fontFamilies : list ParsedFontFamily;
    fontSizes : list ParsedMeasure;
    fontWeights : list ParsedFontWeight;
    lineHeights : list ParsedMeasure;
    letterSpacing : list ParsedMeasure
  }.

Record ParsedTheme : Type :=
  mkParsedTheme {
    theme_name : string;
    colors : list ParsedDescribed;
    typography : ParsedTypography;
    spacing : list ParsedMeasure;
    borderRadius : list ParsedMeasure;
    shadows : list ParsedDescribed;
    breakpoints : list ParsedMeasure
  }.

(** *** parseFloat

    Leading white space is skipped, then the longest prefix that is a signed
    decimal literal (or Infinity) is read; no such prefix gives NaN. *)

Definition isWhiteSpace (c : ascii) : bool :=
  let n := nat_of_ascii c in
  ((9 <=? n)%nat && (n <=? 13)%nat) || (n =? 32)%nat.

Fixpoint trimStart (s : string) : string :=
  match s with
  | EmptyString => EmptyString
  | String c s' => if isWhiteSpace c then trimStart s' else s
  end.

(** The longest prefix whose characters satisfy [f], and what follows it. *)
Fixpoint span (f : ascii -> bool) (s : string) : string * string :=
  match s with
  | EmptyString => (EmptyString, EmptyString)
  | String c s' =>
      if f c then let '(p, r) := span f s' in (String c p, r)
      else (EmptyString, s)
  end.

Definition digitValue (c : ascii) : N := N.of_nat (nat_of_ascii c - 48).

Fixpoint digitsValue (acc : N) (ds : string) : N :=
  match ds with
  | EmptyString => acc
  | String c ds' => digitsValue (acc * 10 + digitValue c)%N ds'
  end.

Definition splitSign (s : string) : bool * string :=
  match s with
  | String "+" r => (false, r)
  | String "-" r => (true, r)
  | _ => (false, s)
  end.

(** The value of an exponent part at the head of [s]; 0 when there is
    none. *)
Definition exponentPart (s : string) : Z :=
  match s with
  | String c r =>
      if Ascii.eqb c "e" || Ascii.eqb c "E" then
        let '(neg, r') := splitSign r in
        let '(ds, _) := span isDigit r' in
        if ds =? "" then 0%Z
        else if neg then (- Z.of_N (digitsValue 0 ds))%Z
        else Z.of_N (digitsValue 0 ds)
      else 0%Z
  | EmptyString => 0%Z
  end.

Definition unsignedLiteral (s : string) : option (N * Z) :=
  let '(ip, r1) := span isDigit s in
  match r1 with
  | String "." r2 =>
      let '(fp, r3) := span isDigit r2 in
      if (ip =? "") && (fp =? "") then None
      else Some (digitsValue 0 (ip ++ fp),
                 (exponentPart r3 - Z.of_nat (String.length fp))%Z)
  | _ =>
      if ip =? "" then None
      else Some (digitsValue 0 ip, exponentPart r1)
  end.

Definition parseFloat (s : string) : number :=
  let '(neg, u) := splitSign (trimStart s) in
  if startsWith "Infinity" u then Infinity neg
  else match unsignedLiteral u with
       | Some (m, e) => Finite neg m e
       | None => NaN
       end.

(** *** parseValue *)

Definition isNumChar (c : ascii) : bool := isDigit c || Ascii.eqb c ".".
Definition isUnitChar (c : ascii) : bool :=
  isLower c || isUpper c || Ascii.eqb c "%".

(** [value.match] against the anchored, case-insensitive pattern of
    parseValue: one or more characters of the class [\d.], then any number
    of characters of the class [a-z%], up to the end.  The result is the pair
    of the two groups.  The classes share no character, so the first group
    is the longest run of digits and dots at the head and the second is all
    the rest. *)
Definition matchNumberUnit (value : string) : option (string * string) :=
  let '(num, rest) := span isNumChar value in
  if num =? "" then None
  else if allChars isUnitChar rest then Some (num, rest)
  else None.

Record NumberWithUnit : Type :=
  mkNumberWithUnit { numValue : number; unitOf : string }.

Definition parseValue (value : StringOrNumber) : NumberWithUnit :=
  match value with
  | IsNumber x => {| numValue := x; unitOf := "px" |}
  | IsString s =>
      match matchNumberUnit s with
      | Some (num, u) =>
          {| numValue := parseFloat num; unitOf := strOr (Some u) "px" |}
      | None =>
          {| numValue := numberOrZero (parseFloat s); unitOf := "px" |}
      end
  end.

(** *** toCamelCase *)

Definition isLineTerminator (c : ascii) : bool :=
  (nat_of_ascii c =? 10)%nat || (nat_of_ascii c =? 13)%nat.

(** [str.replace(/[-_](.)/g, (_, char) => char.toUpperCase())] *)
Fixpoint upperAfterSeparator (s : string) : string :=
  match s with
  | EmptyString => EmptyString
  | String c s' =>
      if Ascii.eqb c "-" || Ascii.eqb c "_" then
        match s' with
        | String d s'' =>
            if isLineTerminator d then String c (upperAfterSeparator s')
            else String (upperChar d) (upperAfterSeparator s'')
        | EmptyString => String c EmptyString
        end
      else String c (upperAfterSeparator s')
  end.

(** [str.replace(/^(.)/, (_, char) => char.toLowerCase())] *)
Definition lowerFirst (s : string) : string :=
  match s with
  | String c s' => if isLineTerminator c then s else String (lowerChar c) s'
  | EmptyString => EmptyString
  end.

Definition toCamelCase (str : string) : string :=
  lowerFirst (upperAfterSeparator str).

(** *** The six categories *)

Definition parseDescribed (entries : list (string * DescribedToken))
  : list ParsedDescribed :=
  map (fun '(name, value) =>
         match value with
         | BareToken v =>
             {| d_name := toCamelCase name; d_value := v; d_description := None |}
         | TokenObject v description =>
             {| d_name := toCamelCase name; d_value := v;
                d_description := description |}
         end)
      entries.

Definition parseColors := parseDescribed.
Definition parseShadows := parseDescribed.

Definition parseFontFamilies (fontFamilies : list (string * FontFamilyToken))
  : list ParsedFontFamily :=
  map (fun '(name, value) =>
         match value with
         | BareFamily v =>
             {| ff_name := toCamelCase name; ff_value := v; ff_fallback := None |}
         | FamilyObject v fallback =>
             {| ff_name := toCamelCase name; ff_value := v;
                ff_fallback := fallback |}
         end)
      fontFamilies.

Definition parseMeasure (entry : string * StringOrNumber) : ParsedMeasure :=
  let '(name, value) := entry in
  let r := parseValue value in
  {| name := toCamelCase name; value := numValue r; unit := unitOf r |}.

Definition parseFontSizes := map parseMeasure.
Definition parseLineHeights := map parseMeasure.
Definition parseLetterSpacing := map parseMeasure.
Definition parseBorderRadius := map parseMeasure.
Definition parseBreakpoints := map parseMeasure.

Definition parseFontWeights (fontWeights : list (string * StringOrNumber))
  : list ParsedFontWeight :=
  map (fun '(name, value) =>
         {| fw_name := toCamelCase name; fw_value := value |})
      fontWeights.

Definition parseSpacing (spacing : list (string * SpacingTokenValue))
  : list ParsedMeasure :=
  map (fun '(name, value) =>
         match value with
         | BareSpacing v => parseMeasure (name, v)
         | SpacingObject v _ => parseMeasure (name, v)
         end)
      spacing.

Definition parseTypography (typography : option TypographyTokens)
  : ParsedTypography :=
  {| fontFamilies :=
       parseFontFamilies
         (match typography with Some t => listOr (tok_fontFamilies t) | None => [] end);
     fontSizes :=
       parseFontSizes
         (match typography with Some t => listOr (tok_fontSizes t) | None => [] end);
     fontWeights :=
       parseFontWeights
         (match typography with Some t => listOr (tok_fontWeights t) | None => [] end);
     lineHeights :=
       parseLineHeights
         (match typography with Some t => listOr (tok_lineHeights t) | None => [] end);
     letterSpacing :=
       parseLetterSpacing
         (match typography with Some t => listOr (tok_letterSpacing t) | None => [] end) |}.

(** The parameter [name] has the default value Theme. *)
Definition parse (tokens : DesignTokens) (name : option string) : ParsedTheme :=
  {| theme_name := match name with Some n => n | None => "Theme" end;
     colors := parseColors (listOr (tok_colors tokens));
     typography := parseTypography (tok_typography tokens);
     spacing := parseSpacing (listOr (tok_spacing tokens));
     borderRadius := parseBorderRadius (listOr (tok_borderRadius tokens));
     shadows := parseShadows (listOr (tok_shadows tokens));
     breakpoints := parseBreakpoints (listOr (tok_breakpoints tokens)) |}.

End DesignTokensParser.

(** ** Kotlin theme generator (kotlin-theme-generator.ts)

    A generator reads two things from outside its arguments: the clock, in
    createHeader, and the text of a number, in a template literal.  The clock
    reading is the argument [now], the text [new Date().toISOString()]
    returns; the text of a number is given by [numberToString]. *)

Module KotlinThemeGenerator.
Import JS.
Import DesignTokensParser.

(** [new Date().toISOString().split('T')[0]] *)
Definition timestampOf (now : string) : string :=
  List.hd EmptyString (split "T" now).

Definition createHeader (now sourceFile : string) : string :=
  let timestamp := timestampOf now in
  join nl
    [ "// Generated by cuppa-cli from " ++ sourceFile;
      "// Generation date: " ++ timestamp;
      "// DO NOT EDIT MANUALLY - Changes will be overwritten";
      EmptyString ].

Definition hasTypography (theme : ParsedTheme) : bool :=
  nonEmpty (fontFamilies (typography theme))
  || nonEmpty (fontSizes (typography theme))
  || nonEmpty (fontWeights (typography theme)).

Definition convertToKotlinColor (hexColor : string) : string :=
  let hex := removeFirst "#" hexColor in
  let hex := if (String.length hex =? 6)%nat then "FF" ++ hex else hex in
  "Color(0x" ++ toUpperCase hex ++ ")".

Definition weightMap : list (string * string) :=
  [ ("thin", "FontWeight.Thin");
    ("extralight", "FontWeight.ExtraLight");
    ("light", "FontWeight.Light");
    ("normal", "FontWeight.Normal");
    ("regular", "FontWeight.Normal");
    ("medium", "FontWeight.Medium");
    ("semibold", "FontWeight.SemiBold");
    ("bold", "FontWeight.Bold");
    ("extrabold", "FontWeight.ExtraBold");
    ("black", "FontWeight.Black") ].

Definition typographyMap : list (string * string) :=
  [ ("displayLarge", "displayLarge");
    ("displayMedium", "displayMedium");
    ("displaySmall", "displaySmall");
    ("headlineLarge", "headlineLarge");
    ("headlineMedium", "headlineMedium");
    ("headlineSmall", "headlineSmall");
    ("titleLarge", "titleLarge");
    ("titleMedium", "titleMedium");
    ("titleSmall", "titleSmall");
    ("bodyLarge", "bodyLarge");
    ("bodyMedium", "bodyMedium");
    ("bodySmall", "bodySmall");
    ("labelLarge", "labelLarge");
    ("labelMedium", "labelMedium");
    ("labelSmall", "labelSmall") ].

Section Generator.
Variable numberToString : number -> string.

Definition convertToKotlinFontWeight (weight : StringOrNumber) : string :=
  match weight with
  | IsNumber x => "FontWeight(" ++ numberToString x ++ ")"
  | IsString w =>
      strOr (lookup (toLowerCase w) weightMap) "FontWeight.Normal"
  end.

Definition colorsBlock (theme : ParsedTheme) : list string :=
  pushIf (nonEmpty (colors theme))
    ([ "    // Colors"; "    object Colors {" ]
     +++ flat_map (fun color =>
                    pushIf (strTruthy (d_description color))
                      [ "        /** " ++ strOr (d_description color) "" ++ " */" ]
                    +++ [ "        val " ++ capitalize (d_name color) ++ " = "
                         ++ convertToKotlinColor (d_value color) ])
                 (colors theme)
     +++ [ "    }"; EmptyString ]).

Definition typographyBlock (theme : ParsedTheme) : list string :=
  pushIf (hasTypography theme)
    ([ "    // Typography" ]
     +++ pushIf (nonEmpty (fontFamilies (typography theme)))
          ([ "    object FontFamilies {" ]
           +++ map (fun font =>
                     "        const val " ++ capitalize (ff_name font) ++ " = "
                     ++ dq ++ ff_value font ++ dq)
                  (fontFamilies (typography theme))
           +++ [ "    }"; EmptyString ])
     +++ pushIf (nonEmpty (fontSizes (typography theme)))
          ([ "    object FontSizes {" ]
           +++ map (fun size =>
                     "        val " ++ capitalize (name size) ++ " = "
                     ++ numberToString (value size) ++ ".sp")
                  (fontSizes (typography theme))
           +++ [ "    }"; EmptyString ])
     +++ pushIf (nonEmpty (fontWeights (typography theme)))
          ([ "    object FontWeights {" ]
           +++ map (fun weight =>
                     "        val " ++ capitalize (fw_name weight) ++ " = "
                     ++ convertToKotlinFontWeight (fw_value weight))
                  (fontWeights (typography theme))
           +++ [ "    }"; EmptyString ])).

Definition dpBlock (title object : string) (entries : list ParsedMeasure)
  : list string :=
  pushIf (nonEmpty entries)
    ([ "    // " ++ title; "    object " ++ object ++ " {" ]
     +++ map (fun e =>
               "        val " ++ capitalize (name e) ++ " = "
               ++ numberToString (value e) ++ ".dp")
            entries
     +++ [ "    }"; EmptyString ]).

Definition shadowsBlock (theme : ParsedTheme) : list string :=
  pushIf (nonEmpty (shadows theme))
    ([ "    // Shadows"; "    object Shadows {" ]
     +++ flat_map (fun shadow =>
                    pushIf (strTruthy (d_description shadow))
                      [ "        /** " ++ strOr (d_description shadow) "" ++ " */" ]
                    +++ [ "        const val " ++ capitalize (d_name shadow) ++ " = "
                         ++ dq ++ d_value shadow ++ dq ])
                 (shadows theme)
     +++ [ "    }"; EmptyString ]).

Definition typographyEntries (theme : ParsedTheme) : list string :=
  flat_map (fun '(key, value) =>
              match find (fun s => toLowerCase (name s) =? toLowerCase key)
                         (fontSizes (typography theme)) with
              | Some matchingSize =>
                  [ "    " ++ value ++ " = TextStyle(fontSize = "
                    ++ theme_name theme ++ ".FontSizes."
                    ++ capitalize (name matchingSize) ++ ")" ]
              | None => []
              end)
           typographyMap.

Definition composeTypography (theme : ParsedTheme) : list string :=
  pushIf (nonEmpty (fontSizes (typography theme)))
    ([ "/**"; " * Material 3 Typography configuration"; " */";
       "val " ++ theme_name theme ++ "Typography = Typography(" ]
     +++ pushIf (nonEmpty (typographyEntries theme))
          [ join ("," ++ nl) (typographyEntries theme) ]
     +++ [ ")"; EmptyString ]).

(** The array [lines] of generate, after its first element. *)
Definition bodyLines (theme : ParsedTheme) (sourceFile : string) : list string :=
  ([ "import androidx.compose.ui.graphics.Color";
     "import androidx.compose.ui.unit.dp";
     "import androidx.compose.ui.unit.sp";
     "import androidx.compose.material3.Typography";
     "import androidx.compose.ui.text.TextStyle";
     "import androidx.compose.ui.text.font.FontWeight";
     EmptyString;
     "/**";
     " * Design system theme generated from " ++ sourceFile;
     " */";
     "object " ++ theme_name theme ++ " {";
     EmptyString ]
   +++ colorsBlock theme
   +++ typographyBlock theme
   +++ dpBlock "Spacing" "Spacing" (spacing theme)
   +++ dpBlock "Border Radius" "BorderRadius" (borderRadius theme)
   +++ shadowsBlock theme
   +++ [ "}"; EmptyString ]
   +++ composeTypography theme).

Definition generate (now : string) (theme : ParsedTheme) (sourceFile : string)
  : string :=
  let lines := createHeader now sourceFile :: bodyLines theme sourceFile in
  join nl lines.

End Generator.

End KotlinThemeGenerator.

(** ** Component-spec parser (component-types.ts) *)

Module ComponentSpecParser.
Import JS.

Record ComponentProperty : Type :=
  mkComponentProperty {
    cp_name : string;
    cp_type : string;
    cp_required : bool;
    cp_defaultValue : option value;
    cp_description : option string
  }.

Record PaddingSides : Type :=
  mkPaddingSides {
    side_top : option number;
    side_bottom : option number;
    side_leading : option number;
    side_trailing : option number
  }.

(** [padding?: number | { top?, bottom?, leading?, trailing? }] *)
Inductive PaddingSpec : Type :=
| PaddingNumber (x : number)
| PaddingObject (sides : PaddingSides).

Record ComponentStyle : Type :=
  mkComponentStyle {
    cs_backgroundColor : option string;
    cs_foregroundColor : option string;
    cs_borderColor : option string;
    cs_borderWidth : option number;
    cs_cornerRadius : option number;
    cs_padding : option PaddingSpec;
    cs_font : option string;
    cs_fontWeight : option string;
    cs_minHeight : option number;
    cs_maxWidth : option string
  }.

Record ComponentState : Type :=
  mkComponentState {
    st_showSpinner : option bool;
    st_disableInteraction : option bool;
    st_opacity : option number;
    st_backgroundColor : option string;
    st_foregroundColor : option string;
    st_borderColor : option string;
    st_scale : option number
  }.

Record ComponentActionParameter : Type :=
  mkComponentActionParameter {
    cap_name : string;
    cap_type : string;
    cap_label : option string
  }.

Record ComponentAction : Type :=
  mkComponentAction {
    ca_name : string;
    ca_type : string;
    ca_parameters : list ComponentActionParameter;
    ca_returnType : option string
  }.

Record ComponentSlot : Type :=
  mkComponentSlot {
    slot_name : string;
    slot_required : bool;
    slot_description : option string
  }.

Record ComponentSpec : Type :=
  mkComponentSpec {
    spec_component : string;
    spec_category : string;
    spec_description : option string;
    spec_properties : list ComponentProperty;
    spec_style : option ComponentStyle;
    spec_states : option (list (string * ComponentState));
    spec_actions : option (list ComponentAction);
    spec_slots : option (list ComponentSlot)
  }.

Record ParsedProperty : Type :=
  mkParsedProperty {
    prop_name : string;
    prop_type : string;
    swiftType : string;
    required : bool;
    defaultValue : option value;
    prop_description : string;
    isBinding : bool
  }.

Record Padding : Type :=
  mkPadding { top : number; bottom : number; leading : number; trailing : number }.

Record ParsedStyle : Type :=
  mkParsedStyle {
    backgroundColor : option string;
    foregroundColor : option string;
    borderColor : option string;
    borderWidth : option number;
    cornerRadius : option number;
    padding : Padding;
    font : option string;
    fontWeight : option string;
    minHeight : option number;
    maxWidth : option string
  }.

Record ParsedState : Type :=
  mkParsedState {
    state_name : string;
    showSpinner : bool;
    disableInteraction : bool;
    opacity : option number;
    state_backgroundColor : option string;
    state_foregroundColor : option string;
    state_borderColor : option string;
    scale : option number
  }.

Record ParsedActionParameter : Type :=
  mkParsedActionParameter {
    ap_name : string;
    ap_type : string;
    ap_swiftType : string;
    ap_label : option string
  }.

Record ParsedAction : Type :=
  mkParsedAction {
    action_name : string;
    isAsync : bool;
    parameters : list ParsedActionParameter;
    returnType : string
  }.

Record ParsedSlot : Type :=
  mkParsedSlot {
    pslot_name : string;
    pslot_required : bool;
    pslot_description : string
  }.

Record ParsedComponent : Type :=
  mkParsedComponent {
    name : string;
    category : string;
    description : string;
    properties : list ParsedProperty;
    style : ParsedStyle;
    states : list (string * ParsedState);
    actions : list ParsedAction;
    slots : list ParsedSlot;
    hasAsyncAction : bool;
    hasLoadingState : bool
  }.

Definition typeMap : list (string * string) :=
  [ ("String", "String"); ("Int", "Int"); ("Double", "Double");
    ("Bool", "Bool"); ("Color", "Color"); ("Font", "Font");
    ("Image", "Image"); ("Void", "Void"); ("Any", "Any") ].

(** mapToSwiftType calls itself on a strictly shorter string; [fuel] bounds
    the depth of the calls. *)
Fixpoint mapToSwiftTypeFuel (fuel : nat) (type : string) : string :=
  match fuel with
  | O => type
  | S fuel' =>
      if startsWith "Binding<" type && endsWith ">" type then
        let innerType := slice 8 1 type in
        mapToSwiftTypeFuel fuel' innerType
      else if endsWith "[]" type then
        let baseType := slice 0 2 type in
        "[" ++ mapToSwiftTypeFuel fuel' baseType ++ "]"
      else if endsWith "?" type then
        let baseType := slice 0 1 type in
        mapToSwiftTypeFuel fuel' baseType ++ "?"
      else strOr (lookup type typeMap) type
  end.

Definition mapToSwiftType (type : string) : string :=
  mapToSwiftTypeFuel (S (String.length type)) type.

Definition parseProperties (properties : list ComponentProperty)
  : list ParsedProperty :=
  map (fun prop =>
         let isBinding := startsWith "Binding<" (cp_type prop) in
         {| prop_name := cp_name prop;
            prop_type := cp_type prop;
            swiftType := mapToSwiftType (cp_type prop);
            required := cp_required prop;
            defaultValue := cp_defaultValue prop;
            prop_description := strOr (cp_description prop) (cp_name prop);
            isBinding := isBinding |})
      properties.

Definition sixteen : number := ofN 16.

Definition defaultPadding : Padding :=
  {| top := sixteen; bottom := sixteen; leading := sixteen; trailing := sixteen |}.

(** [x ?? 16] *)
Definition orSixteen (x : option number) : number :=
  match x with Some n => n | None => sixteen end.

Definition parseStyle (style : option ComponentStyle) : ParsedStyle :=
  match style with
  | None =>
      {| backgroundColor := None; foregroundColor := None; borderColor := None;
         borderWidth := None; cornerRadius := None;
         padding := defaultPadding;
         font := None; fontWeight := None; minHeight := None; maxWidth := None |}
  | Some style =>
      let padding :=
        match cs_padding style with
        | Some (PaddingNumber x) =>
            {| top := x; bottom := x; leading := x; trailing := x |}
        | Some (PaddingObject sides) =>
            {| top := orSixteen (side_top sides);
               bottom := orSixteen (side_bottom sides);
               leading := orSixteen (side_leading sides);
               trailing := orSixteen (side_trailing sides) |}
        | None => defaultPadding
        end in
      {| backgroundColor := cs_backgroundColor style;
         foregroundColor := cs_foregroundColor style;
         borderColor := cs_borderColor style;
         borderWidth := cs_borderWidth style;
         cornerRadius := cs_cornerRadius style;
         padding := padding;
         font := cs_font style;
         fontWeight := cs_fontWeight style;
         minHeight := cs_minHeight style;
         maxWidth := cs_maxWidth style |}
  end.

Definition parseStates (states : option (list (string * ComponentState)))
  : list (string * ParsedState) :=
  match states with
  | None => []
  | Some states =>
      map (fun '(name, state) =>
             (name,
              {| state_name := name;
                 showSpinner := boolOr (st_showSpinner state);
                 disableInteraction := boolOr (st_disableInteraction state);
                 opacity := st_opacity state;
                 state_backgroundColor := st_backgroundColor state;
                 state_foregroundColor := st_foregroundColor state;
                 state_borderColor := st_borderColor state;
                 scale := st_scale state |}))
          states
  end.

Definition parseActions (actions : list ComponentAction) : list ParsedAction :=
  map (fun action =>
         {| action_name := ca_name action;
            isAsync := ca_type action =? "async";
            parameters :=
              map (fun param =>
                     {| ap_name := cap_name param;
                        ap_type := cap_type param;
                        ap_swiftType := mapToSwiftType (cap_type param);
                        ap_label := cap_label param |})
                  (ca_parameters action);
            returnType := strOr (ca_returnType action) "Void" |})
      actions.

Definition parseSlots (slots : list ComponentSlot) : list ParsedSlot :=
  map (fun slot =>
         {| pslot_name := slot_name slot;
            pslot_required := slot_required slot;
            pslot_description := strOr (slot_description slot) (slot_name slot) |})
      slots.

Definition parse (spec : ComponentSpec) : ParsedComponent :=
  let actions := parseActions (listOr (spec_actions spec)) in
  let hasAsyncAction := existsb isAsync actions in
  let hasLoadingState :=
    match spec_states spec with
    | Some states => isSome (lookup "loading" states)
    | None => false
    end in
  {| name := spec_component spec;
     category := spec_category spec;
     description := strOr (spec_description spec) (spec_component spec);
     properties := parseProperties (spec_properties spec);
     style := parseStyle (spec_style spec);
     states := parseStates (spec_states spec);
     actions := actions;
     slots := parseSlots (listOr (spec_slots spec));
     hasAsyncAction := hasAsyncAction;
     hasLoadingState := hasLoadingState |}.

End ComponentSpecParser.

(** ** Swift component generator (swift-component-generator.ts) *)

Module SwiftComponentGenerator.
Import JS.
Import ComponentSpecParser.

Definition timestampOf (now : string) : string :=
  List.hd EmptyString (split "T" now).

Definition createHeader (now componentName sourceFile : string) : string :=
  let timestamp := timestampOf now in
  join nl
    [ "//";
      "//  " ++ componentName ++ ".swift";
      "//  CuppaUI";
      "//";
      "//  Generated from component specifications on " ++ timestamp ++ ".";
      "//  Copyright © 2025 MyCuppa. All rights reserved.";
      "//";
      "//  " ++ componentName ++ " component";
      "//";
      "//  ⚠️ DO NOT EDIT: This file is auto-generated from component specifications.";
      "//  Source: " ++ sourceFile;
      "//  To make changes, update the component JSON files and regenerate.";
      "//";
      EmptyString ].

Definition isBindingType (prop : ParsedProperty) : bool :=
  startsWith "Binding<" (prop_type prop).

Definition generateExampleUsage (component : ParsedComponent) : string :=
  let requiredProps := filter required (properties component) in
  let propsStr :=
    match requiredProps with
    | p :: _ =>
        if prop_type p =? "String" then dq ++ prop_name p ++ dq
        else if prop_type p =? "Bool" then "true"
        else if (prop_type p =? "Int") || (prop_type p =? "Double") then "0"
        else prop_name p
    | [] => EmptyString
    end in
  if hasAsyncAction component then
    "/// " ++ name component ++ "(" ++ propsStr ++ ") {" ++ nl
    ++ "///     // Handle action" ++ nl ++ "/// }"
  else "/// " ++ name component ++ "(" ++ propsStr ++ ")".

Definition findByName (names : list string) (props : list ParsedProperty)
  : option ParsedProperty :=
  find (fun p => includes names (prop_name p)) props.

Definition generateActionHandler (component : ParsedComponent) : string :=
  join nl
    [ "    private func handleAction() {";
      "        Task {";
      "            isPerformingAction = true";
      "            await action()";
      "            isPerformingAction = false";
      "        }";
      "    }" ].

Section Generator.
Variable numberToString : number -> string.

(** [String(v)] and the text of [v] in a template literal. *)
Fixpoint valueToString (v : value) : string :=
  match v with
  | VNull => "null"
  | VBool b => if b then "true" else "false"
  | VNumber x => numberToString x
  | VString s => s
  | VArray items =>
      join ","
        (map (fun item =>
                match item with
                | VNull => EmptyString
                | _ => valueToString item
                end)
             items)
  | VObject _ => "[object Object]"
  end.

Definition formatDefaultValue (v : value) (type : string) : string :=
  if type =? "String" then dq ++ valueToString v ++ dq
  else if type =? "Bool" then (if truthy v then "true" else "false")
  else if type =? "Color" then "." ++ valueToString v
  else valueToString v.

(** The parameter line of one property, shared by the three initializers. *)
Definition propertyParam (prop : ParsedProperty) : string :=
  let isBinding := isBindingType prop in
  let paramType :=
    if isBinding then "Binding<" ++ swiftType prop ++ ">" else swiftType prop in
  let defaultVal :=
    match negb (required prop), defaultValue prop with
    | true, Some v => " = " ++ formatDefaultValue v (prop_type prop)
    | _, _ => EmptyString
    end in
  "        " ++ prop_name prop ++ ": " ++ paramType ++ defaultVal.

Definition propertyAssignment (prop : ParsedProperty) : string :=
  let isBinding := isBindingType prop in
  let prefix := if isBinding then "_" else "self." in
  "        " ++ prefix ++ prop_name prop ++ " = " ++ prop_name prop.

Definition actionSignature (action : ParsedAction) : string :=
  let params := join ", " (map ap_swiftType (parameters action)) in
  let returnType :=
    if negb (returnType action =? "Void") then " -> " ++ returnType action
    else " -> Void" in
  let asyncKeyword := if isAsync action then " async" else EmptyString in
  "(" ++ params ++ ")" ++ asyncKeyword ++ returnType.

Definition generateInitializer (component : ParsedComponent) : string :=
  let params :=
    map propertyParam (properties component)
    +++ map (fun action =>
               "        " ++ action_name action ++ ": @escaping "
               ++ actionSignature action)
            (actions component) in
  join nl
    ([ "    public init(";
       join ("," ++ nl) params;
       "    ) {" ]
     +++ map propertyAssignment (properties component)
     +++ map (fun action =>
                "        self." ++ action_name action ++ " = " ++ action_name action)
             (actions component)
     +++ [ "    }" ]).

Definition generateAsyncInitializer (component : ParsedComponent) : string :=
  let params :=
    map propertyParam (properties component)
    +++ [ "        action: @escaping () async -> Void" ] in
  join nl
    ([ "    /// Async action initializer";
       "    public init(";
       join ("," ++ nl) params;
       "    ) {" ]
     +++ map propertyAssignment (properties component)
     +++ [ "        self.action = action";
           "    }" ]).

Definition generateSyncInitializer (component : ParsedComponent) : string :=
  let params :=
    map propertyParam (properties component)
    +++ [ "        action: @escaping () -> Void" ] in
  join nl
    ([ "    /// Synchronous action initializer";
       "    public init(";
       join ("," ++ nl) params;
       "    ) {" ]
     +++ map propertyAssignment (properties component)
     +++ [ "        self.action = {";
           "            Task { action() }";
           "        }";
           "    }" ]).

(** [if (x)] on an optional number. *)
Definition numTruthy (x : option number) : bool :=
  match x with Some n => numberTruthy n | None => false end.

Definition textOf (x : option number) : string :=
  match x with Some n => numberToString n | None => "undefined" end.

Definition generateStyling (component : ParsedComponent) (indent : string)
  : string :=
  let style := style component in
  join nl
    (pushIf (strTruthy (font style))
       [ indent ++ ".font(." ++ strOr (font style) "" ++ ")" ]
     +++ pushIf (strTruthy (fontWeight style))
       [ indent ++ ".fontWeight(." ++ strOr (fontWeight style) "" ++ ")" ]
     +++ pushIf (strTruthy (foregroundColor style))
       [ indent ++ ".foregroundStyle(." ++ strOr (foregroundColor style) "" ++ ")" ]
     +++ [ indent ++ ".padding(.vertical, " ++ numberToString (top (padding style)) ++ ")";
           indent ++ ".padding(.horizontal, " ++ numberToString (leading (padding style)) ++ ")" ]
     +++ pushIf (strTruthy (backgroundColor style))
       [ indent ++ ".background(." ++ strOr (backgroundColor style) "" ++ ")" ]
     +++ pushIf (numTruthy (cornerRadius style))
       [ indent ++ ".clipShape(RoundedRectangle(cornerRadius: "
         ++ textOf (cornerRadius style) ++ "))" ]
     +++ pushIf (strTruthy (borderColor style) && numTruthy (borderWidth style))
       [ indent ++ ".overlay(";
         indent ++ "    RoundedRectangle(cornerRadius: "
         ++ numberToString
              (if numTruthy (cornerRadius style)
               then match cornerRadius style with Some n => n | None => ofN 0 end
               else ofN 0)
         ++ ")";
         indent ++ "        .strokeBorder(." ++ strOr (borderColor style) ""
         ++ ", lineWidth: " ++ textOf (borderWidth style) ++ ")";
         indent ++ ")" ]
     +++ pushIf (strTruthy (maxWidth style))
       [ indent ++ ".frame(maxWidth: ." ++ strOr (maxWidth style) "" ++ ")" ]
     +++ pushIf (numTruthy (minHeight style))
       [ indent ++ ".frame(minHeight: " ++ textOf (minHeight style) ++ ")" ]).

Definition generateBody (component : ParsedComponent) : string :=
  let indent := "        " in
  let iconProp := findByName ["icon"; "iconName"] (properties component) in
  let titleProp := findByName ["title"; "text"] (properties component) in
  let messageProp := findByName ["message"] (properties component) in
  join nl
    (match actions component with
     | first :: _ =>
         [ indent ++ "Button {";
           if hasAsyncAction component then indent ++ "    handleAction()"
           else indent ++ "    " ++ action_name first ++ "()";
           indent ++ "} label: {" ]
     | [] => []
     end
     +++ (if hasLoadingState component then
            [ indent ++ "    ZStack {" ]
            +++ match iconProp, titleProp with
                | Some p, _ =>
                    [ indent ++ "        Image(systemName: " ++ prop_name p ++ ")";
                      indent ++ "            .opacity((isLoading || isPerformingAction) ? 0 : 1)" ]
                | None, Some p =>
                    [ indent ++ "        Text(" ++ prop_name p ++ ")";
                      indent ++ "            .opacity((isLoading || isPerformingAction) ? 0 : 1)" ]
                | None, None => []
                end
            +++ [ EmptyString;
                  indent ++ "        if isLoading || isPerformingAction {";
                  indent ++ "            ProgressView()";
                  indent ++ "                .progressViewStyle(CircularProgressViewStyle())";
                  indent ++ "        }";
                  indent ++ "    }" ]
          else
            match iconProp, messageProp, titleProp with
            | Some p, _, _ => [ indent ++ "    Image(systemName: " ++ prop_name p ++ ")" ]
            | None, Some p, _ => [ indent ++ "    Text(" ++ prop_name p ++ ")" ]
            | None, None, Some p => [ indent ++ "    Text(" ++ prop_name p ++ ")" ]
            | None, None, None => []
            end)
     +++ [ generateStyling component (indent ++ "    ") ]
     +++ pushIf (nonEmpty (actions component))
           [ indent ++ "}"; indent ++ ".buttonStyle(.plain)" ]
     +++ pushIf (hasLoadingState component)
           [ indent ++ ".disabled(isLoading || isPerformingAction)";
             indent ++ ".opacity((isLoading || isPerformingAction) ? 0.6 : 1.0)" ]).

(** The entry of the preview call one property contributes, if any. *)
Definition previewParam (component : ParsedComponent) (prop : ParsedProperty)
  : list string :=
  let n := prop_name prop in
  if isBindingType prop then
    if swiftType prop =? "Bool" then [ n ++ ": $previewBool" ]
    else [ n ++ ": $previewText" ]
  else if includes ["title"; "text"] n then
    [ n ++ ": " ++ dq ++ name component ++ dq ]
  else if n =? "message" then [ n ++ ": " ++ dq ++ "This is a " ++ n ++ dq ]
  else if n =? "type" then [ n ++ ": " ++ dq ++ "info" ++ dq ]
  else if n =? "status" then [ n ++ ": " ++ dq ++ "success" ++ dq ]
  else if includes ["icon"; "iconName"; "systemIcon"] n then
    [ n ++ ": " ++ dq ++ "star.fill" ++ dq ]
  else if (n =? "description") && (prop_type prop =? "String") && required prop then
    [ n ++ ": " ++ dq ++ "Description text" ++ dq ]
  else if (n =? "label") && negb (required prop) then
    [ n ++ ": " ++ dq ++ "Button" ++ dq ]
  else if includes ["errorMessage"; "subtitle"; "description"] n then
    [ n ++ ": nil" ]
  else if (n =? "options") && startsWith "[" (swiftType prop) then
    [ n ++ ": [" ++ dq ++ "Option 1" ++ dq ++ ", " ++ dq ++ "Option 2" ++ dq
      ++ ", " ++ dq ++ "Option 3" ++ dq ++ "]" ]
  else if (prop_type prop =? "String") && required prop then
    [ n ++ ": " ++ dq ++ n ++ dq ]
  else if (prop_type prop =? "String?") && negb (required prop) then []
  else if (prop_type prop =? "Bool") && required prop then [ n ++ ": false" ]
  else [].

Definition generatePreview (component : ParsedComponent) : string :=
  let bindingProps := filter isBindingType (properties component) in
  let hasStringBinding := existsb (fun p => swiftType p =? "String") bindingProps in
  let hasBoolBinding := existsb (fun p => swiftType p =? "Bool") bindingProps in
  let previewParams := flat_map (previewParam component) (properties component) in
  let paramsStr := join ", " previewParams in
  join nl
    ([ "#Preview(" ++ dq ++ name component ++ dq ++ ") {" ]
     +++ pushIf (nonEmpty bindingProps)
           (pushIf hasStringBinding
              [ "    @Previewable @State var previewText = " ++ dq ++ dq ]
            +++ pushIf hasBoolBinding
              [ "    @Previewable @State var previewBool = false" ])
     +++ [ "    VStack(spacing: 20) {" ]
     +++ (if hasAsyncAction component then
            [ "        " ++ name component ++ "(" ++ paramsStr ++ ") {";
              "            // Async action";
              "        }" ]
          else if nonEmpty (actions component) then
            [ "        " ++ name component ++ "(" ++ paramsStr ++ ") {";
              "            print(" ++ dq ++ "Action triggered" ++ dq ++ ")";
              "        }" ]
          else [ "        " ++ name component ++ "(" ++ paramsStr ++ ")" ])
     +++ [ "    }"; "    .padding()"; "}" ]).

(** The lines pushed before the initializers. *)
Definition declarationLines (now : string) (component : ParsedComponent)
  (sourceFile : string) : list string :=
  [ createHeader now (name component) sourceFile;
    "import SwiftUI" ]
  +++ pushIf ((category component =? "forms") || hasAsyncAction component)
        [ "import CuppaCore" ]
  +++ [ EmptyString;
        "/// " ++ description component;
        "///";
        "/// Features:" ]
  +++ pushIf (hasAsyncAction component)
        [ "/// - Async action support"; "/// - Synchronous action support" ]
  +++ pushIf (hasLoadingState component)
        [ "/// - Loading state with spinner"; "/// - Automatic state management" ]
  +++ flat_map (fun prop =>
                  pushIf (negb (prop_description prop =? prop_name prop))
                    [ "/// - " ++ prop_description prop ])
               (properties component)
  +++ [ "///";
        "/// Example:";
        "/// ```swift";
        generateExampleUsage component;
        "/// ```";
        "public struct " ++ name component ++ ": View {";
        "    // MARK: - Properties";
        EmptyString ]
  +++ map (fun prop =>
             let isBinding := isBindingType prop in
             let bindingPrefix := if isBinding then "@Binding " else EmptyString in
             let varLet := if isBinding then "var" else "let" in
             "    " ++ bindingPrefix ++ varLet ++ " " ++ prop_name prop ++ ": "
             ++ swiftType prop)
          (properties component)
  +++ pushIf (hasAsyncAction component)
        [ "    @State private var isPerformingAction = false" ]
  +++ map (fun action =>
             "    let " ++ action_name action ++ ": " ++ actionSignature action)
          (actions component)
  +++ [ EmptyString;
        "    // MARK: - Initialization";
        EmptyString ].

(** The lines the branch on hasAsyncAction pushes. *)
Definition initializerLines (component : ParsedComponent) : list string :=
  if hasAsyncAction component then
    [ generateAsyncInitializer component;
      EmptyString;
      generateSyncInitializer component;
      EmptyString ]
  else
    [ generateInitializer component;
      EmptyString ].

(** The lines pushed after the initializers. *)
Definition bodyLines (component : ParsedComponent) : list string :=
  [ "    // MARK: - Body";
    EmptyString;
    "    public var body: some View {";
    generateBody component;
    "    }" ]
  +++ pushIf (hasAsyncAction component)
        [ EmptyString;
          "    // MARK: - Actions";
          EmptyString;
          generateActionHandler component ]
  +++ [ "}";
        EmptyString;
        generatePreview component ].

(** The array [lines] of generate, one element per push. *)
Definition generateLines (now : string) (component : ParsedComponent)
  (sourceFile : string) : list string :=
  declarationLines now component sourceFile
  +++ initializerLines component
  +++ bodyLines component.

Definition generate (now : string) (component : ParsedComponent)
  (sourceFile : string) : string :=
  join nl (generateLines now component sourceFile).

End Generator.

End SwiftComponentGenerator.

(** ** The text of a number

    In a template literal an integer of magnitude below 2^53 is written with
    its decimal digits, and a minus sign when it is negative. *)

Module NumberText.
Import JS.

Definition writeN (n : N) : string := NilEmpty.string_of_uint (N.to_uint n).

Definition writeZ (z : Z) : string :=
  match z with
  | Zneg p => "-" ++ writeN (Npos p)
  | _ => writeN (Z.to_N z)
  end.

Definition ofZ (z : Z) : number :=
  match z with
  | Zneg p => Finite true (Npos p) 0
  | _ => Finite false (Z.to_N z) 0
  end.

(** A number-to-text function for the examples.  It agrees with JavaScript
    on NaN, on the infinities and on the integers of magnitude below 2^53;
    the examples use it on such numbers only. *)
Definition integerToString (x : number) : string :=
  match x with
  | NaN => "NaN"
  | Infinity neg => if neg then "-Infinity" else "Infinity"
  | Finite neg m e =>
      (if neg && negb (m =? 0)%N then "-" else EmptyString)
      ++ writeN (m * 10 ^ Z.to_N e)
  end.

End NumberText.

(** ** Example documents *)

Module Examples.
Import JS.

(** Scenario A of the specification. *)
Definition userSchema : JSONSchemaParser.JSONSchema :=
  {| JSONSchemaParser.schema_title := Some "User";
     JSONSchemaParser.schema_description := None;
     JSONSchemaParser.schema_type := "object";
     JSONSchemaParser.schema_properties :=
       Some [ ("id", JSONSchemaParser.mkProperty
                       (JSONSchemaParser.TypeName "string") None None None None None);
              ("age", JSONSchemaParser.mkProperty
                        (JSONSchemaParser.TypeName "integer") None None None None None) ];
     JSONSchemaParser.schema_required := Some ["id"] |}.

(** An object schema without a title: one required nullable property, one
    array of strings, one array that declares no items. *)
Definition untitledSchema : JSONSchemaParser.JSONSchema :=
  {| JSONSchemaParser.schema_title := None;
     JSONSchemaParser.schema_description := None;
     JSONSchemaParser.schema_type := "object";
     JSONSchemaParser.schema_properties :=
       Some [ ("nickname", JSONSchemaParser.mkProperty
                             (JSONSchemaParser.TypeUnion ["null"; "string"])
                             None None None None (Some true));
              ("emails", JSONSchemaParser.mkProperty
                           (JSONSchemaParser.TypeName "array") None None
                           (Some (JSONSchemaParser.mkProperty
                                    (JSONSchemaParser.TypeName "string")
                                    None None None None None))
                           None None);
              ("tags", JSONSchemaParser.mkProperty
                         (JSONSchemaParser.TypeName "array") None None None None None) ];
     JSONSchemaParser.schema_required := Some ["nickname"] |}.

(** A schema whose root is a string. *)
Definition stringSchema : JSONSchemaParser.JSONSchema :=
  {| JSONSchemaParser.schema_title := Some "Name";
     JSONSchemaParser.schema_description := None;
     JSONSchemaParser.schema_type := "string";
     JSONSchemaParser.schema_properties := None;
     JSONSchemaParser.schema_required := None |}.

(** The plugin command's provider template for the name Payment. *)
Definition paymentSpec : PluginSpecParser.PluginSpec :=
  {| PluginSpecParser.spec_name := "Payment";
     PluginSpecParser.spec_identifier := "com.cuppa.payment";
     PluginSpecParser.spec_version := "1.0.0";
     PluginSpecParser.spec_description := Some "Payment functionality";
     PluginSpecParser.spec_author := Some "MyCuppa Team";
     PluginSpecParser.spec_dependencies := Some [];
     PluginSpecParser.spec_configuration := None;
     PluginSpecParser.spec_methods := None;
     PluginSpecParser.spec_models := None;
     PluginSpecParser.spec_providers :=
       Some [ PluginSpecParser.mkPluginProvider "ConsolePaymentProvider"
                (Some "Console-based Payment provider for testing") None ] |}.

(** A plugin whose only provider carries the name the parser gives to the
    protocol of the plugin. *)
Definition selfNamedSpec : PluginSpecParser.PluginSpec :=
  {| PluginSpecParser.spec_name := "Payment";
     PluginSpecParser.spec_identifier := "com.cuppa.payment";
     PluginSpecParser.spec_version := "1.0.0";
     PluginSpecParser.spec_description := None;
     PluginSpecParser.spec_author := None;
     PluginSpecParser.spec_dependencies := None;
     PluginSpecParser.spec_configuration := None;
     PluginSpecParser.spec_methods := None;
     PluginSpecParser.spec_models := None;
     PluginSpecParser.spec_providers :=
       Some [ PluginSpecParser.mkPluginProvider "PaymentProvider" None None ] |}.

(** Scenario C of the specification, with parameters in all four
    locations: a cookie at the path level and another at the operation
    level. *)
Definition stringParam (name location : string) : OpenAPIParser.OpenAPIParameter :=
  {| OpenAPIParser.param_name := name;
     OpenAPIParser.param_in := location;
     OpenAPIParser.param_description := None;
     OpenAPIParser.param_required := None;
     OpenAPIParser.param_schema :=
       OpenAPIParser.mkOpenAPISchema (Some "string") None None None None None None |}.

Definition getUser : OpenAPIParser.OpenAPIOperation :=
  {| OpenAPIParser.op_operationId := None;
     OpenAPIParser.op_summary := None;
     OpenAPIParser.op_description := None;
     OpenAPIParser.op_tags := None;
     OpenAPIParser.op_parameters :=
       Some [ stringParam "id" "path";
              stringParam "fields" "query";
              stringParam "session" "cookie";
              stringParam "X-Trace" "header" ];
     OpenAPIParser.op_requestBody := None;
     OpenAPIParser.op_responses := [] |}.

Definition userPath : OpenAPIParser.OpenAPIPath :=
  {| OpenAPIParser.path_get := Some getUser;
     OpenAPIParser.path_post := None;
     OpenAPIParser.path_put := None;
     OpenAPIParser.path_patch := None;
     OpenAPIParser.path_delete := None;
     OpenAPIParser.path_parameters := Some [ stringParam "tracking" "cookie" ] |}.

Definition usersApi : OpenAPIParser.OpenAPISpec :=
  {| OpenAPIParser.openapi := "3.0.0";
     OpenAPIParser.info := OpenAPIParser.mkOpenAPIInfo "Users API" "1.0.0" None;
     OpenAPIParser.servers := None;
     OpenAPIParser.paths := [ ("/users/{id}", userPath) ];
     OpenAPIParser.components := None |}.

(** A theme with one color and two font sizes. *)
Definition brandTheme : DesignTokensParser.ParsedTheme :=
  DesignTokensParser.parse
    {| DesignTokensParser.tok_colors :=
         Some [ ("brand-primary", DesignTokensParser.BareToken "#3366ff") ];
       DesignTokensParser.tok_typography :=
         Some {| DesignTokensParser.tok_fontFamilies := None;
                 DesignTokensParser.tok_fontSizes :=
                   Some [ ("title-large", DesignTokensParser.IsString "22px");
                          ("caption", DesignTokensParser.IsNumber (JS.ofN 12)) ];
                 DesignTokensParser.tok_fontWeights := None;
                 DesignTokensParser.tok_lineHeights := None;
                 DesignTokensParser.tok_letterSpacing := None |};
       DesignTokensParser.tok_spacing :=
         Some [ ("small", DesignTokensParser.BareSpacing
                            (DesignTokensParser.IsString "8px")) ];
       DesignTokensParser.tok_borderRadius := None;
       DesignTokensParser.tok_shadows := None;
       DesignTokensParser.tok_breakpoints := None |}
    (Some "Brand").

(** The component specification behind Generated/Buttons/IconButton.swift. *)
Definition iconButton : ComponentSpecParser.ComponentSpec :=
  {| ComponentSpecParser.spec_component := "IconButton";
     ComponentSpecParser.spec_category := "buttons";
     ComponentSpecParser.spec_description :=
       Some "A button with an icon, used for toolbar actions and compact interfaces";
     ComponentSpecParser.spec_properties :=
       [ ComponentSpecParser.mkComponentProperty "icon" "String" true None
           (Some "SF Symbol name for the icon");
         ComponentSpecParser.mkComponentProperty "label" "String" false None
           (Some "Accessibility label");
         ComponentSpecParser.mkComponentProperty "isLoading" "Bool" false
           (Some (VBool false)) (Some "Whether the button is in loading state") ];
     ComponentSpecParser.spec_style :=
       Some (ComponentSpecParser.mkComponentStyle
               (Some "clear") (Some "blue") None None (Some (ofN 8))
               (Some (ComponentSpecParser.PaddingNumber (ofN 12)))
               (Some "title3") None (Some (ofN 44)) None);
     ComponentSpecParser.spec_states :=
       Some [ ("loading",
               ComponentSpecParser.mkComponentState (Some true) (Some true)
                 None None None None None) ];
     ComponentSpecParser.spec_actions :=
       Some [ ComponentSpecParser.mkComponentAction "action" "async" [] None ];
     ComponentSpecParser.spec_slots := None |}.

(** The component specification behind Generated/Cards/CuppaActionCard.swift:
    one synchronous action. *)
Definition actionCard : ComponentSpecParser.ComponentSpec :=
  {| ComponentSpecParser.spec_component := "CuppaActionCard";
     ComponentSpecParser.spec_category := "cards";
     ComponentSpecParser.spec_description :=
       Some "A tappable card with icon, title, subtitle, and trailing chevron";
     ComponentSpecParser.spec_properties :=
       [ ComponentSpecParser.mkComponentProperty "icon" "String" true None
           (Some "SF Symbol icon name");
         ComponentSpecParser.mkComponentProperty "title" "String" true None
           (Some "Card title");
         ComponentSpecParser.mkComponentProperty "subtitle" "String?" false None
           (Some "Card subtitle");
         ComponentSpecParser.mkComponentProperty "showChevron" "Bool" false
           (Some (VBool true)) (Some "Whether to show trailing chevron") ];
     ComponentSpecParser.spec_style :=
       Some (ComponentSpecParser.mkComponentStyle
               (Some "white") (Some "primary") (Some "gray") (Some (ofN 1))
               (Some (ofN 12))
               (Some (ComponentSpecParser.PaddingNumber (ofN 16)))
               (Some "body") None (Some (ofN 60)) None);
     ComponentSpecParser.spec_states := None;
     ComponentSpecParser.spec_actions :=
       Some [ ComponentSpecParser.mkComponentAction "action" "sync" [] None ];
     ComponentSpecParser.spec_slots := None |}.

(** A field with a binding and no action. *)
Definition toggleField : ComponentSpecParser.ComponentSpec :=
  {| ComponentSpecParser.spec_component := "CuppaToggleField";
     ComponentSpecParser.spec_category := "fields";
     ComponentSpecParser.spec_description :=
       Some "A toggle switch with label and optional description";
     ComponentSpecParser.spec_properties :=
       [ ComponentSpecParser.mkComponentProperty "title" "String" true None
           (Some "Toggle label");
         ComponentSpecParser.mkComponentProperty "isOn" "Binding<Bool>" true None
           (Some "Binding to toggle state");
         ComponentSpecParser.mkComponentProperty "description" "String?" false None
           (Some "Optional description text");
         ComponentSpecParser.mkComponentProperty "isDisabled" "Bool" false
           (Some (VBool false)) (Some "Whether toggle is disabled") ];
     ComponentSpecParser.spec_style :=
       Some (ComponentSpecParser.mkComponentStyle
               (Some "clear") (Some "primary") None None None
               (Some (ComponentSpecParser.PaddingObject
                        (ComponentSpecParser.mkPaddingSides
                           (Some (ofN 12)) (Some (ofN 12))
                           (Some (ofN 0)) (Some (ofN 0)))))
               (Some "body") None None None);
     ComponentSpecParser.spec_states := None;
     ComponentSpecParser.spec_actions := None;
     ComponentSpecParser.spec_slots := None |}.

End Examples.

(** ** TypeScript theme generator (typescript-theme-generator.ts) *)

Module TypeScriptThemeGenerator.
Import JS.
Import DesignTokensParser.

Definition timestampOf (now : string) : string :=
  List.hd EmptyString (split "T" now).

Definition createHeader (now sourceFile : string) : string :=
  let timestamp := timestampOf now in
  join nl
    [ "// Generated by cuppa-cli from " ++ sourceFile;
      "// Generation date: " ++ timestamp;
      "// DO NOT EDIT MANUALLY - Changes will be overwritten";
      EmptyString ].

Definition hasTypography (theme : ParsedTheme) : bool :=
  nonEmpty (fontFamilies (typography theme))
  || nonEmpty (fontSizes (typography theme))
  || nonEmpty (fontWeights (typography theme))
  || nonEmpty (lineHeights (typography theme))
  || nonEmpty (letterSpacing (typography theme)).

(** The first replace of toKebabCase: a hyphen between a lower-case letter
    or digit and the upper-case letter that follows it.  A match consumes
    both characters. *)
Fixpoint hyphenAfterLower (s : string) : string :=
  match s with
  | EmptyString => EmptyString
  | String a s' =>
      match s' with
      | String b r =>
          if (isLower a || isDigit a) && isUpper b
          then String a (String "-" (String b (hyphenAfterLower r)))
          else String a (hyphenAfterLower s')
      | EmptyString => String a EmptyString
      end
  end.

(** The second replace: a hyphen between two upper-case letters that a
    lower-case letter follows.  A match consumes the two upper-case letters;
    the lower-case one is looked at only. *)
Fixpoint hyphenInAcronym (s : string) : string :=
  match s with
  | EmptyString => EmptyString
  | String a s' =>
      match s' with
      | String b r =>
          if isUpper a && isUpper b
             && match r with String c _ => isLower c | EmptyString => false end
          then String a (String "-" (String b (hyphenInAcronym r)))
          else String a (hyphenInAcronym s')
      | EmptyString => String a EmptyString
      end
  end.

Definition toKebabCase (str : string) : string :=
  toLowerCase (hyphenInAcronym (hyphenAfterLower str)).

(** [xs.forEach((x, index) => ...)] where the callback computes
    [comma = index === xs.length - 1 ? '' : ','] and pushes [f x comma]. *)
Fixpoint eachWithComma {A : Type} (f : A -> string -> list string)
  (xs : list A) : list string :=
  match xs with
  | [] => []
  | [x] => f x EmptyString
  | x :: rest => f x "," +++ eachWithComma f rest
  end.

Section Generator.
Variable numberToString : number -> string.

Definition describedBlock (key : string) (entries : list ParsedDescribed)
  : list string :=
  pushIf (nonEmpty entries)
    ([ "  " ++ key ++ ": {" ]
     +++ eachWithComma
           (fun entry comma =>
              pushIf (strTruthy (d_description entry))
                [ "    /** " ++ strOr (d_description entry) "" ++ " */" ]
              +++ [ "    " ++ d_name entry ++ ": '" ++ d_value entry ++ "'" ++ comma ])
           entries
     +++ [ "  },"; EmptyString ]).

Definition measureLine (indent : string) (entry : ParsedMeasure)
  (comma : string) : list string :=
  [ indent ++ name entry ++ ": '" ++ numberToString (value entry)
    ++ unit entry ++ "'" ++ comma ].

Definition measureBlock (key : string) (entries : list ParsedMeasure)
  : list string :=
  pushIf (nonEmpty entries)
    ([ "  " ++ key ++ ": {" ]
     +++ eachWithComma (measureLine "    ") entries
     +++ [ "  },"; EmptyString ]).

Definition typographyMeasures (key : string) (entries : list ParsedMeasure)
  : list string :=
  pushIf (nonEmpty entries)
    ([ "    " ++ key ++ ": {" ]
     +++ eachWithComma (measureLine "      ") entries
     +++ [ "    }," ]).

Definition typographyBlock (theme : ParsedTheme) : list string :=
  pushIf (hasTypography theme)
    ([ "  typography: {" ]
     +++ pushIf (nonEmpty (fontFamilies (typography theme)))
           ([ "    fontFamilies: {" ]
            +++ eachWithComma
                  (fun font comma =>
                     let value :=
                       match ff_fallback font with
                       | Some fallback =>
                           "'" ++ ff_value font ++ "', "
                           ++ join ", " (map (fun f => "'" ++ f ++ "'") fallback)
                       | None => "'" ++ ff_value font ++ "'"
                       end in
                     [ "      " ++ ff_name font ++ ": " ++ value ++ comma ])
                  (fontFamilies (typography theme))
            +++ [ "    }," ])
     +++ typographyMeasures "fontSizes" (fontSizes (typography theme))
     +++ pushIf (nonEmpty (fontWeights (typography theme)))
           ([ "    fontWeights: {" ]
            +++ eachWithComma
                  (fun weight comma =>
                     let value :=
                       match fw_value weight with
                       | IsNumber x => numberToString x
                       | IsString w => "'" ++ w ++ "'"
                       end in
                     [ "      " ++ fw_name weight ++ ": " ++ value ++ comma ])
                  (fontWeights (typography theme))
            +++ [ "    }," ])
     +++ typographyMeasures "lineHeights" (lineHeights (typography theme))
     +++ typographyMeasures "letterSpacing" (letterSpacing (typography theme))
     +++ [ "  },"; EmptyString ]).

Definition cssVariableLines (prefix group : string) (themeName : string)
  (names : list string) : list string :=
  map (fun n =>
         "    '--" ++ prefix ++ "-" ++ toKebabCase n ++ "': "
         ++ toLowerCase themeName ++ "." ++ group ++ "." ++ n ++ ",")
      names.

(** The array [lines] of generate, after its first element. *)
Definition bodyLines (theme : ParsedTheme) (sourceFile : string) : list string :=
  let lower := toLowerCase (theme_name theme) in
  [ EmptyString;
    "/**";
    " * Design system theme generated from " ++ sourceFile;
    " */";
    "export const " ++ lower ++ " = {" ]
  +++ describedBlock "colors" (colors theme)
  +++ typographyBlock theme
  +++ measureBlock "spacing" (spacing theme)
  +++ measureBlock "borderRadius" (borderRadius theme)
  +++ describedBlock "shadows" (shadows theme)
  +++ measureBlock "breakpoints" (breakpoints theme)
  +++ [ "} as const;";
        EmptyString;
        "// TypeScript type definitions";
        "export type " ++ theme_name theme ++ "Theme = typeof " ++ lower ++ ";";
        EmptyString ]
  +++ pushIf (nonEmpty (colors theme))
        [ "export type ColorToken = keyof " ++ theme_name theme ++ "Theme['colors'];" ]
  +++ pushIf (nonEmpty (spacing theme))
        [ "export type SpacingToken = keyof " ++ theme_name theme ++ "Theme['spacing'];" ]
  +++ pushIf (nonEmpty (borderRadius theme))
        [ "export type BorderRadiusToken = keyof " ++ theme_name theme
          ++ "Theme['borderRadius'];" ]
  +++ [ EmptyString;
        "/**";
        " * Export theme as CSS custom properties";
        " */";
        "export function " ++ lower ++ "ToCSSVariables(): Record<string, string> {";
        "  return {" ]
  +++ cssVariableLines "color" "colors" (theme_name theme)
        (map d_name (colors theme))
  +++ cssVariableLines "spacing" "spacing" (theme_name theme)
        (map name (spacing theme))
  +++ cssVariableLines "border-radius" "borderRadius" (theme_name theme)
        (map name (borderRadius theme))
  +++ [ "  };";
        "}";
        EmptyString ]
  +++ pushIf (nonEmpty (colors theme))
        [ "/**";
          " * React hook to inject theme CSS variables";
          " */";
          "export function use" ++ theme_name theme ++ "Theme() {";
          "  if (typeof document !== 'undefined') {";
          "    const vars = " ++ lower ++ "ToCSSVariables();";
          "    Object.entries(vars).forEach(([key, value]) => {";
          "      document.documentElement.style.setProperty(key, value);";
          "    });";
          "  }";
          "}";
          EmptyString ].

Definition generate (now : string) (theme : ParsedTheme) (sourceFile : string)
  : string :=
  join nl (createHeader now sourceFile :: bodyLines theme sourceFile).

End Generator.

End TypeScriptThemeGenerator.

(** ** Swift plugin generator (swift-plugin-generator.ts) *)

Module SwiftPluginGenerator.
Import JS.
Import PluginSpecParser.

(** [files.set(key, content)] on a [Map] kept as its entries in insertion
    order: the value of a key already present is replaced in place. *)
Fixpoint mapSet (key content : string) (files : list (string * string))
  : list (string * string) :=
  match files with
  | [] => [(key, content)]
  | (k, c) :: rest =>
      if k =? key then (k, content) :: rest
      else (k, c) :: mapSet key content rest
  end.

Definition timestampOf (now : string) : string :=
  List.hd EmptyString (split "T" now).

Definition createHeader (now fileName : string) : string :=
  let timestamp := timestampOf now in
  join nl
    [ "//";
      "//  " ++ fileName ++ ".swift";
      "//";
      "//  Generated by cuppa-cli on " ++ timestamp;
      "//  Copyright © 2025 MyCuppa. All rights reserved.";
      "//";
      EmptyString ].

Definition typeMap : list (string * string) :=
  [ ("string", "String"); ("number", "Double"); ("integer", "Int");
    ("boolean", "Bool"); ("void", "Void"); ("any", "Any") ].

Definition mapType (type : string) : string :=
  strOr (lookup (toLowerCase type) typeMap) type.

Definition formatArray (items : list string) : string :=
  match items with
  | [] => "[]"
  | _ :: _ => "[" ++ dq ++ join (dq ++ ", " ++ dq) items ++ dq ++ "]"
  end.

(** The text of [plugin.protocolName] in a template literal. *)
Definition protocolText (plugin : ParsedPlugin) : string :=
  match protocolName plugin with Some p => p | None => "undefined" end.

Definition hasProtocol (plugin : ParsedPlugin) : bool :=
  strTruthy (protocolName plugin).

(** The signature shared by the protocol, the provider and the manager:
    parameters, then async, throws and the return type. *)
Definition methodSignature (method : ParsedPluginMethod) : string :=
  let params :=
    join ", " (map (fun p => pmp_name p ++ ": " ++ mapType (pmp_type p))
                   (pmeth_parameters method)) in
  let asyncKeyword := if pmeth_isAsync method then " async" else EmptyString in
  let throwsKeyword := if pmeth_throws method then " throws" else EmptyString in
  let returnType :=
    if negb (pmeth_returnType method =? "void")
    then " -> " ++ mapType (pmeth_returnType method) else EmptyString in
  pmeth_name method ++ "(" ++ params ++ ")" ++ asyncKeyword ++ throwsKeyword
  ++ returnType.

Definition generateMethod (method : ParsedPluginMethod) (plugin : ParsedPlugin)
  : string :=
  join nl
    (pushIf (negb (pmeth_description method =? ""))
       [ "    /// " ++ pmeth_description method ]
     +++ [ "    public func " ++ methodSignature method ++ " {" ]
     +++ (if hasProtocol plugin then
            let callParams :=
              join ", " (map (fun p => pmp_name p ++ ": " ++ pmp_name p)
                             (pmeth_parameters method)) in
            let awaitKeyword := if pmeth_isAsync method then "await " else EmptyString in
            let tryKeyword := if pmeth_throws method then "try " else EmptyString in
            let returnKeyword :=
              if negb (pmeth_returnType method =? "void") then "return "
              else EmptyString in
            [ "        guard let provider = provider else {";
              "            fatalError(" ++ dq ++ "No provider registered" ++ dq ++ ")";
              "        }";
              EmptyString;
              "        " ++ returnKeyword ++ tryKeyword ++ awaitKeyword
              ++ "provider." ++ pmeth_name method ++ "(" ++ callParams ++ ")" ]
          else [ "        // TODO: Implement this method" ])
     +++ [ "    }" ]).

Definition generatePluginFile (now : string) (plugin : ParsedPlugin) : string :=
  join nl
    ([ createHeader now (name plugin);
       "import Foundation";
       "import CuppaCore";
       EmptyString;
       "/// Plugin for integrating " ++ description plugin;
       "@MainActor";
       "public final class " ++ name plugin ++ ": CuppaPlugin {";
       "    public let identifier = " ++ dq ++ identifier plugin ++ dq;
       "    public let version = " ++ dq ++ version plugin ++ dq;
       "    public let dependencies: [String] = " ++ formatArray (dependencies plugin);
       EmptyString;
       "    private var config: " ++ name plugin ++ "Configuration?";
       EmptyString;
       "    public init() {}";
       EmptyString;
       "    public func initialize(with config: PluginConfiguration) async throws {";
       "        guard let pluginConfig = config as? " ++ name plugin
       ++ "Configuration else {";
       "            throw PluginError.invalidConfiguration(";
       "                reason: " ++ dq ++ "Expected " ++ name plugin
       ++ "Configuration, got \(type(of: config))" ++ dq;
       "            )";
       "        }";
       EmptyString;
       "        self.config = pluginConfig";
       EmptyString ]
     +++ pushIf (hasProtocol plugin)
           [ "        // Register provider with " ++ managerName plugin;
             "        " ++ managerName plugin ++ ".shared.register(";
             "            pluginConfig.provider,";
             "            enableDebugLogging: pluginConfig.enableDebugLogging";
             "        )";
             EmptyString ]
     +++ [ "        if pluginConfig.enableDebugLogging {";
           "            print(" ++ dq ++ "🔌 " ++ name plugin ++ " initialized" ++ dq ++ ")" ]
     +++ flat_map
           (fun prop =>
              pushIf (negb (pc_name prop =? "enableDebugLogging"))
                [ "            print(" ++ dq ++ "   - " ++ pc_name prop
                  ++ ": \(pluginConfig." ++ pc_name prop ++ ")" ++ dq ++ ")" ])
           (pc_properties (configuration plugin))
     +++ [ "        }";
           EmptyString;
           "        print(" ++ dq ++ "✅ " ++ name plugin ++ " initialized" ++ dq ++ ")";
           "    }";
           EmptyString;
           "    nonisolated public func register(with container: ServiceContainer) {";
           "        // Register " ++ toLowerCase (managerName plugin) ++ " as a service";
           "        container.register(" ++ managerName plugin ++ ".self) { _ in";
           "            " ++ managerName plugin ++ ".shared";
           "        }";
           "    }";
           EmptyString;
           "    public func teardown() async {";
           "        config = nil";
           "        print(" ++ dq ++ "🗑️ " ++ name plugin ++ " torn down" ++ dq ++ ")";
           "    }";
           "}";
           EmptyString ]).

Definition generateProtocolFile (now : string) (plugin : ParsedPlugin) : string :=
  join nl
    ([ createHeader now (protocolText plugin);
       "import Foundation";
       EmptyString;
       "/// Protocol for " ++ toLowerCase (description plugin) ++ " providers.";
       "public protocol " ++ protocolText plugin ++ ": Sendable {" ]
     +++ flat_map
           (fun method =>
              pushIf (negb (pmeth_description method =? ""))
                [ "    /// " ++ pmeth_description method ]
              +++ [ "    func " ++ methodSignature method;
                    EmptyString ])
           (methods plugin)
     +++ [ "}"; EmptyString ]).

Definition generateManagerFile (now : string) (plugin : ParsedPlugin) : string :=
  join nl
    ([ createHeader now (managerName plugin);
       "import Foundation";
       EmptyString;
       "/// Manager for coordinating " ++ description plugin;
       "@MainActor";
       "public final class " ++ managerName plugin ++ ": ObservableObject {";
       "    public static let shared = " ++ managerName plugin ++ "()";
       EmptyString ]
     +++ pushIf (hasProtocol plugin)
           [ "    private var provider: " ++ protocolText plugin ++ "?" ]
     +++ [ "    private var enableDebugLogging = false";
           EmptyString;
           "    private init() {}";
           EmptyString ]
     +++ pushIf (hasProtocol plugin)
           [ "    /// Register a " ++ toLowerCase (protocolText plugin);
             "    public func register(_ provider: " ++ protocolText plugin
             ++ ", enableDebugLogging: Bool = false) {";
             "        self.provider = provider";
             "        self.enableDebugLogging = enableDebugLogging";
             "    }";
             EmptyString ]
     +++ flat_map (fun method => [ generateMethod method plugin; EmptyString ])
           (methods plugin)
     +++ [ "}"; EmptyString ]).

Definition generateModelFile (now : string) (model : ParsedPluginModel)
  (plugin : ParsedPlugin) : string :=
  join nl
    ([ createHeader now (ppm_name model);
       "import Foundation";
       EmptyString ]
     +++ pushIf (negb (ppm_description model =? ""))
           [ "/// " ++ ppm_description model ]
     +++ [ "public struct " ++ ppm_name model ++ ": Codable, Sendable {" ]
     +++ flat_map
           (fun prop =>
              pushIf (negb (pmprop_description prop =? ""))
                [ "    /// " ++ pmprop_description prop ]
              +++ [ "    public let " ++ pmprop_name prop ++ ": "
                    ++ mapType (pmprop_type prop)
                    ++ (if pmprop_required prop then EmptyString else "?");
                    EmptyString ])
           (ppm_properties model)
     +++ [ "    public init(";
           join nl
             (TypeScriptThemeGenerator.eachWithComma
                (fun prop comma =>
                   [ "        " ++ pmprop_name prop ++ ": "
                     ++ mapType (pmprop_type prop)
                     ++ (if pmprop_required prop then EmptyString else "?")
                     ++ (if negb (pmprop_required prop) then " = nil" else EmptyString)
                     ++ comma ])
                (ppm_properties model));
           "    ) {" ]
     +++ map (fun prop =>
                "        self." ++ pmprop_name prop ++ " = " ++ pmprop_name prop)
             (ppm_properties model)
     +++ [ "    }"; "}"; EmptyString ]).

Definition generateProviderFile (now : string) (provider : ParsedPluginProvider)
  (plugin : ParsedPlugin) : string :=
  join nl
    ([ createHeader now (pprov_name provider);
       "import Foundation";
       EmptyString ]
     +++ pushIf (negb (pprov_description provider =? ""))
           [ "/// " ++ pprov_description provider ]
     +++ [ "public final class " ++ pprov_name provider ++ ": "
           ++ pprov_protocol provider ++ ", @unchecked Sendable {";
           "    public init() {}";
           EmptyString ]
     +++ flat_map
           (fun method =>
              pushIf (negb (pmeth_description method =? ""))
                [ "    /// " ++ pmeth_description method ]
              +++ [ "    public func " ++ methodSignature method ++ " {";
                    "        // TODO: Implement this method" ]
              +++ pushIf (negb (pmeth_returnType method =? "void"))
                    [ "        fatalError(" ++ dq ++ pmeth_name method
                      ++ " not implemented" ++ dq ++ ")" ]
              +++ [ "    }"; EmptyString ])
           (methods plugin)
     +++ [ "}"; EmptyString ]).

Definition generateReadme (plugin : ParsedPlugin) : string :=
  join nl
    ([ "# " ++ name plugin;
       EmptyString;
       description plugin;
       EmptyString;
       "## Installation";
       EmptyString;
       "```swift";
       "// Add to your Package.swift dependencies";
       ".package(url: " ++ dq ++ "..." ++ dq ++ ", from: " ++ dq
       ++ version plugin ++ dq ++ ")";
       "```";
       EmptyString;
       "## Usage";
       EmptyString;
       "```swift";
       "import CuppaCore";
       "import " ++ name plugin;
       EmptyString;
       "// Configure the plugin";
       "let config = " ++ name plugin ++ "Configuration(" ]
     +++ pushIf (hasProtocol plugin)
           [ "    provider: Your" ++ protocolText plugin ++ "()," ]
     +++ [ "    enableDebugLogging: true";
           ")";
           EmptyString;
           "// Register with PluginManager";
           "let plugin = " ++ name plugin ++ "()";
           "try await PluginManager.shared.register(plugin, config: config)";
           "```";
           EmptyString;
           "## License";
           EmptyString;
           "Copyright © 2025 " ++ author plugin;
           EmptyString ]).

Section Generator.
Variable numberToString : number -> string.

Definition formatValue (v : value) (type : string) : string :=
  match v with
  | VString s => dq ++ s ++ dq
  | VBool b => if b then "true" else "false"
  | _ => SwiftComponentGenerator.valueToString numberToString v
  end.

Definition generateConfigFile (now : string) (plugin : ParsedPlugin) : string :=
  let properties := pc_properties (configuration plugin) in
  let initParams :=
    pushIf (hasProtocol plugin)
      [ "        provider: " ++ protocolText plugin ]
    +++ map (fun prop =>
               let defaultVal :=
                 match pc_defaultValue prop with
                 | Some v => " = " ++ formatValue v (pc_type prop)
                 | None => EmptyString
                 end in
               "        " ++ pc_name prop ++ ": " ++ mapType (pc_type prop)
               ++ defaultVal)
            properties in
  join nl
    ([ createHeader now (name plugin ++ "Configuration");
       "import Foundation";
       "import CuppaCore";
       EmptyString;
       "/// Configuration for " ++ name plugin ++ ".";
       "public struct " ++ name plugin ++ "Configuration: PluginConfiguration {" ]
     +++ flat_map
           (fun prop =>
              pushIf (negb (pc_description prop =? ""))
                [ "    /// " ++ pc_description prop ]
              +++ [ "    public let " ++ pc_name prop ++ ": " ++ mapType (pc_type prop);
                    EmptyString ])
           properties
     +++ pushIf (hasProtocol plugin)
           [ "    /// " ++ protocolText plugin ++ " implementation";
             "    public let provider: " ++ protocolText plugin;
             EmptyString ]
     +++ [ "    /// Required settings dictionary for PluginConfiguration conformance";
           "    public var settings: [String: Any] {";
           "        [" ]
     +++ map (fun prop =>
                "            " ++ dq ++ pc_name prop ++ dq ++ ": " ++ pc_name prop ++ ",")
             properties
     +++ [ "        ]";
           "    }";
           EmptyString;
           "    public init(";
           join ("," ++ nl) initParams;
           "    ) {" ]
     +++ pushIf (hasProtocol plugin) [ "        self.provider = provider" ]
     +++ map (fun prop =>
                "        self." ++ pc_name prop ++ " = " ++ pc_name prop)
             properties
     +++ [ "    }"; "}"; EmptyString ]).

Definition generatePlugin (now : string) (plugin : ParsedPlugin)
  : list (string * string) :=
  let files := [] in
  let files := mapSet (name plugin ++ ".swift") (generatePluginFile now plugin) files in
  let files :=
    mapSet (name plugin ++ "Configuration.swift") (generateConfigFile now plugin) files in
  let files :=
    mapSet (managerName plugin ++ ".swift") (generateManagerFile now plugin) files in
  let files :=
    if hasProtocol plugin && nonEmpty (providers plugin)
    then mapSet (protocolText plugin ++ ".swift") (generateProtocolFile now plugin) files
    else files in
  let files :=
    fold_left
      (fun files model =>
         mapSet (ppm_name model ++ ".swift") (generateModelFile now model plugin) files)
      (models plugin) files in
  let files :=
    fold_left
      (fun files provider =>
         mapSet (pprov_name provider ++ ".swift")
           (generateProviderFile now provider plugin) files)
      (providers plugin) files in
  mapSet "README.md" (generateReadme plugin) files.

End Generator.

End SwiftPluginGenerator.

(** ** The commands that build a spec from a name (plugin.ts, component.ts) *)

Module Commands.
Import JS.

(** createPluginSpec of the plugin command. *)
Definition createPluginSpec (name template : string) : PluginSpecParser.PluginSpec :=
  let withParts configuration methods providers :=
    {| PluginSpecParser.spec_name := name;
       PluginSpecParser.spec_identifier := "com.cuppa." ++ toLowerCase name;
       PluginSpecParser.spec_version := "1.0.0";
       PluginSpecParser.spec_description := Some (name ++ " functionality");
       PluginSpecParser.spec_author := Some "MyCuppa Team";
       PluginSpecParser.spec_dependencies := Some [];
       PluginSpecParser.spec_configuration := configuration;
       PluginSpecParser.spec_methods := methods;
       PluginSpecParser.spec_models := None;
       PluginSpecParser.spec_providers := providers |} in
  if template =? "provider" then
    withParts
      (Some {| PluginSpecParser.cfg_properties :=
                 [ {| PluginSpecParser.cfg_name := "enableDebugLogging";
                      PluginSpecParser.cfg_type := "boolean";
                      PluginSpecParser.cfg_description :=
                        Some "Whether to enable debug logging";
                      PluginSpecParser.cfg_required := false;
                      PluginSpecParser.cfg_defaultValue := Some (VBool false) |} ] |})
      (Some [ {| PluginSpecParser.meth_name := "initialize";
                 PluginSpecParser.meth_description := Some "Initialize the service";
                 PluginSpecParser.meth_parameters := [];
                 PluginSpecParser.meth_returnType := "void";
                 PluginSpecParser.meth_isAsync := true;
                 PluginSpecParser.meth_throws := true |};
              {| PluginSpecParser.meth_name := "performAction";
                 PluginSpecParser.meth_description := Some "Perform the main action";
                 PluginSpecParser.meth_parameters :=
                   [ {| PluginSpecParser.mp_name := "input";
                        PluginSpecParser.mp_type := "string";
                        PluginSpecParser.mp_required := true;
                        PluginSpecParser.mp_defaultValue := None |} ];
                 PluginSpecParser.meth_returnType := "string";
                 PluginSpecParser.meth_isAsync := true;
                 PluginSpecParser.meth_throws := true |} ])
      (Some [ {| PluginSpecParser.prov_name := "Console" ++ name ++ "Provider";
                 PluginSpecParser.prov_description :=
                   Some ("Console-based " ++ name ++ " provider for testing");
                 PluginSpecParser.prov_protocol := None |} ])
  else if template =? "service" then
    withParts None
      (Some [ {| PluginSpecParser.meth_name := "start";
                 PluginSpecParser.meth_description := Some "Start the service";
                 PluginSpecParser.meth_parameters := [];
                 PluginSpecParser.meth_returnType := "void";
                 PluginSpecParser.meth_isAsync := true;
                 PluginSpecParser.meth_throws := false |};
              {| PluginSpecParser.meth_name := "stop";
                 PluginSpecParser.meth_description := Some "Stop the service";
                 PluginSpecParser.meth_parameters := [];
                 PluginSpecParser.meth_returnType := "void";
                 PluginSpecParser.meth_isAsync := true;
                 PluginSpecParser.meth_throws := false |} ])
      None
  else withParts None None None.

(** createBasicComponentSpec of the component command. *)
Definition createBasicComponentSpec (name category : string)
  : ComponentSpecParser.ComponentSpec :=
  {| ComponentSpecParser.spec_component := name;
     ComponentSpecParser.spec_category := category;
     ComponentSpecParser.spec_description := Some (name ++ " component");
     ComponentSpecParser.spec_properties :=
       [ {| ComponentSpecParser.cp_name := "title";
            ComponentSpecParser.cp_type := "String";
            ComponentSpecParser.cp_required := true;
            ComponentSpecParser.cp_defaultValue := None;
            ComponentSpecParser.cp_description := Some "Button text" |};
         {| ComponentSpecParser.cp_name := "isLoading";
            ComponentSpecParser.cp_type := "Bool";
            ComponentSpecParser.cp_required := false;
            ComponentSpecParser.cp_defaultValue := Some (VBool false);
            ComponentSpecParser.cp_description := Some "Loading state" |} ];
     ComponentSpecParser.spec_style :=
       Some {| ComponentSpecParser.cs_backgroundColor := Some "blue";
               ComponentSpecParser.cs_foregroundColor := Some "white";
               ComponentSpecParser.cs_borderColor := None;
               ComponentSpecParser.cs_borderWidth := None;
               ComponentSpecParser.cs_cornerRadius := Some (ofN 12);
               ComponentSpecParser.cs_padding :=
                 Some (ComponentSpecParser.PaddingNumber (ofN 16));
               ComponentSpecParser.cs_font := Some "body";
               ComponentSpecParser.cs_fontWeight := Some "semibold";
               ComponentSpecParser.cs_minHeight := Some (ofN 44);
               ComponentSpecParser.cs_maxWidth := Some "infinity" |};
     ComponentSpecParser.spec_states :=
       Some [ ("loading",
               {| ComponentSpecParser.st_showSpinner := Some true;
                  ComponentSpecParser.st_disableInteraction := Some true;
                  ComponentSpecParser.st_opacity := None;
                  ComponentSpecParser.st_backgroundColor := None;
                  ComponentSpecParser.st_foregroundColor := None;
                  ComponentSpecParser.st_borderColor := None;
                  ComponentSpecParser.st_scale := None |}) ];
     ComponentSpecParser.spec_actions :=
       Some [ {| ComponentSpecParser.ca_name := "action";
                 ComponentSpecParser.ca_type := "async";
                 ComponentSpecParser.ca_parameters := [];
                 ComponentSpecParser.ca_returnType := None |} ];
     ComponentSpecParser.spec_slots := None |}.

End Commands.

(** ** Notions used to state further properties *)

Module Views.
Import JS.


(** A character of a word: not a separator of toCamelCase and not a line
    terminator. *)
Definition isWordChar (c : ascii) : bool :=
  negb (Ascii.eqb c "-" || Ascii.eqb c "_" || DesignTokensParser.isLineTerminator c).

Definition isWord (w : string) : bool :=
  negb (w =? "") && allChars isWordChar w.

(** A word of two or more lower-case letters. *)
Definition isLowerWord (w : string) : bool :=
  (2 <=? String.length w)%nat && allChars isLower w.

(** What the Kotlin theme generator reads of a theme: the units, the
    fallback fonts, the line heights, the letter spacing and the breakpoints
    are put to fixed values. *)
Definition pxMeasure (m : DesignTokensParser.ParsedMeasure)
  : DesignTokensParser.ParsedMeasure :=
  {| DesignTokensParser.name := DesignTokensParser.name m;
     DesignTokensParser.value := DesignTokensParser.value m;
     DesignTokensParser.unit := "px" |}.

Definition kotlinView (theme : DesignTokensParser.ParsedTheme)
  : DesignTokensParser.ParsedTheme :=
  {| DesignTokensParser.theme_name := DesignTokensParser.theme_name theme;
     DesignTokensParser.colors := DesignTokensParser.colors theme;
     DesignTokensParser.typography :=
       {| DesignTokensParser.fontFamilies :=
            map (fun f =>
                   {| DesignTokensParser.ff_name := DesignTokensParser.ff_name f;
                      DesignTokensParser.ff_value := DesignTokensParser.ff_value f;
                      DesignTokensParser.ff_fallback := None |})
                (DesignTokensParser.fontFamilies (DesignTokensParser.typography theme));
          DesignTokensParser.fontSizes :=
            map pxMeasure
                (DesignTokensParser.fontSizes (DesignTokensParser.typography theme));
          DesignTokensParser.fontWeights :=
            DesignTokensParser.fontWeights (DesignTokensParser.typography theme);
          DesignTokensParser.lineHeights := [];
          DesignTokensParser.letterSpacing := [] |};
     DesignTokensParser.spacing := map pxMeasure (DesignTokensParser.spacing theme);
     DesignTokensParser.borderRadius :=
       map pxMeasure (DesignTokensParser.borderRadius theme);
     DesignTokensParser.shadows := DesignTokensParser.shadows theme;
     DesignTokensParser.breakpoints := [] |}.

(** What the Swift component generator reads of a component: the bottom and
    trailing padding, the states and the slots are put to fixed values. *)
Definition swiftView (component : ComponentSpecParser.ParsedComponent)
  : ComponentSpecParser.ParsedComponent :=
  let style := ComponentSpecParser.style component in
  let padding := ComponentSpecParser.padding style in
  {| ComponentSpecParser.name := ComponentSpecParser.name component;
     ComponentSpecParser.category := ComponentSpecParser.category component;
     ComponentSpecParser.description := ComponentSpecParser.description component;
     ComponentSpecParser.properties := ComponentSpecParser.properties component;
     ComponentSpecParser.style :=
       {| ComponentSpecParser.backgroundColor := ComponentSpecParser.backgroundColor style;
          ComponentSpecParser.foregroundColor := ComponentSpecParser.foregroundColor style;
          ComponentSpecParser.borderColor := ComponentSpecParser.borderColor style;
          ComponentSpecParser.borderWidth := ComponentSpecParser.borderWidth style;
          ComponentSpecParser.cornerRadius := ComponentSpecParser.cornerRadius style;
          ComponentSpecParser.padding :=
            {| ComponentSpecParser.top := ComponentSpecParser.top padding;
               ComponentSpecParser.bottom := ComponentSpecParser.top padding;
               ComponentSpecParser.leading := ComponentSpecParser.leading padding;
               ComponentSpecParser.trailing := ComponentSpecParser.leading padding |};
          ComponentSpecParser.font := ComponentSpecParser.font style;
          ComponentSpecParser.fontWeight := ComponentSpecParser.fontWeight style;
          ComponentSpecParser.minHeight := ComponentSpecParser.minHeight style;
          ComponentSpecParser.maxWidth := ComponentSpecParser.maxWidth style |};
     ComponentSpecParser.states := [];
     ComponentSpecParser.actions := ComponentSpecParser.actions component;
     ComponentSpecParser.slots := [];
     ComponentSpecParser.hasAsyncAction := ComponentSpecParser.hasAsyncAction component;
     ComponentSpecParser.hasLoadingState := ComponentSpecParser.hasLoadingState component |}.

(** The names every object literal answers to besides its own keys: the
    properties it inherits from Object.prototype.  A lookup [table[key]]
    with one of them finds a function or an object, not an entry. *)
Definition inheritedNames : list string :=
  [ "constructor"; "__proto__"; "hasOwnProperty"; "isPrototypeOf";
    "propertyIsEnumerable"; "toLocaleString"; "toString"; "valueOf";
    "__defineGetter__"; "__defineSetter__"; "__lookupGetter__";
    "__lookupSetter__" ].

(** The keys of a map of files, in insertion order. *)
Definition fileNames (files : list (string * string)) : list string :=
  map fst files.

End Views.

(** ** The words of the specification *)

Module Spec.
Import JS.

(** The three buckets of an endpoint, read against the parameters
    [declared] for its operation: each bucket is the parsed image of the
    declared parameters of its location, in order; a parameter located in a
    cookie is the source of no entry; and the cookie parameters are counted
    in no bucket. *)
Definition SurfacedFrom (e : OpenAPIParser.ParsedEndpoint)
  (declared : list OpenAPIParser.OpenAPIParameter) : Prop :=
  let sources loc := filter (OpenAPIParser.inLocation loc) declared in
  OpenAPIParser.pathParams e = map OpenAPIParser.parseParameter (sources "path")
  /\ OpenAPIParser.queryParams e = map OpenAPIParser.parseParameter (sources "query")
  /\ OpenAPIParser.headerParams e = map OpenAPIParser.parseParameter (sources "header")
  /\ (forall p, OpenAPIParser.param_in p = "cookie" ->
        ~ In p (sources "path") /\ ~ In p (sources "query")
        /\ ~ In p (sources "header"))
  /\ List.length (OpenAPIParser.pathParams e)
     + List.length (OpenAPIParser.queryParams e)
     + List.length (OpenAPIParser.headerParams e)
     + List.length (sources "cookie")
     <= List.length declared.

(** How the specification renders one path segment: a path-parameter
    segment, a name between braces, becomes By followed by the capitalized
    name; any other segment is capitalized. *)
Inductive Rendered : string -> string -> Prop :=
| rendered_parameter (p : string) :
    Rendered ("{" ++ p ++ "}") ("By" ++ capitalize p)
| rendered_plain (s : string) :
    (forall p, s <> "{" ++ p ++ "}") -> Rendered s (capitalize s).

Definition noSlash (s : string) : bool :=
  allChars (fun c => negb (Ascii.eqb c "/")) s.

(** A segment of a path: not empty, and without a slash. *)
Definition isSegment (s : string) : bool :=
  negb (s =? "") && noSlash s.

(** The path with the given segments, each after a slash. *)
Definition pathOf (segments : list string) : string :=
  "/" ++ join "/" segments.

(** An element of the generator's array of lines opens an initializer when
    it begins with the declaration of one, after its doc comment if it has
    one. *)
Definition opensInitializer (chunk : string) : bool :=
  startsWith "    public init(" chunk
  || startsWith ("    /// Async action initializer" ++ nl ++ "    public init(") chunk
  || startsWith ("    /// Synchronous action initializer" ++ nl ++ "    public init(") chunk.

Definition initializerCount (lines : list string) : nat :=
  List.length (filter opensInitializer lines).

(** No text that begins with [s] opens an initializer. *)
Definition Plain (s : string) : Prop :=
  forall tail, opensInitializer (s ++ tail) = false.

Definition NoInitializer (lines : list string) : Prop :=
  Forall (fun line => opensInitializer line = false) lines.

End Spec.

(** * Properties *)

(** ** Strings *)

Lemma append_assoc (a b c : string) : (a ++ b) ++ c = a ++ b ++ c.
Proof.
  induction a as [|ch a IH]; simpl; [reflexivity|]. now rewrite IH.
Qed.

Lemma append_nil_r (a : string) : a ++ EmptyString = a.
Proof.
  induction a as [|ch a IH]; simpl; [reflexivity|]. now rewrite IH.
Qed.

Lemma append_length (a b : string) :
  String.length (a ++ b) = String.length a + String.length b.
Proof.
  induction a as [|ch a IH]; simpl; [reflexivity|]. now rewrite IH.
Qed.

(** ** Model parser *)

Section ModelParser.
Import JS JSONSchemaParser.

Lemma includes_In (xs : list string) (x : string) :
  includes xs x = true <-> In x xs.
Proof.
  unfold includes. rewrite existsb_exists. split.
  - intros [y [Hin Heq]]. apply String.eqb_eq in Heq. now subst.
  - intros Hin. exists x. split; [assumption|apply String.eqb_refl].
Qed.

Lemma parse_object (schema : JSONSchema) :
  schema_type schema = "object" ->
  parse schema =
    Returned {| model_name := strOr (schema_title schema) "UnnamedModel";
                model_description := schema_description schema;
                properties :=
                  parseProperties (listOr (schema_properties schema))
                                  (listOr (schema_required schema)) |}.
Proof.
  intros Hty. unfold parse. rewrite Hty. reflexivity.
Qed.

Lemma parseProperties_nth (entries : list (string * JSONSchemaProperty))
  (required : list string) (i : nat) (pname : string) (prop : JSONSchemaProperty) :
  nth_error entries i = Some (pname, prop) ->
  nth_error (parseProperties entries required) i
  = Some (parseProperty pname prop (includes required pname)).
Proof.
  intros Hnth. unfold parseProperties.
  rewrite nth_error_map, Hnth. reflexivity.
Qed.

Lemma optional_parseProperty (pname : string) (prop : JSONSchemaProperty)
  (required : list string) :
  optional (parseProperty pname prop (includes required pname)) = true
  <-> (~ In pname required \/ prop_nullable prop = Some true).
Proof.
  unfold parseProperty; cbn [optional].
  rewrite orb_true_iff, negb_true_iff, <- not_true_iff_false, includes_In.
  split; intros [H|H]; auto.
  - right. destruct (prop_nullable prop) as [[|]|]; congruence.
  - right. now rewrite H.
Qed.

(** C2: in an object-rooted schema the parsed property at each position has
    the declared name, and its optional flag is true exactly when the name is
    absent from the required list or the property carries nullable: true. *)
Theorem optional_iff_not_required_or_nullable (schema : JSONSchema) :
  schema_type schema = "object" ->
  exists model,
    parse schema = Returned model
    /\ List.length (properties model)
       = List.length (listOr (schema_properties schema))
    /\ forall i pname prop,
         nth_error (listOr (schema_properties schema)) i = Some (pname, prop) ->
         exists parsed,
           nth_error (properties model) i = Some parsed
           /\ name parsed = pname
           /\ (optional parsed = true
               <-> (~ In pname (listOr (schema_required schema))
                    \/ prop_nullable prop = Some true)).
Proof.
  intros Hty. eexists. split; [apply parse_object, Hty|]. cbn [properties].
  split; [unfold parseProperties; apply length_map|].
  intros i pname prop Hnth. eexists. split; [apply parseProperties_nth, Hnth|].
  split; [reflexivity|apply optional_parseProperty].
Qed.

Lemma optional_iff_not_required_or_nullable_witness :
  schema_type Examples.userSchema = "object"
  /\ exists model,
       parse Examples.userSchema = Returned model
       /\ List.length (properties model)
          = List.length (listOr (schema_properties Examples.userSchema))
       /\ forall i pname prop,
            nth_error (listOr (schema_properties Examples.userSchema)) i
            = Some (pname, prop) ->
            exists parsed,
              nth_error (properties model) i = Some parsed
              /\ name parsed = pname
              /\ (optional parsed = true
                  <-> (~ In pname (listOr (schema_required Examples.userSchema))
                       \/ prop_nullable prop = Some true)).
Proof.
  split; [reflexivity|].
  apply (optional_iff_not_required_or_nullable Examples.userSchema).
  reflexivity.
Defined.

(** Scenario A: id is required, age is optional. *)
Example userSchema_parsed :
  parse Examples.userSchema
  = Returned
      {| model_name := "User";
         model_description := None;
         properties :=
           [ mkParsedProperty "id" "string" None false false None None;
             mkParsedProperty "age" "integer" None true false None None ] |}.
Proof. reflexivity. Qed.

(** C4, as stated, fails: an array property that declares no items keeps the
    type array. *)
Lemma array_without_items_keeps_array :
  exists model parsed,
    parse Examples.untitledSchema = Returned model
    /\ nth_error (properties model) 2 = Some parsed
    /\ name parsed = "tags"
    /\ isArray parsed = true
    /\ type parsed = "array".
Proof.
  eexists. eexists. split; [reflexivity|]. cbn.
  split; [reflexivity|]. repeat split.
Qed.

(** C4, amended: a parsed property whose isArray flag is true has the type
    resolved from the items of its schema when the schema declares items; its
    type is array only when no items are declared or the items resolve to
    array themselves. *)
Theorem array_type_is_items_type (schema : JSONSchema) :
  schema_type schema = "object" ->
  exists model,
    parse schema = Returned model
    /\ forall i pname prop,
         nth_error (listOr (schema_properties schema)) i = Some (pname, prop) ->
         exists parsed,
           nth_error (properties model) i = Some parsed
           /\ (isArray parsed = true ->
               (forall items, prop_items prop = Some items ->
                              type parsed = resolveType items)
               /\ (type parsed = "array" ->
                   prop_items prop = None
                   \/ exists items, prop_items prop = Some items
                                    /\ resolveType items = "array")).
Proof.
  intros Hty. eexists. split; [apply parse_object, Hty|]. cbn [properties].
  intros i pname prop Hnth. eexists. split; [apply parseProperties_nth, Hnth|].
  unfold parseProperty; cbn [isArray type]. intros Harr. rewrite Harr.
  destruct (prop_items prop) as [items|].
  - split.
    + intros items' Heq. now injection Heq as <-.
    + intros Hres. right. exists items. now split.
  - split; [discriminate|]. intros _. now left.
Qed.

Lemma array_type_is_items_type_witness :
  schema_type Examples.untitledSchema = "object"
  /\ exists model,
       parse Examples.untitledSchema = Returned model
       /\ forall i pname prop,
            nth_error (listOr (schema_properties Examples.untitledSchema)) i
            = Some (pname, prop) ->
            exists parsed,
              nth_error (properties model) i = Some parsed
              /\ (isArray parsed = true ->
                  (forall items, prop_items prop = Some items ->
                                 type parsed = resolveType items)
                  /\ (type parsed = "array" ->
                      prop_items prop = None
                      \/ exists items, prop_items prop = Some items
                                       /\ resolveType items = "array")).
Proof.
  split; [reflexivity|].
  apply (array_type_is_items_type Examples.untitledSchema).
  reflexivity.
Defined.

(** The array of strings of the example resolves to its element type. *)
Example emails_parsed :
  option_map (fun m => nth_error (properties m) 1)
    (match parse Examples.untitledSchema with
     | Returned m => Some m
     | Thrown _ => None
     end)
  = Some (Some (mkParsedProperty "emails" "string" None true true None None)).
Proof. reflexivity. Qed.

(** C8: the parser throws the unsupported-schema error exactly when the root
    type is not object, and returns a model exactly when it is. *)
Theorem parse_throws_iff_not_object (schema : JSONSchema) :
  (parse schema = Thrown unsupported <-> schema_type schema <> "object")
  /\ ((exists model, parse schema = Returned model)
      <-> schema_type schema = "object").
Proof.
  unfold parse.
  destruct (String.eqb_spec (schema_type schema) "object") as [Heq|Hneq]; cbn.
  - split; split.
    + discriminate.
    + intros H. contradiction.
    + intros _. assumption.
    + intros _. eexists. reflexivity.
  - split; split.
    + intros _. assumption.
    + intros _. reflexivity.
    + intros [model H]. discriminate.
    + intros H. contradiction.
Qed.

Example stringSchema_rejected :
  parse Examples.stringSchema
  = Thrown "Only object schemas are supported for model generation".
Proof. reflexivity. Qed.

(** C10: an object-rooted schema without a title is parsed, and the model is
    named UnnamedModel. *)
Theorem untitled_model_is_UnnamedModel (schema : JSONSchema) :
  schema_type schema = "object" ->
  schema_title schema = None ->
  exists model,
    parse schema = Returned model /\ model_name model = "UnnamedModel".
Proof.
  intros Hty Htitle. eexists. split; [apply parse_object, Hty|].
  cbn [model_name]. rewrite Htitle. reflexivity.
Qed.

Lemma untitled_model_is_UnnamedModel_witness :
  schema_type Examples.untitledSchema = "object"
  /\ schema_title Examples.untitledSchema = None
  /\ exists model,
       parse Examples.untitledSchema = Returned model
       /\ model_name model = "UnnamedModel".
Proof.
  split; [reflexivity|]. split; [reflexivity|].
  apply (untitled_model_is_UnnamedModel Examples.untitledSchema); reflexivity.
Defined.

End ModelParser.

(** ** Plugin-spec parser *)

Section PluginParser.
Import JS PluginSpecParser.

(** C1, as stated, fails: the plugin name carries the prefix Cuppa. *)
Lemma plugin_name_has_Cuppa_prefix :
  name (parse Examples.paymentSpec) = "CuppaPaymentPlugin"
  /\ name (parse Examples.paymentSpec)
     <> spec_name Examples.paymentSpec ++ "Plugin".
Proof.
  split; [reflexivity|discriminate].
Qed.

(** No plugin is named by its spec name followed by Plugin alone. *)
Lemma plugin_name_never_bare (spec : PluginSpec) :
  name (parse spec) <> spec_name spec ++ "Plugin".
Proof.
  cbn [parse name]. intros Heq.
  apply (f_equal String.length) in Heq.
  rewrite !append_length in Heq. cbn in Heq. lia.
Qed.

(** C1, amended: the plugin name is Cuppa, the spec name, then Plugin; the
    manager name is the spec name followed by Manager; the protocol name is
    the spec name followed by Provider exactly when the spec declares at
    least one provider, and is absent otherwise. *)
Theorem plugin_derived_names (spec : PluginSpec) :
  name (parse spec) = "Cuppa" ++ spec_name spec ++ "Plugin"
  /\ managerName (parse spec) = spec_name spec ++ "Manager"
  /\ (protocolName (parse spec) = Some (spec_name spec ++ "Provider")
      <-> exists p ps, spec_providers spec = Some (p :: ps))
  /\ (protocolName (parse spec) = None
      <-> ~ exists p ps, spec_providers spec = Some (p :: ps)).
Proof.
  cbn [parse name managerName protocolName]. unfold declaresProvider.
  split; [reflexivity|]. split; [reflexivity|].
  destruct (spec_providers spec) as [[|p ps]|].
  - split; split; try discriminate.
    + intros (p & ps & H). discriminate.
    + intros _ (p & ps & H). discriminate.
    + reflexivity.
  - split; split; try discriminate.
    + intros _. now exists p, ps.
    + reflexivity.
    + intros H. exfalso. apply H. now exists p, ps.
  - split; split; try discriminate.
    + intros (p & ps & H). discriminate.
    + intros _ (p & ps & H). discriminate.
    + reflexivity.
Qed.

Example paymentSpec_names :
  name (parse Examples.paymentSpec) = "CuppaPaymentPlugin"
  /\ managerName (parse Examples.paymentSpec) = "PaymentManager"
  /\ protocolName (parse Examples.paymentSpec) = Some "PaymentProvider".
Proof. repeat split. Qed.

End PluginParser.

(** ** API parser: parameters by location *)

Section ApiParameters.
Import JS OpenAPIParser.

Lemma parsePathItem_In (path : string) (pathItem : OpenAPIPath)
  (e : ParsedEndpoint) :
  In e (parsePathItem path pathItem) ->
  exists method field operation,
    In (method, field) methods
    /\ field pathItem = Some operation
    /\ e = parseOperation method path operation
             (listOr (path_parameters pathItem)).
Proof.
  unfold parsePathItem. rewrite in_flat_map.
  intros [[method field] [Hin He]].
  destruct (field pathItem) as [operation|] eqn:Hfield; [|contradiction].
  destruct He as [He|[]]. exists method, field, operation. now subst.
Qed.

Lemma parseEndpoints_In (paths : list (string * OpenAPIPath))
  (e : ParsedEndpoint) :
  In e (parseEndpoints paths) ->
  exists path pathItem method field operation,
    In (path, pathItem) paths
    /\ In (method, field) methods
    /\ field pathItem = Some operation
    /\ e = parseOperation method path operation
             (listOr (path_parameters pathItem)).
Proof.
  unfold parseEndpoints. rewrite in_flat_map.
  intros [[path pathItem] [Hin He]].
  apply parsePathItem_In in He as (method & field & operation & Hm & Hf & He).
  now exists path, pathItem, method, field, operation.
Qed.

Lemma cookie_not_in_location (loc : string) (declared : list OpenAPIParameter)
  (p : OpenAPIParameter) :
  loc <> "cookie" -> param_in p = "cookie" ->
  ~ In p (filter (inLocation loc) declared).
Proof.
  intros Hloc Hcookie Hin. apply filter_In in Hin as [_ Hin].
  unfold inLocation in Hin. apply String.eqb_eq in Hin. congruence.
Qed.

Lemma locations_disjoint (declared : list OpenAPIParameter) :
  List.length (filter (inLocation "path") declared)
  + List.length (filter (inLocation "query") declared)
  + List.length (filter (inLocation "header") declared)
  + List.length (filter (inLocation "cookie") declared)
  <= List.length declared.
Proof.
  induction declared as [|p declared IH]; cbn [filter List.length]; [lia|].
  assert (Hone : Nat.b2n (inLocation "path" p) + Nat.b2n (inLocation "query" p)
                 + Nat.b2n (inLocation "header" p)
                 + Nat.b2n (inLocation "cookie" p) <= 1).
  { unfold inLocation.
    destruct (String.eqb_spec (param_in p) "path") as [-> |_]; [cbn; lia|].
    destruct (String.eqb_spec (param_in p) "query") as [-> |_]; [cbn; lia|].
    destruct (String.eqb_spec (param_in p) "header") as [-> |_]; [cbn; lia|].
    destruct (param_in p =? "cookie"); cbn; lia. }
  destruct (inLocation "path" p), (inLocation "query" p),
    (inLocation "header" p), (inLocation "cookie" p);
    cbn [List.length Nat.b2n] in *; lia.
Qed.

(** C3: every parsed endpoint comes from an operation of a path item, and
    its buckets are surfaced from the parameters of the path item followed by
    those of the operation: each bucket holds the parameters of its location,
    and a parameter located in a cookie is in none of the three. *)
Theorem cookie_parameters_not_surfaced (spec : OpenAPISpec)
  (e : ParsedEndpoint) :
  In e (endpoints (parse spec)) ->
  exists path pathItem method field operation,
    In (path, pathItem) (paths spec)
    /\ In (method, field) methods
    /\ field pathItem = Some operation
    /\ Spec.SurfacedFrom e
         (listOr (path_parameters pathItem) +++ listOr (op_parameters operation)).
Proof.
  cbn [parse endpoints]. intros Hin.
  apply parseEndpoints_In in Hin
    as (path & pathItem & method & field & operation & Hp & Hm & Hf & ->).
  exists path, pathItem, method, field, operation.
  repeat (split; [assumption|]).
  unfold Spec.SurfacedFrom.
  cbn [parseOperation pathParams queryParams headerParams]. unfold allParamsOf.
  repeat (split; [reflexivity|]).
  split.
  - intros p Hcookie.
    repeat split; apply cookie_not_in_location; (discriminate || assumption).
  - rewrite !length_map. apply locations_disjoint.
Qed.

Example usersApi_endpoint :
  map (fun e => (operationId e, method e,
                 map name (pathParams e), map name (queryParams e),
                 map name (headerParams e)))
      (endpoints (parse Examples.usersApi))
  = [ ("getUsersById", "GET", ["id"], ["fields"], ["X-Trace"]) ].
Proof. reflexivity. Qed.

Lemma cookie_parameters_not_surfaced_witness :
  exists e,
    In e (endpoints (parse Examples.usersApi))
    /\ exists path pathItem method field operation,
         In (path, pathItem) (paths Examples.usersApi)
         /\ In (method, field) methods
         /\ field pathItem = Some operation
         /\ Spec.SurfacedFrom e
              (listOr (path_parameters pathItem)
               +++ listOr (op_parameters operation)).
Proof.
  exists (parseOperation "get" "/users/{id}" Examples.getUser
            [Examples.stringParam "tracking" "cookie"]).
  split; [left; reflexivity|].
  apply (cookie_parameters_not_surfaced Examples.usersApi).
  left. reflexivity.
Defined.

End ApiParameters.

(** ** API parser: derived operation ids *)

Section OperationIds.
Import JS OpenAPIParser.

Lemma substring_prefix_app (a b : string) :
  substring 0 (String.length a) (a ++ b) = a.
Proof.
  induction a as [|c a IH]; cbn.
  - destruct b; reflexivity.
  - now rewrite IH.
Qed.

Lemma substring_suffix_app (a b : string) :
  substring (String.length a) (String.length b) (a ++ b) = b.
Proof.
  induction a as [|c a IH]; cbn; [|assumption].
  rewrite <- (append_nil_r b) at 2.
  rewrite substring_prefix_app. reflexivity.
Qed.

Lemma substring_split (s : string) (n : nat) :
  n <= String.length s ->
  substring 0 n s ++ substring n (String.length s - n) s = s.
Proof.
  revert n. induction s as [|c s IH]; intros n Hn; cbn in Hn.
  - assert (n = 0) as -> by lia. reflexivity.
  - destruct n as [|n]; cbn.
    + f_equal. specialize (IH 0 (Nat.le_0_l _)). cbn in IH.
      rewrite Nat.sub_0_r in IH.
      destruct s; [reflexivity|]. cbn in IH |- *. exact IH.
    + f_equal. apply IH. lia.
Qed.

Lemma endsWith_app (a p : string) : endsWith p (a ++ p) = true.
Proof.
  unfold endsWith. rewrite append_length.
  replace (String.length a + String.length p - String.length p)
    with (String.length a) by lia.
  rewrite substring_suffix_app, String.eqb_refl.
  rewrite andb_true_r. apply Nat.leb_le. lia.
Qed.

Lemma endsWith_inv (p s : string) :
  endsWith p s = true ->
  s = substring 0 (String.length s - String.length p) s ++ p.
Proof.
  unfold endsWith. rewrite andb_true_iff, Nat.leb_le, String.eqb_eq.
  intros [Hlen Hsub].
  rewrite <- (substring_split s (String.length s - String.length p)) at 1 by lia.
  f_equal.
  replace (String.length s - (String.length s - String.length p))
    with (String.length p) by lia.
  exact Hsub.
Qed.

Lemma append_inj_l (a b c : string) : a ++ c = b ++ c -> a = b.
Proof.
  revert b. induction a as [|x a IH]; intros [|y b] H; cbn in H.
  - reflexivity.
  - exfalso. apply (f_equal String.length) in H. cbn in H.
    rewrite append_length in H. lia.
  - exfalso. apply (f_equal String.length) in H. cbn in H.
    rewrite append_length in H. lia.
  - injection H as -> H. f_equal. now apply IH.
Qed.

Lemma slice_braces (p : string) : slice 1 1 ("{" ++ p ++ "}") = p.
Proof.
  unfold slice. cbn. rewrite append_length. cbn.
  replace (String.length p + 1 - 0 - 1) with (String.length p) by lia.
  apply substring_prefix_app.
Qed.

Lemma braces_detected (p : string) :
  startsWith "{" ("{" ++ p ++ "}") && endsWith "}" ("{" ++ p ++ "}") = true.
Proof.
  apply andb_true_iff. split.
  - cbn. destruct (p ++ "}"); reflexivity.
  - change (endsWith "}" (("{" ++ p) ++ "}") = true). apply endsWith_app.
Qed.

Lemma braces_inv (s : string) :
  startsWith "{" s && endsWith "}" s = true -> exists p, s = "{" ++ p ++ "}".
Proof.
  rewrite andb_true_iff. intros [Hstart Hend].
  apply endsWith_inv in Hend.
  destruct s as [|c s]; [discriminate|].
  unfold startsWith in Hstart. apply prefix_correct in Hstart.
  assert (c = "{"%char) as -> by (destruct s; cbn in Hstart; congruence).
  clear Hstart.
  cbn [String.length] in Hend.
  remember (substring 0 (S (String.length s) - 1) (String "{" s)) as a eqn:Ha.
  destruct a as [|x a].
  - cbn in Hend. discriminate.
  - cbn in Hend. injection Hend as <- ->. exists a. reflexivity.
Qed.

(** The code renders every segment as the specification says. *)
Lemma segmentToName_rendered (s : string) : Spec.Rendered s (segmentToName s).
Proof.
  unfold segmentToName.
  destruct (startsWith "{" s && endsWith "}" s) eqn:Hb.
  - apply braces_inv in Hb as [p ->]. rewrite slice_braces. constructor.
  - constructor. intros p ->. rewrite braces_detected in Hb. discriminate.
Qed.

(** Rendering is a function of the segment. *)
Lemma rendered_functional (s t1 t2 : string) :
  Spec.Rendered s t1 -> Spec.Rendered s t2 -> t1 = t2.
Proof.
  intros H1 H2. destruct H1 as [p|s Hs]; inversion H2 as [q Hq|s' Hs' Heq]; subst.
  - apply append_inj_l in Hq. now subst.
  - exfalso. now apply (Hs' p).
  - exfalso. now apply (Hs q).
  - reflexivity.
Qed.

Lemma map_segmentToName_rendered (segments : list string) :
  Forall2 Spec.Rendered segments (map segmentToName segments).
Proof.
  induction segments; constructor; [apply segmentToName_rendered|assumption].
Qed.

(** *** Splitting a path *)

Lemma split_noSlash (a : string) : Spec.noSlash a = true -> split "/" a = [a].
Proof.
  induction a as [|c a IH]; cbn; [reflexivity|].
  rewrite andb_true_iff, negb_true_iff. intros [Hc Ha].
  rewrite Hc, (IH Ha). reflexivity.
Qed.

Lemma split_app_noSlash (a r : string) :
  Spec.noSlash a = true -> split "/" (a ++ "/" ++ r) = a :: split "/" r.
Proof.
  induction a as [|c a IH]; cbn; [reflexivity|].
  rewrite andb_true_iff, negb_true_iff. intros [Hc Ha].
  rewrite Hc. change (String "/" r) with ("/" ++ r).
  rewrite (IH Ha). reflexivity.
Qed.

Lemma split_join (segments : list string) :
  segments <> [] ->
  Forall (fun s => Spec.noSlash s = true) segments ->
  split "/" (join "/" segments) = segments.
Proof.
  induction segments as [|a rest IH]; [congruence|].
  intros _ Hall. inversion Hall as [|? ? Ha Hrest]; subst.
  destruct rest as [|b rest].
  - cbn. now apply split_noSlash.
  - change (join "/" (a :: b :: rest)) with (a ++ "/" ++ join "/" (b :: rest)).
    rewrite (split_app_noSlash _ _ Ha). f_equal. apply IH; [discriminate|assumption].
Qed.

(** The parts generateOperationId keeps of a path built from segments are
    these segments. *)
Lemma parts_of_pathOf (segments : list string) :
  Forall (fun s => Spec.isSegment s = true) segments ->
  filter (fun p => negb (p =? "")) (split "/" (Spec.pathOf segments)) = segments.
Proof.
  intros Hall. unfold Spec.pathOf. cbn [append split].
  change (Ascii.eqb "/" "/") with true. cbn [filter String.eqb negb].
  assert (Hno : Forall (fun s => Spec.noSlash s = true) segments).
  { eapply Forall_impl; [|exact Hall]. cbn. unfold Spec.isSegment.
    intros s H. now apply andb_true_iff in H. }
  assert (Hne : Forall (fun s => negb (s =? "") = true) segments).
  { eapply Forall_impl; [|exact Hall]. cbn. unfold Spec.isSegment.
    intros s H. now apply andb_true_iff in H. }
  destruct segments as [|a rest]; [reflexivity|].
  rewrite split_join; [|discriminate|assumption].
  apply forallb_filter_id. apply forallb_forall.
  rewrite Forall_forall in Hne. exact Hne.
Qed.

(** An operationId that is present and not empty is kept; an empty one is
    replaced by the derived one, as a missing one is. *)
Lemma given_operationId_kept (method path id : string)
  (operation : OpenAPIOperation) (pathLevel : list OpenAPIParameter) :
  op_operationId operation = Some id ->
  operationId (parseOperation method path operation pathLevel)
  = if id =? "" then generateOperationId method path else id.
Proof.
  intros Hid. cbn [parseOperation operationId]. rewrite Hid. cbn.
  destruct (id =? ""); reflexivity.
Qed.

(** C5: for an operation without operationId the parser derives the
    lowercased method followed by the rendering of each non-empty part of the
    path; for a path built from segments these parts are the segments; and
    get on /users/{id} gives getUsersById. *)
Theorem operationId_derived (method : string) (segments : list string)
  (operation : OpenAPIOperation) (pathLevel : list OpenAPIParameter) :
  op_operationId operation = None ->
  Forall (fun s => Spec.isSegment s = true) segments ->
  (exists rendered,
     Forall2 Spec.Rendered segments rendered
     /\ operationId (parseOperation method (Spec.pathOf segments) operation pathLevel)
        = toLowerCase method ++ join "" rendered)
  /\ (forall path,
        exists rendered,
          Forall2 Spec.Rendered
            (filter (fun p => negb (p =? "")) (split "/" path)) rendered
          /\ operationId (parseOperation method path operation pathLevel)
             = toLowerCase method ++ join "" rendered)
  /\ operationId (parseOperation "get" "/users/{id}" operation pathLevel)
     = "getUsersById".
Proof.
  intros Hid Hsegs.
  assert (Hop : forall m path,
             operationId (parseOperation m path operation pathLevel)
             = generateOperationId m path).
  { intros m path. cbn [parseOperation operationId]. rewrite Hid. reflexivity. }
  split; [|split].
  - exists (map segmentToName segments). split.
    + apply map_segmentToName_rendered.
    + rewrite Hop. unfold generateOperationId.
      rewrite (parts_of_pathOf _ Hsegs). reflexivity.
  - intros path. eexists. split.
    + apply map_segmentToName_rendered.
    + rewrite Hop. reflexivity.
  - rewrite Hop. reflexivity.
Qed.

Lemma operationId_derived_witness :
  op_operationId Examples.getUser = None
  /\ Forall (fun s => Spec.isSegment s = true) ["users"; "{id}"]
  /\ (exists rendered,
        Forall2 Spec.Rendered ["users"; "{id}"] rendered
        /\ operationId (parseOperation "get" (Spec.pathOf ["users"; "{id}"])
                          Examples.getUser [])
           = toLowerCase "get" ++ join "" rendered)
  /\ (forall path,
        exists rendered,
          Forall2 Spec.Rendered
            (filter (fun p => negb (p =? "")) (split "/" path)) rendered
          /\ operationId (parseOperation "get" path Examples.getUser [])
             = toLowerCase "get" ++ join "" rendered)
  /\ operationId (parseOperation "get" "/users/{id}" Examples.getUser [])
     = "getUsersById".
Proof.
  split; [reflexivity|].
  split; [repeat constructor|].
  apply (operationId_derived "get" ["users"; "{id}"] Examples.getUser []).
  - reflexivity.
  - repeat constructor.
Defined.

End OperationIds.

(** ** Design-token values *)

Section TokenValues.
Import JS DesignTokensParser NumberText.

Ltac each_char c :=
  destruct c as [[] [] [] [] [] [] [] []].

Lemma unit_char_not_num (c : ascii) :
  isUnitChar c = true -> isNumChar c = false.
Proof.
  each_char c; vm_compute; intros H; first [reflexivity|discriminate H].
Qed.

Lemma digit_is_num (c : ascii) : isDigit c = true -> isNumChar c = true.
Proof.
  unfold isNumChar. now intros ->.
Qed.

Lemma span_all (f : ascii -> bool) (d : string) :
  allChars f d = true -> span f d = (d, EmptyString).
Proof.
  induction d as [|c d IH]; cbn; [reflexivity|].
  rewrite andb_true_iff. intros [-> Hd]. now rewrite (IH Hd).
Qed.

Lemma span_app (f : ascii -> bool) (d r : string) :
  allChars f d = true ->
  match r with EmptyString => True | String c _ => f c = false end ->
  span f (d ++ r) = (d, r).
Proof.
  intros Hd Hr. induction d as [|c d IH]; cbn.
  - destruct r as [|c r]; [reflexivity|]. cbn. now rewrite Hr.
  - cbn in Hd. apply andb_true_iff in Hd as [-> Hd]. now rewrite (IH Hd).
Qed.

Lemma allChars_app (f : ascii -> bool) (a b : string) :
  allChars f (a ++ b) = allChars f a && allChars f b.
Proof.
  induction a as [|c a IH]; cbn; [reflexivity|]. now rewrite IH, andb_assoc.
Qed.

Lemma allChars_impl (f g : ascii -> bool) (s : string) :
  (forall c, f c = true -> g c = true) ->
  allChars f s = true -> allChars g s = true.
Proof.
  intros Hfg. induction s as [|c s IH]; cbn; [reflexivity|].
  rewrite !andb_true_iff. intros [Hc Hs]. split; [now apply Hfg|now apply IH].
Qed.

(** The pattern of parseValue splits a run of digits and dots followed by a
    unit into these two pieces. *)
Lemma matchNumberUnit_split (d u : string) :
  d <> EmptyString ->
  allChars isNumChar d = true ->
  allChars isUnitChar u = true ->
  matchNumberUnit (d ++ u) = Some (d, u).
Proof.
  intros Hne Hd Hu. unfold matchNumberUnit.
  rewrite (span_app isNumChar d u Hd).
  - destruct d as [|c d]; [congruence|]. cbn. now rewrite Hu.
  - destruct u as [|c u]; [exact I|]. cbn in Hu.
    apply andb_true_iff in Hu as [Hc _]. now apply unit_char_not_num.
Qed.

(** *** parseFloat on plain decimal text *)

Lemma digit_first (c : ascii) (s : string) :
  isDigit c = true ->
  trimStart (String c s) = String c s
  /\ splitSign (String c s) = (false, String c s)
  /\ startsWith "Infinity" (String c s) = false
  /\ c <> "."%char.
Proof.
  each_char c; vm_compute; intros H; first [discriminate H|repeat split; discriminate].
Qed.

Lemma parseFloat_digits (ds : string) :
  ds <> EmptyString ->
  allChars isDigit ds = true ->
  parseFloat ds = Finite false (digitsValue 0 ds) 0.
Proof.
  intros Hne Hds. destruct ds as [|c ds]; [congruence|].
  pose proof Hds as Hc. cbn in Hc. apply andb_true_iff in Hc as [Hc _].
  destruct (digit_first c ds Hc) as (Htrim & Hsign & Hinf & _).
  unfold parseFloat. rewrite Htrim, Hsign, Hinf.
  unfold unsignedLiteral. rewrite (span_all _ _ Hds). reflexivity.
Qed.

Lemma parseFloat_fraction (ip fp : string) :
  ip <> EmptyString ->
  allChars isDigit ip = true ->
  allChars isDigit fp = true ->
  parseFloat (ip ++ "." ++ fp)
  = Finite false (digitsValue 0 (ip ++ fp)) (- Z.of_nat (String.length fp)).
Proof.
  intros Hne Hip Hfp. destruct ip as [|c ip]; [congruence|].
  pose proof Hip as Hc. cbn in Hc. apply andb_true_iff in Hc as [Hc _].
  destruct (digit_first c (ip ++ "." ++ fp) Hc) as (Htrim & Hsign & Hinf & _).
  unfold parseFloat.
  change (String c ip ++ "." ++ fp) with (String c (ip ++ "." ++ fp)).
  rewrite Htrim, Hsign, Hinf.
  unfold unsignedLiteral.
  change (String c (ip ++ "." ++ fp)) with (String c ip ++ "." ++ fp).
  rewrite (span_app isDigit (String c ip) ("." ++ fp) Hip) by reflexivity.
  cbn [append]. rewrite (span_all _ _ Hfp). cbn [String.eqb andb].
  reflexivity.
Qed.

(** *** The decimal writing of a natural number *)

Lemma string_of_uint_digits (d : Decimal.uint) :
  allChars isDigit (NilEmpty.string_of_uint d) = true.
Proof.
  induction d; cbn [NilEmpty.string_of_uint allChars]; try rewrite IHd;
    reflexivity.
Qed.

Lemma digitsValue_of_uint_acc (d : Decimal.uint) (acc : positive) :
  digitsValue (Npos acc) (NilEmpty.string_of_uint d)
  = Npos (Pos.of_uint_acc d acc).
Proof.
  revert acc. induction d; intros acc; cbn [NilEmpty.string_of_uint digitsValue Pos.of_uint_acc];
    [reflexivity|..];
    match goal with
    | |- digitsValue (_ + digitValue ?c) _ = N.pos (Pos.of_uint_acc _ ?b) =>
        let v := eval vm_compute in (digitValue c) in
        change (digitValue c) with v;
        rewrite <- (IHd b); f_equal; lia
    end.
Qed.

Lemma digitsValue_of_uint (d : Decimal.uint) :
  digitsValue 0 (NilEmpty.string_of_uint d) = N.of_uint d.
Proof.
  unfold N.of_uint.
  induction d; cbn [NilEmpty.string_of_uint digitsValue Pos.of_uint];
    [reflexivity|exact IHd|..];
    match goal with
    | |- digitsValue ?a _ = N.pos (Pos.of_uint_acc _ ?b) =>
        change a with (Npos b)
    end; apply digitsValue_of_uint_acc.
Qed.

Lemma writeN_digits (n : N) :
  writeN n <> EmptyString /\ allChars isDigit (writeN n) = true.
Proof.
  split; [|apply string_of_uint_digits].
  unfold writeN. intros H.
  pose proof (DecimalN.Unsigned.of_to n) as Hof.
  pose proof (NilEmpty.usu (N.to_uint n)) as Husu.
  rewrite H in Husu. cbn in Husu. injection Husu as Hnil.
  destruct n as [|p]; [discriminate|].
  rewrite <- Hnil in Hof. discriminate.
Qed.

Lemma parseFloat_writeN (n : N) : parseFloat (writeN n) = ofN n.
Proof.
  destruct (writeN_digits n) as [Hne Hds].
  rewrite (parseFloat_digits _ Hne Hds). unfold ofN, writeN.
  rewrite digitsValue_of_uint, DecimalN.Unsigned.of_to. reflexivity.
Qed.

(** C6, as stated, fails: a negative number followed by a unit other than px
    comes back with the unit px. *)
Lemma negative_number_loses_unit :
  parseValue (IsString (writeZ (-5) ++ "rem"))
  = {| numValue := ofZ (-5); unitOf := "px" |}
  /\ parseValue (IsString (writeZ (-5) ++ "rem"))
     <> {| numValue := ofZ (-5); unitOf := "rem" |}.
Proof.
  split; [reflexivity|discriminate].
Qed.

(** A run of dots matches the pattern and has no number to read: the value
    is NaN, not 0. *)
Example dots_give_NaN :
  parseValue (IsString ".px") = {| numValue := NaN; unitOf := "px" |}.
Proof. reflexivity. Qed.

(** C6, amended: a natural number written in decimal digits and followed by
    a unit over letters and the percent sign parses back to the number and
    the unit, px standing for the empty unit; so does a number written with
    an integer part, a dot and a fraction; a bare number parses to itself
    with px; and a string that does not match the pattern and has no leading
    number parses to 0 with px. *)
Theorem parseValue_number_unit (n : N) (u : string) :
  allChars isUnitChar u = true ->
  parseValue (IsString (writeN n ++ u))
  = {| numValue := ofN n; unitOf := if u =? "" then "px" else u |}
  /\ parseValue (IsString (writeN n)) = {| numValue := ofN n; unitOf := "px" |}
  /\ (forall ip fp,
        ip <> EmptyString ->
        allChars isDigit ip = true ->
        allChars isDigit fp = true ->
        parseValue (IsString (ip ++ "." ++ fp ++ u))
        = {| numValue :=
               Finite false (digitsValue 0 (ip ++ fp))
                            (- Z.of_nat (String.length fp));
             unitOf := if u =? "" then "px" else u |})
  /\ (forall x, parseValue (IsNumber x) = {| numValue := x; unitOf := "px" |})
  /\ (forall s,
        matchNumberUnit s = None ->
        parseFloat s = NaN ->
        parseValue (IsString s) = {| numValue := ofN 0; unitOf := "px" |}).
Proof.
  intros Hu. destruct (writeN_digits n) as [Hne Hds].
  assert (Hnum : allChars isNumChar (writeN n) = true)
    by (eapply allChars_impl; [apply digit_is_num|exact Hds]).
  split; [|split; [|split; [|split]]].
  - cbn [parseValue]. rewrite (matchNumberUnit_split _ _ Hne Hnum Hu).
    rewrite parseFloat_writeN. reflexivity.
  - cbn [parseValue]. rewrite <- (append_nil_r (writeN n)) at 1.
    rewrite (matchNumberUnit_split _ EmptyString Hne Hnum eq_refl).
    rewrite parseFloat_writeN. reflexivity.
  - intros ip fp Hip Hipd Hfpd. cbn [parseValue].
    replace (ip ++ "." ++ fp ++ u) with ((ip ++ "." ++ fp) ++ u)
      by (now rewrite !append_assoc).
    rewrite matchNumberUnit_split; [| |  |exact Hu].
    + rewrite parseFloat_fraction by assumption. reflexivity.
    + destruct ip; [congruence|discriminate].
    + rewrite !allChars_app. cbn.
      rewrite (allChars_impl _ _ _ digit_is_num Hipd).
      rewrite (allChars_impl _ _ _ digit_is_num Hfpd). reflexivity.
  - reflexivity.
  - intros s Hno Hnan. cbn [parseValue]. rewrite Hno, Hnan. reflexivity.
Qed.

Lemma parseValue_number_unit_witness :
  allChars isUnitChar "rem" = true
  /\ parseValue (IsString (writeN 16 ++ "rem"))
     = {| numValue := ofN 16; unitOf := "rem" |}
  /\ parseValue (IsString (writeN 16)) = {| numValue := ofN 16; unitOf := "px" |}
  /\ (forall ip fp,
        ip <> EmptyString ->
        allChars isDigit ip = true ->
        allChars isDigit fp = true ->
        parseValue (IsString (ip ++ "." ++ fp ++ "rem"))
        = {| numValue :=
               Finite false (digitsValue 0 (ip ++ fp))
                            (- Z.of_nat (String.length fp));
             unitOf := "rem" |})
  /\ (forall x, parseValue (IsNumber x) = {| numValue := x; unitOf := "px" |})
  /\ (forall s,
        matchNumberUnit s = None ->
        parseFloat s = NaN ->
        parseValue (IsString s) = {| numValue := ofN 0; unitOf := "px" |}).
Proof.
  split; [reflexivity|].
  apply (parseValue_number_unit 16 "rem"). reflexivity.
Defined.

(** Scenario B of the specification. *)
Example spacing_parsed :
  parseSpacing [ ("small", BareSpacing (IsString "8px"));
                 ("medium", BareSpacing (IsNumber (ofN 16))) ]
  = [ mkParsedMeasure "small" (ofN 8) "px";
      mkParsedMeasure "medium" (ofN 16) "px" ].
Proof. reflexivity. Qed.

Example parseValue_examples :
  parseValue (IsString "1.5rem")
  = {| numValue := Finite false 15 (-1); unitOf := "rem" |}
  /\ parseValue (IsString "100%") = {| numValue := ofN 100; unitOf := "%" |}
  /\ parseValue (IsString "abc") = {| numValue := ofN 0; unitOf := "px" |}
  /\ parseValue (IsString "-0.02em")
     = {| numValue := Finite true 2 (-2); unitOf := "px" |}.
Proof. repeat split. Qed.

End TokenValues.

(** ** Generators: lines and their joining *)

Section Joining.
Import JS.

Lemma join_cons (sep x : string) (rest : list string) :
  exists tail, join sep (x :: rest) = x ++ tail.
Proof.
  destruct rest as [|y rest].
  - exists EmptyString. cbn. now rewrite append_nil_r.
  - exists (sep ++ join sep (y :: rest)). reflexivity.
Qed.

(** What follows the first element of a joined array does not depend on
    that element. *)
Lemma join_tail (sep : string) (rest : list string) :
  exists tail, forall x, join sep (x :: rest) = x ++ tail.
Proof.
  destruct rest as [|y rest].
  - exists EmptyString. intros x. cbn. now rewrite append_nil_r.
  - exists (sep ++ join sep (y :: rest)). reflexivity.
Qed.

Lemma join_cons_cons (sep x y : string) (rest : list string) :
  join sep (x :: y :: rest) = x ++ sep ++ join sep (y :: rest).
Proof. reflexivity. Qed.

Lemma occursIn_refl (s : string) : occursIn s s.
Proof.
  exists EmptyString, EmptyString. cbn. now rewrite append_nil_r.
Qed.

Lemma occursIn_trans (a b c : string) :
  occursIn a b -> occursIn b c -> occursIn a c.
Proof.
  intros (p1 & q1 & ->) (p2 & q2 & ->).
  exists (p2 ++ p1), (q1 ++ q2). now rewrite !append_assoc.
Qed.

Lemma occursIn_app_r (a s t : string) : occursIn a t -> occursIn a (s ++ t).
Proof.
  intros (p & q & ->). exists (s ++ p), q. now rewrite !append_assoc.
Qed.

Lemma occursIn_app_l (a s t : string) : occursIn a s -> occursIn a (s ++ t).
Proof.
  intros (p & q & ->). exists p, (q ++ t). now rewrite !append_assoc.
Qed.

(** An element of an array occurs in the joined text. *)
Lemma occursIn_join (sep x : string) (xs : list string) :
  In x xs -> occursIn x (join sep xs).
Proof.
  induction xs as [|y xs IH]; [contradiction|].
  intros [->|Hin].
  - destruct (join_cons sep x xs) as [tail ->].
    apply occursIn_app_l, occursIn_refl.
  - destruct xs as [|z xs]; [contradiction|].
    rewrite join_cons_cons. apply occursIn_app_r, occursIn_app_r. now apply IH.
Qed.

Lemma filter_none {A : Type} (f : A -> bool) (xs : list A) :
  Forall (fun x => f x = false) xs -> filter f xs = [].
Proof.
  induction 1 as [|x xs Hx _ IH]; cbn; [reflexivity|]. now rewrite Hx.
Qed.

End Joining.

(** ** Kotlin theme generator: the timestamp *)

Section KotlinTimestamp.
Import JS DesignTokensParser KotlinThemeGenerator.
Variable numberToString : number -> string.

(** C9: the output of the generator is the provenance line, the line of the
    generation date, and a remainder that the clock does not reach: two calls
    on the same theme and source label differ in the date alone, and with the
    same date they give the same text. *)
Theorem generate_deterministic_modulo_timestamp (theme : ParsedTheme)
  (sourceFile : string) :
  (exists rest,
     forall now,
       generate numberToString now theme sourceFile
       = "// Generated by cuppa-cli from " ++ sourceFile ++ nl
         ++ "// Generation date: " ++ timestampOf now ++ nl ++ rest)
  /\ (forall now1 now2,
        timestampOf now1 = timestampOf now2 ->
        generate numberToString now1 theme sourceFile
        = generate numberToString now2 theme sourceFile).
Proof.
  assert (Hshape : exists rest,
             forall now,
               generate numberToString now theme sourceFile
               = "// Generated by cuppa-cli from " ++ sourceFile ++ nl
                 ++ "// Generation date: " ++ timestampOf now ++ nl ++ rest).
  { eexists. intros now. unfold generate, bodyLines.
    cbn [app]. rewrite join_cons_cons. unfold createHeader.
    rewrite !join_cons_cons. cbn [join].
    rewrite !append_assoc. reflexivity. }
  split; [exact Hshape|].
  destruct Hshape as [rest Hrest]. intros now1 now2 Heq.
  now rewrite (Hrest now1), (Hrest now2), Heq.
Qed.

End KotlinTimestamp.

Example brandTheme_kotlin :
  KotlinThemeGenerator.createHeader "2025-11-15T09:30:00.000Z" "tokens.json"
  = "// Generated by cuppa-cli from tokens.json" ++ JS.nl
    ++ "// Generation date: 2025-11-15" ++ JS.nl
    ++ "// DO NOT EDIT MANUALLY - Changes will be overwritten" ++ JS.nl
  /\ filter (fun line => JS.startsWith "        val " line
                         || JS.startsWith "    titleLarge" line)
       (KotlinThemeGenerator.bodyLines NumberText.integerToString
          Examples.brandTheme "tokens.json")
     = [ "        val BrandPrimary = Color(0xFF3366FF)";
         "        val TitleLarge = 22.sp";
         "        val Caption = 12.sp";
         "        val Small = 8.dp";
         "    titleLarge = TextStyle(fontSize = Brand.FontSizes.TitleLarge)" ].
Proof. split; reflexivity. Qed.

(** ** Swift component generator: initializers *)

Section SwiftInitializers.
Import JS ComponentSpecParser SwiftComponentGenerator.
Variable numberToString : number -> string.

Lemma Plain_here (s : string) : Spec.Plain s -> Spec.opensInitializer s = false.
Proof.
  intros H. specialize (H EmptyString). now rewrite append_nil_r in H.
Qed.

Lemma Plain_app (s t : string) : Spec.Plain s -> Spec.Plain (s ++ t).
Proof.
  intros H tail. rewrite append_assoc. apply H.
Qed.

Lemma Plain_join (x : string) (rest : list string) :
  Spec.Plain x -> Spec.Plain (join nl (x :: rest)).
Proof.
  intros H. destruct (join_cons nl x rest) as [tail ->]. now apply Plain_app.
Qed.

Ltac plain :=
  repeat first
    [ apply Plain_here
    | apply Plain_join
    | (intros ?tail; reflexivity) ].

Lemma createHeader_plain (now componentName sourceFile : string) :
  Spec.Plain (createHeader now componentName sourceFile).
Proof. unfold createHeader. plain. Qed.

Lemma generateExampleUsage_plain (component : ParsedComponent) :
  Spec.Plain (generateExampleUsage component).
Proof.
  unfold generateExampleUsage.
  destruct (hasAsyncAction component); plain.
Qed.

Lemma generateStyling_plain (component : ParsedComponent) (indent : string) :
  Spec.Plain (generateStyling numberToString component ("        " ++ indent)).
Proof.
  unfold generateStyling.
  destruct (strTruthy (font (style component)));
    destruct (strTruthy (fontWeight (style component)));
    destruct (strTruthy (foregroundColor (style component)));
    cbn [pushIf app]; plain.
Qed.

Lemma generateBody_plain (component : ParsedComponent) :
  Spec.Plain (generateBody numberToString component).
Proof.
  unfold generateBody.
  destruct (actions component) as [|first others]; cbn [app]; [|plain].
  destruct (hasLoadingState component); cbn [app]; [plain|].
  destruct (findByName ["icon"; "iconName"] (properties component));
    cbn [app]; [plain|].
  destruct (findByName ["message"] (properties component));
    cbn [app]; [plain|].
  destruct (findByName ["title"; "text"] (properties component));
    cbn [app]; [plain|].
  apply Plain_join. apply (generateStyling_plain component "    ").
Qed.

Lemma generatePreview_plain (component : ParsedComponent) :
  Spec.Plain (generatePreview component).
Proof. unfold generatePreview. cbn [app]. plain. Qed.

Lemma generateActionHandler_plain (component : ParsedComponent) :
  Spec.Plain (generateActionHandler component).
Proof. unfold generateActionHandler. plain. Qed.

Lemma NoInitializer_app (xs ys : list string) :
  Spec.NoInitializer xs -> Spec.NoInitializer ys -> Spec.NoInitializer (xs +++ ys).
Proof.
  intros Hx Hy. apply Forall_app. now split.
Qed.

Lemma NoInitializer_pushIf (cond : bool) (lines : list string) :
  Spec.NoInitializer lines -> Spec.NoInitializer (pushIf cond lines).
Proof.
  destruct cond; [trivial|constructor].
Qed.

Lemma NoInitializer_map {A : Type} (f : A -> string) (xs : list A) :
  (forall x, Spec.opensInitializer (f x) = false) -> Spec.NoInitializer (map f xs).
Proof.
  intros H. induction xs; constructor; [apply H|assumption].
Qed.

Lemma NoInitializer_flat_map {A : Type} (f : A -> list string) (xs : list A) :
  (forall x, Spec.NoInitializer (f x)) -> Spec.NoInitializer (flat_map f xs).
Proof.
  intros H. induction xs; cbn; [constructor|].
  apply NoInitializer_app; [apply H|assumption].
Qed.

Ltac no_initializer :=
  repeat first
    [ apply NoInitializer_app
    | apply NoInitializer_pushIf
    | apply Forall_nil
    | apply Forall_cons ].

Lemma declarationLines_no_initializer (now : string)
  (component : ParsedComponent) (sourceFile : string) :
  Spec.NoInitializer (declarationLines now component sourceFile).
Proof.
  unfold declarationLines. no_initializer;
    try reflexivity;
    try (apply Plain_here; first [ apply createHeader_plain
                                 | apply generateExampleUsage_plain ]).
  - apply NoInitializer_flat_map. intros prop.
    apply NoInitializer_pushIf. repeat constructor.
  - apply NoInitializer_map. intros prop.
    destruct (isBindingType prop); reflexivity.
  - apply NoInitializer_map. intros action. reflexivity.
Qed.

Lemma bodyLines_no_initializer (component : ParsedComponent) :
  Spec.NoInitializer (bodyLines numberToString component).
Proof.
  unfold bodyLines. no_initializer;
    try reflexivity;
    apply Plain_here;
    first [ apply generateBody_plain
          | apply generatePreview_plain
          | apply generateActionHandler_plain ].
Qed.

Lemma asyncInitializer_opens (component : ParsedComponent) :
  Spec.opensInitializer (generateAsyncInitializer numberToString component) = true.
Proof. reflexivity. Qed.

Lemma syncInitializer_opens (component : ParsedComponent) :
  Spec.opensInitializer (generateSyncInitializer numberToString component) = true.
Proof. reflexivity. Qed.

Lemma initializer_opens (component : ParsedComponent) :
  Spec.opensInitializer (generateInitializer numberToString component) = true.
Proof. reflexivity. Qed.

Lemma initializerCount_generateLines (now : string)
  (component : ParsedComponent) (sourceFile : string) :
  Spec.initializerCount (generateLines numberToString now component sourceFile)
  = if hasAsyncAction component then 2 else 1.
Proof.
  unfold Spec.initializerCount, generateLines.
  rewrite !filter_app.
  rewrite (filter_none _ _ (declarationLines_no_initializer now component sourceFile)).
  rewrite (filter_none _ _ (bodyLines_no_initializer component)).
  rewrite app_nil_r. cbn [app]. unfold initializerLines.
  destruct (hasAsyncAction component); cbn [filter].
  - rewrite asyncInitializer_opens, syncInitializer_opens. reflexivity.
  - rewrite initializer_opens. reflexivity.
Qed.

Lemma hasAsyncAction_parse (spec : ComponentSpec) :
  hasAsyncAction (parse spec) = true
  <-> exists action,
        In action (listOr (spec_actions spec)) /\ ca_type action = "async".
Proof.
  cbn [parse hasAsyncAction]. unfold parseActions.
  rewrite existsb_exists. split.
  - intros (parsed & Hin & Hasync). apply in_map_iff in Hin as (action & <- & Hin).
    cbn [isAsync] in Hasync. apply String.eqb_eq in Hasync. now exists action.
  - intros (action & Hin & Htype). eexists. split.
    + apply in_map_iff. exists action. split; [reflexivity|exact Hin].
    + cbn [isAsync]. now apply String.eqb_eq.
Qed.

Lemma asyncInitializer_accepts_async (component : ParsedComponent) :
  occursIn "action: @escaping () async -> Void"
    (generateAsyncInitializer numberToString component).
Proof.
  unfold generateAsyncInitializer.
  eapply occursIn_trans;
      [|apply occursIn_join; cbn [app]; right; right; left; reflexivity].
  eapply occursIn_trans; [|apply occursIn_join, in_or_app; right; left; reflexivity].
  exists "        ", EmptyString. reflexivity.
Qed.

Lemma syncInitializer_accepts_sync (component : ParsedComponent) :
  occursIn "action: @escaping () -> Void"
    (generateSyncInitializer numberToString component)
  /\ occursIn "Task { action() }"
       (generateSyncInitializer numberToString component).
Proof.
  unfold generateSyncInitializer. split.
  - eapply occursIn_trans;
      [|apply occursIn_join; cbn [app]; right; right; left; reflexivity].
    eapply occursIn_trans; [|apply occursIn_join, in_or_app; right; left; reflexivity].
    exists "        ", EmptyString. reflexivity.
  - eapply occursIn_trans;
      [|apply occursIn_join; cbn [app]; do 4 right; apply in_or_app; right;
        right; left; reflexivity].
    exists "            ", EmptyString. reflexivity.
Qed.

(** C7: the flag hasAsyncAction of the parsed component is true exactly when
    the spec has an action of type async.  When it is true the generator
    pushes the asynchronous initializer, which takes an async action, and the
    synchronous one, which takes a plain action and runs it in a Task: the
    output holds both and no other element of the array opens an initializer.
    When it is false the output holds the one initializer of
    generateInitializer. *)
Theorem async_action_gives_two_initializers (now : string)
  (spec : ComponentSpec) (sourceFile : string) :
  (hasAsyncAction (parse spec) = true
   <-> exists action,
         In action (listOr (spec_actions spec)) /\ ca_type action = "async")
  /\ if hasAsyncAction (parse spec) then
       Spec.initializerCount
         (generateLines numberToString now (parse spec) sourceFile) = 2
       /\ initializerLines numberToString (parse spec)
          = [ generateAsyncInitializer numberToString (parse spec);
              EmptyString;
              generateSyncInitializer numberToString (parse spec);
              EmptyString ]
       /\ occursIn (generateAsyncInitializer numberToString (parse spec))
            (generate numberToString now (parse spec) sourceFile)
       /\ occursIn (generateSyncInitializer numberToString (parse spec))
            (generate numberToString now (parse spec) sourceFile)
       /\ occursIn "action: @escaping () async -> Void"
            (generateAsyncInitializer numberToString (parse spec))
       /\ occursIn "action: @escaping () -> Void"
            (generateSyncInitializer numberToString (parse spec))
       /\ occursIn "Task { action() }"
            (generateSyncInitializer numberToString (parse spec))
     else
       Spec.initializerCount
         (generateLines numberToString now (parse spec) sourceFile) = 1
       /\ initializerLines numberToString (parse spec)
          = [ generateInitializer numberToString (parse spec); EmptyString ]
       /\ occursIn (generateInitializer numberToString (parse spec))
            (generate numberToString now (parse spec) sourceFile).
Proof.
  split; [apply hasAsyncAction_parse|].
  pose proof (initializerCount_generateLines now (parse spec) sourceFile) as Hcount.
  assert (Hin : forall chunk,
             In chunk (initializerLines numberToString (parse spec)) ->
             occursIn chunk (generate numberToString now (parse spec) sourceFile)).
  { intros chunk Hchunk. unfold generate, generateLines.
    apply occursIn_join, in_or_app. right. apply in_or_app. now left. }
  unfold initializerLines in *.
  destruct (hasAsyncAction (parse spec)).
  - split; [exact Hcount|]. split; [reflexivity|].
    split; [apply Hin; left; reflexivity|].
    split; [apply Hin; right; right; left; reflexivity|].
    split; [apply asyncInitializer_accepts_async|].
    apply syncInitializer_accepts_sync.
  - split; [exact Hcount|]. split; [reflexivity|].
    apply Hin. left. reflexivity.
Qed.

End SwiftInitializers.

(** Scenario D: one action of type async. *)
Example iconButton_two_initializers :
  ComponentSpecParser.hasAsyncAction (ComponentSpecParser.parse Examples.iconButton)
  = true
  /\ Spec.initializerCount
       (SwiftComponentGenerator.generateLines NumberText.integerToString
          "2025-11-15T09:30:00.000Z"
          (ComponentSpecParser.parse Examples.iconButton) "icon-button.json")
     = 2.
Proof. split; reflexivity. Qed.

Example actionCard_one_initializer :
  ComponentSpecParser.hasAsyncAction (ComponentSpecParser.parse Examples.actionCard)
  = false
  /\ Spec.initializerCount
       (SwiftComponentGenerator.generateLines NumberText.integerToString
          "2025-11-15T09:30:00.000Z"
          (ComponentSpecParser.parse Examples.actionCard) "action-card.json")
     = 1.
Proof. split; reflexivity. Qed.

(** ** Swift component generator: the generated files of the repository *)

Section GeneratedFiles.
Import JS.

(** The generator, run on the specification of the icon button, gives the
    file Generated/Buttons/IconButton.swift of the repository. *)
Example iconButton_swift_file :
  SwiftComponentGenerator.generate NumberText.integerToString
    "2025-11-15T00:00:00.000Z" (ComponentSpecParser.parse Examples.iconButton) "icon-button.json"
  = join nl
    [ "//";
      "//  IconButton.swift";
      "//  CuppaUI";
      "//";
      "//  Generated from component specifications on 2025-11-15.";
      "//  Copyright © 2025 MyCuppa. All rights reserved.";
      "//";
      "//  IconButton component";
      "//";
      "//  ⚠️ DO NOT EDIT: This file is auto-generated from component specifications.";
      "//  Source: icon-button.json";
      "//  To make changes, update the component JSON files and regenerate.";
      "//";
      EmptyString;
      "import SwiftUI";
      "import CuppaCore";
      EmptyString;
      "/// A button with an icon, used for toolbar actions and compact interfaces";
      "///";
      "/// Features:";
      "/// - Async action support";
      "/// - Synchronous action support";
      "/// - Loading state with spinner";
      "/// - Automatic state management";
      "/// - SF Symbol name for the icon";
      "/// - Accessibility label";
      "/// - Whether the button is in loading state";
      "///";
      "/// Example:";
      "/// ```swift";
      "/// IconButton(" ++ dq ++ "icon" ++ dq ++ ") {";
      "///     // Handle action";
      "/// }";
      "/// ```";
      "public struct IconButton: View {";
      "    // MARK: - Properties";
      EmptyString;
      "    let icon: String";
      "    let label: String";
      "    let isLoading: Bool";
      "    @State private var isPerformingAction = false";
      "    let action: () async -> Void";
      EmptyString;
      "    // MARK: - Initialization";
      EmptyString;
      "    /// Async action initializer";
      "    public init(";
      "        icon: String,";
      "        label: String,";
      "        isLoading: Bool = false,";
      "        action: @escaping () async -> Void";
      "    ) {";
      "        self.icon = icon";
      "        self.label = label";
      "        self.isLoading = isLoading";
      "        self.action = action";
      "    }";
      EmptyString;
      "    /// Synchronous action initializer";
      "    public init(";
      "        icon: String,";
      "        label: String,";
      "        isLoading: Bool = false,";
      "        action: @escaping () -> Void";
      "    ) {";
      "        self.icon = icon";
      "        self.label = label";
      "        self.isLoading = isLoading";
      "        self.action = {";
      "            Task { action() }";
      "        }";
      "    }";
      EmptyString;
      "    // MARK: - Body";
      EmptyString;
      "    public var body: some View {";
      "        Button {";
      "            handleAction()";
      "        } label: {";
      "            ZStack {";
      "                Image(systemName: icon)";
      "                    .opacity((isLoading || isPerformingAction) ? 0 : 1)";
      EmptyString;
      "                if isLoading || isPerformingAction {";
      "                    ProgressView()";
      "                        .progressViewStyle(CircularProgressViewStyle())";
      "                }";
      "            }";
      "            .font(.title3)";
      "            .foregroundStyle(.blue)";
      "            .padding(.vertical, 12)";
      "            .padding(.horizontal, 12)";
      "            .background(.clear)";
      "            .clipShape(RoundedRectangle(cornerRadius: 8))";
      "            .frame(minHeight: 44)";
      "        }";
      "        .buttonStyle(.plain)";
      "        .disabled(isLoading || isPerformingAction)";
      "        .opacity((isLoading || isPerformingAction) ? 0.6 : 1.0)";
      "    }";
      EmptyString;
      "    // MARK: - Actions";
      EmptyString;
      "    private func handleAction() {";
      "        Task {";
      "            isPerformingAction = true";
      "            await action()";
      "            isPerformingAction = false";
      "        }";
      "    }";
      "}";
      EmptyString;
      "#Preview(" ++ dq ++ "IconButton" ++ dq ++ ") {";
      "    VStack(spacing: 20) {";
      "        IconButton(icon: " ++ dq ++ "star.fill" ++ dq ++ ", label: " ++ dq ++ "Button" ++ dq ++ ") {";
      "            // Async action";
      "        }";
      "    }";
      "    .padding()";
      "}" ].
Proof. vm_compute. reflexivity. Qed.

(** The generator, run on the specification of the toggle field, gives the
    generated file CuppaToggleField.swift of the repository. *)
Example toggleField_swift_file :
  SwiftComponentGenerator.generate NumberText.integerToString
    "2025-11-15T00:00:00.000Z" (ComponentSpecParser.parse Examples.toggleField) "toggle-field.json"
  = join nl
    [ "//";
      "//  CuppaToggleField.swift";
      "//  CuppaUI";
      "//";
      "//  Generated from component specifications on 2025-11-15.";
      "//  Copyright © 2025 MyCuppa. All rights reserved.";
      "//";
      "//  CuppaToggleField component";
      "//";
      "//  ⚠️ DO NOT EDIT: This file is auto-generated from component specifications.";
      "//  Source: toggle-field.json";
      "//  To make changes, update the component JSON files and regenerate.";
      "//";
      EmptyString;
      "import SwiftUI";
      EmptyString;
      "/// A toggle switch with label and optional description";
      "///";
      "/// Features:";
      "/// - Toggle label";
      "/// - Binding to toggle state";
      "/// - Optional description text";
      "/// - Whether toggle is disabled";
      "///";
      "/// Example:";
      "/// ```swift";
      "/// CuppaToggleField(" ++ dq ++ "title" ++ dq ++ ")";
      "/// ```";
      "public struct CuppaToggleField: View {";
      "    // MARK: - Properties";
      EmptyString;
      "    let title: String";
      "    @Binding var isOn: Bool";
      "    let description: String?";
      "    let isDisabled: Bool";
      EmptyString;
      "    // MARK: - Initialization";
      EmptyString;
      "    public init(";
      "        title: String,";
      "        isOn: Binding<Bool>,";
      "        description: String?,";
      "        isDisabled: Bool = false";
      "    ) {";
      "        self.title = title";
      "        _isOn = isOn";
      "        self.description = description";
      "        self.isDisabled = isDisabled";
      "    }";
      EmptyString;
      "    // MARK: - Body";
      EmptyString;
      "    public var body: some View {";
      "            Text(title)";
      "            .font(.body)";
      "            .foregroundStyle(.primary)";
      "            .padding(.vertical, 12)";
      "            .padding(.horizontal, 0)";
      "            .background(.clear)";
      "    }";
      "}";
      EmptyString;
      "#Preview(" ++ dq ++ "CuppaToggleField" ++ dq ++ ") {";
      "    @Previewable @State var previewBool = false";
      "    VStack(spacing: 20) {";
      "        CuppaToggleField(title: " ++ dq ++ "CuppaToggleField" ++ dq ++ ", isOn: $previewBool, description: nil)";
      "    }";
      "    .padding()";
      "}" ].
Proof. vm_compute. reflexivity. Qed.

(** The generator, run on the specification of the action card, gives the
    file Generated/Cards/CuppaActionCard.swift of the repository. *)
Example actionCard_swift_file :
  SwiftComponentGenerator.generate NumberText.integerToString
    "2025-11-15T00:00:00.000Z" (ComponentSpecParser.parse Examples.actionCard) "action-card.json"
  = join nl
    [ "//";
      "//  CuppaActionCard.swift";
      "//  CuppaUI";
      "//";
      "//  Generated from component specifications on 2025-11-15.";
      "//  Copyright © 2025 MyCuppa. All rights reserved.";
      "//";
      "//  CuppaActionCard component";
      "//";
      "//  ⚠️ DO NOT EDIT: This file is auto-generated from component specifications.";
      "//  Source: action-card.json";
      "//  To make changes, update the component JSON files and regenerate.";
      "//";
      EmptyString;
      "import SwiftUI";
      EmptyString;
      "/// A tappable card with icon, title, subtitle, and trailing chevron";
      "///";
      "/// Features:";
      "/// - SF Symbol icon name";
      "/// - Card title";
      "/// - Card subtitle";
      "/// - Whether to show trailing chevron";
      "///";
      "/// Example:";
      "/// ```swift";
      "/// CuppaActionCard(" ++ dq ++ "icon" ++ dq ++ ")";
      "/// ```";
      "public struct CuppaActionCard: View {";
      "    // MARK: - Properties";
      EmptyString;
      "    let icon: String";
      "    let title: String";
      "    let subtitle: String?";
      "    let showChevron: Bool";
      "    let action: () -> Void";
      EmptyString;
      "    // MARK: - Initialization";
      EmptyString;
      "    public init(";
      "        icon: String,";
      "        title: String,";
      "        subtitle: String?,";
      "        showChevron: Bool = true,";
      "        action: @escaping () -> Void";
      "    ) {";
      "        self.icon = icon";
      "        self.title = title";
      "        self.subtitle = subtitle";
      "        self.showChevron = showChevron";
      "        self.action = action";
      "    }";
      EmptyString;
      "    // MARK: - Body";
      EmptyString;
      "    public var body: some View {";
      "        Button {";
      "            action()";
      "        } label: {";
      "            Image(systemName: icon)";
      "            .font(.body)";
      "            .foregroundStyle(.primary)";
      "            .padding(.vertical, 16)";
      "            .padding(.horizontal, 16)";
      "            .background(.white)";
      "            .clipShape(RoundedRectangle(cornerRadius: 12))";
      "            .overlay(";
      "                RoundedRectangle(cornerRadius: 12)";
      "                    .strokeBorder(.gray, lineWidth: 1)";
      "            )";
      "            .frame(minHeight: 60)";
      "        }";
      "        .buttonStyle(.plain)";
      "    }";
      "}";
      EmptyString;
      "#Preview(" ++ dq ++ "CuppaActionCard" ++ dq ++ ") {";
      "    VStack(spacing: 20) {";
      "        CuppaActionCard(icon: " ++ dq ++ "star.fill" ++ dq ++ ", title: " ++ dq ++ "CuppaActionCard" ++ dq ++ ", subtitle: nil) {";
      "            print(" ++ dq ++ "Action triggered" ++ dq ++ ")";
      "        }";
      "    }";
      "    .padding()";
      "}" ].
Proof. vm_compute. reflexivity. Qed.

End GeneratedFiles.

(** ** Swift component generator: the timestamp *)

Section SwiftTimestamp.
Import JS ComponentSpecParser SwiftComponentGenerator.
Variable numberToString : number -> string.

Lemma createHeader_modulo_timestamp (componentName sourceFile : string) :
  exists before after,
    forall now,
      createHeader now componentName sourceFile
      = before ++ "//  Generated from component specifications on "
        ++ timestampOf now ++ "." ++ after.
Proof.
  exists ("//" ++ nl ++ ("//  " ++ componentName ++ ".swift") ++ nl
          ++ "//  CuppaUI" ++ nl ++ "//" ++ nl).
  eexists. intros now. unfold createHeader.
  rewrite !join_cons_cons, !append_assoc. reflexivity.
Qed.

(** The clock reaches the output of the component generator through the
    date of its header alone. *)
Lemma swift_generate_modulo_timestamp (component : ParsedComponent)
  (sourceFile : string) :
  exists before after,
    forall now,
      generate numberToString now component sourceFile
      = before ++ "//  Generated from component specifications on "
        ++ timestampOf now ++ "." ++ after.
Proof.
  destruct (createHeader_modulo_timestamp (name component) sourceFile)
    as (before & after & Hheader).
  unfold generate, generateLines, declarationLines. cbn [app].
  match goal with
  | |- context [join nl (_ :: ?rest)] =>
      destruct (join_tail nl rest) as [tail Htail]
  end.
  exists before, (after ++ tail). intros now.
  rewrite Htail, Hheader, !append_assoc. reflexivity.
Qed.

End SwiftTimestamp.

(** ** Component-spec parser: type names *)

Section SwiftTypes.
Import JS ComponentSpecParser.

Lemma substring_length_le (s : string) (n m : nat) :
  String.length (substring n m s) <= m.
Proof.
  revert n m. induction s as [|c s IH]; intros n m.
  - destruct n, m; cbn; lia.
  - destruct n as [|n]; destruct m as [|m]; cbn; try lia.
    + specialize (IH 0 m). lia.
    + apply IH.
    + apply IH.
Qed.

Lemma slice_shorter (a b : nat) (s : string) :
  s <> EmptyString -> 0 < a + b ->
  String.length (slice a b s) < String.length s.
Proof.
  intros Hne Hab. unfold slice.
  pose proof (substring_length_le s a (String.length s - b - a)).
  destruct s; [congruence|]. cbn [String.length] in *. lia.
Qed.

(** Any fuel above the length of the type name gives the same result. *)
Lemma mapToSwiftTypeFuel_enough (fuel1 fuel2 : nat) (type : string) :
  String.length type < fuel1 -> String.length type < fuel2 ->
  mapToSwiftTypeFuel fuel1 type = mapToSwiftTypeFuel fuel2 type.
Proof.
  revert fuel2 type. induction fuel1 as [|fuel1 IH]; intros fuel2 type H1 H2;
    [lia|].
  destruct fuel2 as [|fuel2]; [lia|]. cbn [mapToSwiftTypeFuel].
  destruct (startsWith "Binding<" type && endsWith ">" type) eqn:Hbinding.
  - assert (Hne : type <> EmptyString) by (intros ->; discriminate).
    pose proof (slice_shorter 8 1 type Hne ltac:(lia)). apply IH; lia.
  - destruct (endsWith "[]" type) eqn:Harray.
    + assert (Hne : type <> EmptyString) by (intros ->; discriminate).
      pose proof (slice_shorter 0 2 type Hne ltac:(lia)).
      f_equal. f_equal. apply IH; lia.
    + destruct (endsWith "?" type) eqn:Hoptional; [|reflexivity].
      assert (Hne : type <> EmptyString) by (intros ->; discriminate).
      pose proof (slice_shorter 0 1 type Hne ltac:(lia)).
      f_equal. apply IH; lia.
Qed.

(** mapToSwiftType satisfies the equation its source is written as. *)
Lemma mapToSwiftType_unfold (type : string) :
  mapToSwiftType type
  = if startsWith "Binding<" type && endsWith ">" type then
      mapToSwiftType (slice 8 1 type)
    else if endsWith "[]" type then
      "[" ++ mapToSwiftType (slice 0 2 type) ++ "]"
    else if endsWith "?" type then
      mapToSwiftType (slice 0 1 type) ++ "?"
    else strOr (lookup type typeMap) type.
Proof.
  unfold mapToSwiftType at 1. cbn [mapToSwiftTypeFuel].
  destruct (startsWith "Binding<" type && endsWith ">" type) eqn:Hbinding.
  - assert (Hne : type <> EmptyString) by (intros ->; discriminate).
    pose proof (slice_shorter 8 1 type Hne ltac:(lia)).
    apply mapToSwiftTypeFuel_enough; lia.
  - destruct (endsWith "[]" type) eqn:Harray.
    + assert (Hne : type <> EmptyString) by (intros ->; discriminate).
      pose proof (slice_shorter 0 2 type Hne ltac:(lia)).
      f_equal. f_equal. apply mapToSwiftTypeFuel_enough; lia.
    + destruct (endsWith "?" type) eqn:Hoptional; [|reflexivity].
      assert (Hne : type <> EmptyString) by (intros ->; discriminate).
      pose proof (slice_shorter 0 1 type Hne ltac:(lia)).
      f_equal. apply mapToSwiftTypeFuel_enough; lia.
Qed.

Example mapToSwiftType_examples :
  mapToSwiftType "Binding<String[]>" = "[String]"
  /\ mapToSwiftType "Int[]?" = "[Int]?"
  /\ mapToSwiftType "Binding<Bool>" = "Bool"
  /\ mapToSwiftType "Avatar" = "Avatar".
Proof. repeat split. Qed.

End SwiftTypes.

(** * Further properties *)

(** ** Model parser: union types *)

Section UnionTypes.
Import JS JSONSchemaParser.



End UnionTypes.

(** ** API parser: endpoints, references, bodies and names *)

Section ApiShape.
Import JS OpenAPIParser.



Lemma split_nonempty (sep : ascii) (s : string) : split sep s <> [].
Proof.
  destruct s as [|c s]; cbn; [discriminate|].
  destruct (Ascii.eqb c sep); [discriminate|].
  destruct (split sep s); discriminate.
Qed.

(** Splitting distributes over a separator. *)
Lemma split_app_sep (sep : ascii) (a b : string) :
  split sep (a ++ String sep b) = split sep a +++ split sep b.
Proof.
  induction a as [|c a IH]; cbn [append split].
  - now rewrite Ascii.eqb_refl.
  - destruct (Ascii.eqb c sep); rewrite IH; [reflexivity|].
    pose proof (split_nonempty sep a) as Hne.
    destruct (split sep a) as [|seg rest]; [congruence|]. reflexivity.
Qed.

Lemma last_app_nonempty {A : Type} (xs ys : list A) (d : A) :
  ys <> [] -> last (xs +++ ys) d = last ys d.
Proof.
  intros Hne. induction xs as [|x xs IH]; [reflexivity|].
  cbn [app]. destruct (xs +++ ys) eqn:Heq.
  - apply app_eq_nil in Heq as [_ ->]. congruence.
  - cbn [last]. exact IH.
Qed.

(** X3: a reference resolves to what follows its last slash, whatever the type
    and the items of the schema are. *)
Theorem reference_resolves_to_last_segment (schema : OpenAPISchema)
  (prefix target : string) :
  schema_ref schema = Some (prefix ++ "/" ++ target) ->
  Spec.noSlash target = true ->
  resolveType schema = target.
Proof.
  intros Href Htarget.
  destruct schema as [ty fmt props items req ref descr]. cbn in Href. subst ref.
  cbn [resolveType schema_ref strTruthy strOr].
  assert (Hne : (prefix ++ "/" ++ target =? "") = false).
  { apply String.eqb_neq. intros H. apply (f_equal String.length) in H.
    rewrite append_length in H. cbn in H. lia. }
  change (prefix ++ "/" ++ target) with (prefix ++ String "/" target) in Hne.
  rewrite !Hne. cbn [negb].
  rewrite split_app_sep, last_app_nonempty by apply split_nonempty.
  now rewrite (split_noSlash target Htarget).
Qed.

Lemma reference_resolves_to_last_segment_witness :
  schema_ref (mkOpenAPISchema (Some "object") None None None None
                (Some ("#/components/schemas" ++ "/" ++ "User")) None)
  = Some ("#/components/schemas" ++ "/" ++ "User")
  /\ Spec.noSlash "User" = true
  /\ resolveType (mkOpenAPISchema (Some "object") None None None None
                    (Some ("#/components/schemas" ++ "/" ++ "User")) None)
     = "User".
Proof.
  split; [reflexivity|]. split; [reflexivity|].
  apply (reference_resolves_to_last_segment _ "#/components/schemas" "User");
    reflexivity.
Defined.

Lemma join_empty_cons (x : string) (xs : list string) :
  join "" (x :: xs) = x ++ join "" xs.
Proof.
  destruct xs; cbn; [now rewrite append_nil_r|reflexivity].
Qed.

Lemma join_empty_app (xs ys : list string) :
  join "" (xs +++ ys) = join "" xs ++ join "" ys.
Proof.
  induction xs as [|x xs IH]; [reflexivity|].
  cbn [app]. rewrite !join_empty_cons, IH. now rewrite append_assoc.
Qed.

(** X4: derived ids compose along the slashes of a path and do not see empty
    segments: the id of two paths joined by a slash is the id of the first
    followed by the rendering of the second, and a slash at the head or at
    the end of a path changes nothing. *)
Theorem operationId_ignores_empty_segments (method a b : string) :
  generateOperationId method (a ++ "/" ++ b)
  = generateOperationId method a ++ generateOperationId EmptyString b
  /\ generateOperationId method (a ++ "/") = generateOperationId method a
  /\ generateOperationId method ("/" ++ a) = generateOperationId method a.
Proof.
  assert (Hcompose : forall m x y,
             generateOperationId m (x ++ "/" ++ y)
             = generateOperationId m x ++ generateOperationId EmptyString y).
  { intros m x y. unfold generateOperationId.
    change (x ++ "/" ++ y) with (x ++ String "/" y).
    rewrite split_app_sep, filter_app, map_app, join_empty_app.
    cbn [toLowerCase mapChars append]. now rewrite append_assoc. }
  split; [apply Hcompose|]. split.
  - change (a ++ "/") with (a ++ "/" ++ EmptyString).
    rewrite (Hcompose method a EmptyString).
    unfold generateOperationId at 2. cbn. now rewrite append_nil_r.
  - change ("/" ++ a) with (EmptyString ++ "/" ++ a).
    rewrite (Hcompose method EmptyString a).
    unfold generateOperationId. cbn [split filter String.eqb negb map join].
    cbn [toLowerCase mapChars append]. now rewrite append_nil_r.
Qed.

Lemma lookup_head {A : Type} (key : string) (v : A) (rest : list (string * A)) :
  lookup key ((key, v) :: rest) = Some v.
Proof.
  unfold lookup. cbn. now rewrite String.eqb_refl.
Qed.

(** X5: a response is parsed with its status code and description; its content
    type is the first one declared and its type is resolved from the schema
    of that content type alone; without content it has neither. *)
Theorem response_takes_first_content_type
  (responses : list (string * OpenAPIResponse)) (i : nat) (code : string)
  (response : OpenAPIResponse) :
  nth_error responses i = Some (code, response) ->
  exists parsed,
    nth_error (parseResponses responses) i = Some parsed
    /\ statusCode parsed = code
    /\ resp_description parsed = response_description response
    /\ (forall contentType media others,
          response_content response = Some ((contentType, media) :: others) ->
          contentType <> EmptyString ->
          resp_contentType parsed = Some contentType
          /\ resp_type parsed = option_map resolveType (media_schema media))
    /\ (response_content response = None \/ response_content response = Some [] ->
        resp_contentType parsed = None /\ resp_type parsed = None).
Proof.
  intros Hnth. eexists. split.
  - unfold parseResponses. rewrite nth_error_map, Hnth. reflexivity.
  - cbn [statusCode resp_description resp_contentType resp_type].
    split; [reflexivity|]. split; [reflexivity|]. split.
    + intros contentType media others Hcontent Hne. rewrite Hcontent.
      cbn [firstKey hd_error option_map fst strTruthy strOr].
      apply String.eqb_neq in Hne. rewrite Hne. cbn [negb].
      rewrite lookup_head. now split.
    + intros [Hnone|Hempty]; [rewrite Hnone|rewrite Hempty]; now split.
Qed.

Lemma response_takes_first_content_type_witness :
  exists parsed,
    nth_error
      (parseResponses
         [ ("200", mkOpenAPIResponse "OK"
                     (Some [ ("application/json",
                              mkOpenAPIMediaType
                                (Some (mkOpenAPISchema None None None None None
                                         (Some "#/components/schemas/User") None)));
                             ("text/plain",
                              mkOpenAPIMediaType
                                (Some (mkOpenAPISchema (Some "string") None None
                                         None None None None))) ])) ]) 0
    = Some parsed
    /\ statusCode parsed = "200".
Proof.
  destruct (response_takes_first_content_type
              [ ("200", mkOpenAPIResponse "OK"
                          (Some [ ("application/json",
                                   mkOpenAPIMediaType
                                     (Some (mkOpenAPISchema None None None None None
                                              (Some "#/components/schemas/User") None)));
                                  ("text/plain",
                                   mkOpenAPIMediaType
                                     (Some (mkOpenAPISchema (Some "string") None None
                                              None None None None))) ])) ]
              0 "200" _ eq_refl) as (parsed & Hnth & Hcode & _).
  exists parsed. now split.
Defined.

(** X6: a request body without content is given the content type
    application/json and the type any; otherwise the first declared content
    type and the type of its schema. *)
Theorem request_body_content_type (body : OpenAPIRequestBody) :
  (body_content body = [] ->
   rb_contentType (parseRequestBody body) = "application/json"
   /\ rb_type (parseRequestBody body) = "any")
  /\ (forall contentType media others,
        body_content body = (contentType, media) :: others ->
        contentType <> EmptyString ->
        rb_contentType (parseRequestBody body) = contentType
        /\ rb_type (parseRequestBody body)
           = match media_schema media with
             | Some schema => resolveType schema
             | None => "any"
             end).
Proof.
  unfold parseRequestBody; cbn [rb_contentType rb_type]. split.
  - intros ->. cbn. now split.
  - intros contentType media others -> Hne.
    cbn [firstKey hd_error option_map fst strOr].
    apply String.eqb_neq in Hne. rewrite Hne, lookup_head. now split.
Qed.

Lemma filterChars_all (f : ascii -> bool) (s : string) :
  allChars f (filterChars f s) = true.
Proof.
  induction s as [|c s IH]; cbn; [reflexivity|].
  destruct (f c) eqn:Hc; cbn; [now rewrite Hc|assumption].
Qed.

Lemma filterChars_id (f : ascii -> bool) (s : string) :
  allChars f s = true -> filterChars f s = s.
Proof.
  induction s as [|c s IH]; cbn; [reflexivity|].
  rewrite andb_true_iff. intros [-> Hs]. now rewrite IH.
Qed.

(** X7: the name of a parsed API holds letters and digits only; a title made of
    letters and digits is kept as it is, and sanitizing twice is sanitizing
    once. *)
Theorem api_name_is_alphanumeric (spec : OpenAPISpec) :
  allChars isAlphaNum (api_name (parse spec)) = true
  /\ (allChars isAlphaNum (info_title (info spec)) = true ->
      api_name (parse spec) = info_title (info spec))
  /\ sanitizeName (api_name (parse spec)) = api_name (parse spec).
Proof.
  cbn [parse api_name]. unfold sanitizeName. split; [apply filterChars_all|].
  split; [apply filterChars_id|]. apply filterChars_id, filterChars_all.
Qed.

End ApiShape.

(** ** Design-token parser: units, numbers and names *)

Section TokenInvariants.
Import JS DesignTokensParser.

Lemma span_correct (f : ascii -> bool) (s p r : string) :
  span f s = (p, r) -> s = p ++ r /\ allChars f p = true.
Proof.
  revert p r. induction s as [|c s IH]; intros p r; cbn.
  - intros [= <- <-]. now split.
  - destruct (f c) eqn:Hc.
    + destruct (span f s) as [p' r'] eqn:Hs. intros [= <- <-].
      destruct (IH p' r' eq_refl) as [-> Hp]. cbn. now rewrite Hc.
    + intros [= <- <-]. now split.
Qed.

Lemma matchNumberUnit_inv (s num u : string) :
  matchNumberUnit s = Some (num, u) ->
  s = num ++ u /\ num <> EmptyString
  /\ allChars isNumChar num = true /\ allChars isUnitChar u = true.
Proof.
  unfold matchNumberUnit. destruct (span isNumChar s) as [p r] eqn:Hspan.
  destruct (span_correct _ _ _ _ Hspan) as [-> Hp].
  destruct (String.eqb_spec p "") as [->|Hne]; [discriminate|].
  destruct (allChars isUnitChar r) eqn:Hr; [|discriminate].
  intros [= <- <-]. now repeat split.
Qed.

Lemma parseValue_unit (v : StringOrNumber) :
  unitOf (parseValue v) <> EmptyString
  /\ allChars isUnitChar (unitOf (parseValue v)) = true.
Proof.
  destruct v as [x|s]; cbn [parseValue unitOf]; [split; [discriminate|reflexivity]|].
  destruct (matchNumberUnit s) as [[num u]|] eqn:Hm;
    cbn [unitOf]; [|split; [discriminate|reflexivity]].
  apply matchNumberUnit_inv in Hm as (_ & _ & _ & Hu). cbn [strOr].
  destruct (String.eqb_spec u "") as [->|Hne]; split;
    first [discriminate|reflexivity|assumption].
Qed.

Lemma parseMeasure_unit (entry : string * StringOrNumber) :
  unit (parseMeasure entry) <> EmptyString
  /\ allChars isUnitChar (unit (parseMeasure entry)) = true.
Proof.
  destruct entry as [key v]. cbn [parseMeasure unit]. apply parseValue_unit.
Qed.

Lemma map_parseMeasure_units (entries : list (string * StringOrNumber)) :
  Forall (fun m => unit m <> EmptyString /\ allChars isUnitChar (unit m) = true)
    (map parseMeasure entries).
Proof.
  induction entries; constructor; [apply parseMeasure_unit|assumption].
Qed.

(** X8: every measure of a parsed theme has a unit, made of letters and percent
    signs: a value given without unit, as a number, or as text the parser
    cannot read, has the unit px. *)
Theorem theme_measures_have_units (tokens : DesignTokens) (themeName : option string) :
  Forall (fun m => unit m <> EmptyString /\ allChars isUnitChar (unit m) = true)
    (fontSizes (typography (parse tokens themeName))
     +++ lineHeights (typography (parse tokens themeName))
     +++ letterSpacing (typography (parse tokens themeName))
     +++ spacing (parse tokens themeName)
     +++ borderRadius (parse tokens themeName)
     +++ breakpoints (parse tokens themeName)).
Proof.
  cbn [parse typography fontSizes lineHeights letterSpacing spacing borderRadius
       breakpoints parseTypography].
  repeat (apply Forall_app; split); try apply map_parseMeasure_units.
  unfold parseSpacing. induction (listOr (tok_spacing tokens)) as [|[key v] l IH];
    constructor; [|exact IH].
  destruct v; apply parseMeasure_unit.
Qed.

Lemma digit_or_dot (c : ascii) :
  isNumChar c = true -> isDigit c = true \/ c = "."%char.
Proof.
  unfold isNumChar. rewrite orb_true_iff. intros [H|H]; [now left|].
  right. now apply Ascii.eqb_eq.
Qed.

Lemma parseFloat_after_digit (c : ascii) (s : string) :
  isDigit c = true -> parseFloat (String c s) <> NaN.
Proof.
  intros Hc.
  assert (Hfirst : trimStart (String c s) = String c s
                   /\ splitSign (String c s) = (false, String c s)
                   /\ startsWith "Infinity" (String c s) = false).
  { revert Hc. clear. destruct c as [[] [] [] [] [] [] [] []]; vm_compute;
      intros H; first [discriminate H|repeat split]. }
  destruct Hfirst as (Htrim & Hsign & Hinf).
  unfold parseFloat. rewrite Htrim, Hsign, Hinf. unfold unsignedLiteral.
  cbn [span]. rewrite Hc. destruct (span isDigit s) as [p r].
  destruct r as [|d r]; [discriminate|].
  destruct d as [[] [] [] [] [] [] [] []]; try discriminate.
  destruct (span isDigit r). discriminate.
Qed.

(** X9: the value read from a string is NaN only when the string begins
    with a dot; for every other string, whether the pattern accepts it or
    not, the value is a number. *)
Theorem value_is_NaN_only_after_dot (s : string) :
  numValue (parseValue (IsString s)) = NaN -> exists r, s = String "." r.
Proof.
  cbn [parseValue]. destruct (matchNumberUnit s) as [[num u]|] eqn:Hm;
    cbn [numValue].
  - apply matchNumberUnit_inv in Hm as (-> & Hne & Hnum & _).
    destruct num as [|c num]; [congruence|]. cbn in Hnum.
    apply andb_true_iff in Hnum as [Hc _].
    destruct (digit_or_dot c Hc) as [Hd| ->].
    + intros H. now apply parseFloat_after_digit in H.
    + intros _. eexists. reflexivity.
  - unfold numberOrZero. destruct (parseFloat s) as [|neg|neg m e]; cbn;
      try discriminate.
    destruct (negb (roundsToZero m e)); discriminate.
Qed.

Lemma value_is_NaN_only_after_dot_witness :
  numValue (parseValue (IsString "..5em")) = NaN
  /\ exists r, "..5em" = String "." r.
Proof.
  split; [reflexivity|].
  apply (value_is_NaN_only_after_dot "..5em"). reflexivity.
Defined.

(** *** Names *)

Lemma substring_all (s : string) : substring 0 (String.length s) s = s.
Proof.
  induction s as [|c s IH]; cbn; [reflexivity|]. now rewrite IH.
Qed.

Lemma capitalize_cons (c : ascii) (s : string) :
  capitalize (String c s) = String (upperChar c) s.
Proof.
  unfold capitalize, sliceFrom. cbn. rewrite Nat.sub_0_r.
  now rewrite substring_all.
Qed.

Lemma upperAfterSeparator_word (w rest : string) :
  allChars Views.isWordChar w = true ->
  upperAfterSeparator (w ++ rest) = w ++ upperAfterSeparator rest.
Proof.
  induction w as [|c w IH]; [reflexivity|]. cbn [allChars append].
  rewrite andb_true_iff. intros [Hc Hw].
  unfold Views.isWordChar in Hc. rewrite !negb_orb, !andb_true_iff in Hc.
  destruct Hc as ((Hh & Hu) & _). apply negb_true_iff in Hh, Hu.
  cbn [upperAfterSeparator]. rewrite Hh, Hu. cbn [orb]. now rewrite IH.
Qed.

Lemma upperAfterSeparator_words (sep : ascii) (w : string) (ws : list string) :
  sep = "-"%char \/ sep = "_"%char ->
  allChars Views.isWordChar w = true ->
  Forall (fun v => Views.isWord v = true) ws ->
  upperAfterSeparator (join (String sep "") (w :: ws))
  = w ++ join "" (map capitalize ws).
Proof.
  intros Hsep Hw Hws. revert w Hw.
  induction Hws as [|v ws Hv _ IH]; intros w Hw.
  - cbn [join map]. rewrite <- (append_nil_r w) at 1.
    now rewrite upperAfterSeparator_word.
  - unfold Views.isWord in Hv. apply andb_true_iff in Hv as [Hne Hv].
    destruct v as [|d v]; [discriminate|]. cbn [allChars] in Hv.
    apply andb_true_iff in Hv as [Hd Hv].
    rewrite join_cons_cons, (upperAfterSeparator_word _ _ Hw).
    assert (Hhead : join (String sep "") (String d v :: ws)
                    = String d (join (String sep "") (v :: ws))).
    { destruct ws; reflexivity. }
    rewrite Hhead. cbn [append upperAfterSeparator].
    assert (Hsepb : Ascii.eqb sep "-" || Ascii.eqb sep "_" = true)
      by (destruct Hsep as [-> | ->]; reflexivity).
    rewrite Hsepb.
    unfold Views.isWordChar in Hd. rewrite !negb_orb, !andb_true_iff in Hd.
    destruct Hd as (_ & Hlt). apply negb_true_iff in Hlt. rewrite Hlt.
    rewrite (IH v Hv). cbn [map]. rewrite join_empty_cons, capitalize_cons.
    reflexivity.
Qed.



End TokenInvariants.

(** ** Kotlin theme generator *)

Section KotlinTheme.
Import JS DesignTokensParser KotlinThemeGenerator.
Variable numberToString : number -> string.

Lemma removeFirst_absent (c : ascii) (s : string) :
  allChars (fun d => negb (Ascii.eqb d c)) s = true -> removeFirst c s = s.
Proof.
  induction s as [|d s IH]; [reflexivity|]. cbn.
  rewrite andb_true_iff, negb_true_iff. intros [-> Hs]. now rewrite IH.
Qed.

(** X11: the number sign in front of a colour is optional and only the first one
    is removed; six remaining characters are taken as red, green and blue
    and get the opaque alpha FF in front, any other length is passed on as
    it is, in upper case. *)
Theorem kotlin_color_alpha (hex : string) :
  convertToKotlinColor ("#" ++ hex)
  = "Color(0x"
    ++ (if (String.length hex =? 6)%nat then "FF" ++ toUpperCase hex
        else toUpperCase hex)
    ++ ")"
  /\ (allChars (fun d => negb (Ascii.eqb d "#")) hex = true ->
      convertToKotlinColor hex = convertToKotlinColor ("#" ++ hex)).
Proof.
  split.
  - unfold convertToKotlinColor. cbn [append removeFirst Ascii.eqb Bool.eqb].
    now destruct (String.length hex =? 6)%nat.
  - intros Hhex. unfold convertToKotlinColor.
    cbn [append removeFirst Ascii.eqb Bool.eqb].
    now rewrite (removeFirst_absent _ _ Hhex).
Qed.

Lemma lowerChar_upperChar (c : ascii) : lowerChar (upperChar c) = lowerChar c.
Proof. destruct c as [[] [] [] [] [] [] [] []]; reflexivity. Qed.

Lemma lowerChar_idem (c : ascii) : lowerChar (lowerChar c) = lowerChar c.
Proof. destruct c as [[] [] [] [] [] [] [] []]; reflexivity. Qed.

Lemma toLowerCase_toUpperCase (s : string) :
  toLowerCase (toUpperCase s) = toLowerCase s.
Proof.
  induction s as [|c s IH]; [reflexivity|].
  cbn. rewrite lowerChar_upperChar. f_equal. exact IH.
Qed.

Lemma toLowerCase_idem (s : string) :
  toLowerCase (toLowerCase s) = toLowerCase s.
Proof.
  induction s as [|c s IH]; [reflexivity|].
  cbn. rewrite lowerChar_idem. f_equal. exact IH.
Qed.

Lemma lookup_In {A : Type} (key : string) (entries : list (string * A)) (v : A) :
  lookup key entries = Some v -> In (key, v) entries.
Proof.
  unfold lookup. destruct (find _ entries) as [[k w]|] eqn:Hfind; [|discriminate].
  apply find_some in Hfind as [Hin Hk]. cbn in Hk.
  apply String.eqb_eq in Hk as ->. now intros [= <-].
Qed.


Lemma nonEmpty_map {A B : Type} (f : A -> B) (l : list A) :
  nonEmpty (map f l) = nonEmpty l.
Proof. now destruct l. Qed.

Lemma find_pxMeasure (p : string -> bool) (l : list ParsedMeasure) :
  find (fun s => p (name s)) (map Views.pxMeasure l)
  = option_map Views.pxMeasure (find (fun s => p (name s)) l).
Proof.
  induction l as [|m l IH]; [reflexivity|]. cbn.
  destruct (p (name m)); [reflexivity|exact IH].
Qed.

Lemma dpBlock_px (title object : string) (entries : list ParsedMeasure) :
  dpBlock numberToString title object (map Views.pxMeasure entries)
  = dpBlock numberToString title object entries.
Proof.
  unfold dpBlock. now rewrite nonEmpty_map, map_map.
Qed.

Lemma typographyBlock_view (theme : ParsedTheme) :
  typographyBlock numberToString (Views.kotlinView theme)
  = typographyBlock numberToString theme.
Proof.
  unfold typographyBlock, hasTypography.
  cbn [Views.kotlinView typography fontFamilies fontSizes fontWeights].
  now rewrite !nonEmpty_map, !map_map.
Qed.

Lemma typographyEntries_view (theme : ParsedTheme) :
  typographyEntries (Views.kotlinView theme) = typographyEntries theme.
Proof.
  unfold typographyEntries.
  cbn [Views.kotlinView typography fontSizes theme_name].
  induction typographyMap as [|[key v] l IH]; [reflexivity|].
  cbn [flat_map]. rewrite IH. f_equal.
  rewrite (find_pxMeasure (fun n => toLowerCase n =? toLowerCase key)).
  now destruct (find _ (fontSizes (typography theme))).
Qed.

Lemma composeTypography_view (theme : ParsedTheme) :
  composeTypography (Views.kotlinView theme) = composeTypography theme.
Proof.
  unfold composeTypography. rewrite typographyEntries_view.
  cbn [Views.kotlinView typography fontSizes theme_name].
  now rewrite nonEmpty_map.
Qed.

(** X13: the Kotlin file does not depend on the units of the measures, on the
    fallback fonts, on the line heights, on the letter spacing or on the
    breakpoints of the theme: every size is written in sp, every spacing
    and radius in dp, whatever its unit. *)
Theorem kotlin_ignores_units_and_breakpoints
  (now : string) (theme : ParsedTheme) (sourceFile : string) :
  generate numberToString now (Views.kotlinView theme) sourceFile
  = generate numberToString now theme sourceFile.
Proof.
  unfold generate, bodyLines.
  rewrite typographyBlock_view, composeTypography_view.
  cbn [Views.kotlinView spacing borderRadius theme_name].
  now rewrite !dpBlock_px.
Qed.

End KotlinTheme.

(** ** Component parser and Swift component generator *)

Section SwiftComponents.
Import JS ComponentSpecParser SwiftComponentGenerator.
Variable numberToString : number -> string.

Lemma substring_app_skip (a q : string) (n m : nat) :
  substring (String.length a + n) m (a ++ q) = substring n m q.
Proof. induction a as [|c a IH]; [reflexivity|exact IH]. Qed.

Lemma endsWith_app_short (p a q : string) :
  String.length p <= String.length q ->
  endsWith p (a ++ q) = endsWith p q.
Proof.
  intros Hlen. unfold endsWith. rewrite append_length.
  replace (String.length a + String.length q - String.length p)
    with (String.length a + (String.length q - String.length p)) by lia.
  rewrite substring_app_skip. f_equal.
  apply Nat.leb_le in Hlen as Hq. rewrite Hq. apply Nat.leb_le. lia.
Qed.

Lemma slice_suffix (a p : string) :
  slice 0 (String.length p) (a ++ p) = a.
Proof.
  unfold slice. rewrite append_length.
  replace (String.length a + String.length p - String.length p - 0)
    with (String.length a) by lia.
  apply substring_prefix_app.
Qed.

Lemma slice_binding (inner : string) :
  slice 8 1 ("Binding<" ++ inner ++ ">") = inner.
Proof.
  unfold slice. rewrite !append_length.
  change (String.length "Binding<") with 8. change (String.length ">") with 1.
  replace (8 + (String.length inner + 1) - 1 - 8) with (String.length inner) by lia.
  rewrite (substring_app_skip "Binding<" (inner ++ ">") 0).
  apply substring_prefix_app.
Qed.

Lemma binding_detected (inner : string) :
  startsWith "Binding<" ("Binding<" ++ inner ++ ">")
  && endsWith ">" ("Binding<" ++ inner ++ ">") = true.
Proof.
  apply andb_true_iff. split.
  - apply prefix_correct. apply (substring_prefix_app "Binding<").
  - rewrite <- append_assoc. apply endsWith_app.
Qed.

Lemma append_last_inj (a b : string) (c d : ascii) :
  a ++ String c "" = b ++ String d "" -> c = d.
Proof.
  revert b. induction a as [|x a IH]; intros [|y b] H; cbn in H.
  - congruence.
  - injection H as _ H. destruct b; discriminate.
  - injection H as _ H. destruct a; discriminate.
  - injection H as _ H. now apply IH in H.
Qed.

(** A text whose last character differs from the last character of the
    suffix does not end with the suffix. *)
Lemma endsWith_other_last (p a : string) (c d : ascii) :
  c <> d -> endsWith (p ++ String c "") (a ++ String d "") = false.
Proof.
  intros Hcd. destruct (endsWith _ _) eqn:Hends; [|reflexivity].
  apply endsWith_inv in Hends. rewrite <- append_assoc in Hends.
  apply append_last_inj in Hends. congruence.
Qed.

Lemma typeMap_identity (type : string) : strOr (lookup type typeMap) type = type.
Proof.
  destruct (lookup type typeMap) as [v|] eqn:Hlookup; [|reflexivity].
  apply lookup_In in Hlookup. cbn in Hlookup.
  repeat (destruct Hlookup as [[= <- <-]|Hlookup]; [reflexivity|]).
  contradiction.
Qed.

(** X14: how a type of a specification becomes a Swift type: a binding gives
    the Swift type of what it binds, an array suffix gives a Swift array,
    an optional suffix is kept, suffixes are taken from the right, and a
    name without binding or suffix is passed on as it is, whether the table
    knows it or not, unless it is a name that every object inherits. *)
Theorem swift_type_rules (type : string) :
  mapToSwiftType ("Binding<" ++ type ++ ">") = mapToSwiftType type
  /\ mapToSwiftType (type ++ "[]") = "[" ++ mapToSwiftType type ++ "]"
  /\ mapToSwiftType (type ++ "?") = mapToSwiftType type ++ "?"
  /\ (startsWith "Binding<" type && endsWith ">" type = false ->
      endsWith "[]" type = false -> endsWith "?" type = false ->
      ~ In type Views.inheritedNames ->
      mapToSwiftType type = type).
Proof.
  repeat split.
  - rewrite mapToSwiftType_unfold, binding_detected. now rewrite slice_binding.
  - rewrite mapToSwiftType_unfold.
    rewrite (endsWith_app_short ">" type "[]") by (cbn; lia).
    rewrite andb_false_r, endsWith_app.
    pose proof (slice_suffix type "[]") as Hslice.
    cbn [String.length] in Hslice. now rewrite Hslice.
  - rewrite mapToSwiftType_unfold.
    rewrite (endsWith_app_short ">" type "?") by (cbn; lia).
    rewrite andb_false_r.
    rewrite (endsWith_other_last "[" type "]" "?" ltac:(discriminate)
             : endsWith "[]" (type ++ "?") = false).
    rewrite endsWith_app.
    pose proof (slice_suffix type "?") as Hslice.
    cbn [String.length] in Hslice. now rewrite Hslice.
  - intros Hbinding Harray Hoptional _.
    rewrite mapToSwiftType_unfold, Hbinding, Harray, Hoptional.
    apply typeMap_identity.
Qed.

Lemma lookup_isSome {A : Type} (key : string) (entries : list (string * A)) :
  isSome (lookup key entries) = true <-> exists v, In (key, v) entries.
Proof.
  unfold lookup. split.
  - destruct (find _ entries) as [[k v]|] eqn:Hfind; [|discriminate].
    intros _. apply find_some in Hfind as [Hin Hk]. cbn in Hk.
    apply String.eqb_eq in Hk as ->. now exists v.
  - intros [v Hin].
    destruct (find (fun e => fst e =? key) entries) as [e|] eqn:Hfind;
      [reflexivity|].
    apply (find_none _ _ Hfind) in Hin. cbn in Hin.
    now rewrite String.eqb_refl in Hin.
Qed.

(** X15: a component has a loading state exactly when its states have the key
    loading: what the state says, its spinner included, plays no part. *)
Theorem loading_state_by_key (spec : ComponentSpec) :
  hasLoadingState (parse spec) = true
  <-> exists state, In ("loading", state) (listOr (spec_states spec)).
Proof.
  cbn [parse hasLoadingState].
  destruct (spec_states spec) as [states|]; cbn [listOr].
  - apply lookup_isSome.
  - split; [discriminate|]. now intros [state []].
Qed.

(** X16: a property whose type is a binding is parsed as a binding with the
    Swift type of what it binds, and the generator, which tests the type
    again, assigns it to the wrapped storage in every initializer. *)
Theorem binding_property_parsed (spec : ComponentSpec) (prop : ParsedProperty)
  (inner : string) :
  In prop (properties (parse spec)) ->
  prop_type prop = "Binding<" ++ inner ++ ">" ->
  isBinding prop = true
  /\ swiftType prop = mapToSwiftType inner
  /\ isBindingType prop = isBinding prop
  /\ propertyAssignment prop
     = "        _" ++ prop_name prop ++ " = " ++ prop_name prop.
Proof.
  cbn [parse properties]. unfold parseProperties.
  intros Hin Htype. apply in_map_iff in Hin as (source & <- & _).
  cbn [prop_type] in Htype.
  assert (Hstart : startsWith "Binding<" (cp_type source) = true).
  { rewrite Htype. apply prefix_correct. apply (substring_prefix_app "Binding<"). }
  unfold propertyAssignment, isBindingType.
  cbn [isBinding swiftType prop_type prop_name]. rewrite Hstart.
  repeat split. rewrite Htype, mapToSwiftType_unfold, binding_detected.
  now rewrite slice_binding.
Qed.

Lemma binding_property_parsed_witness :
  In (nth 1 (properties (parse Examples.toggleField))
        (mkParsedProperty "" "" "" false None "" false))
     (properties (parse Examples.toggleField))
  /\ prop_type (nth 1 (properties (parse Examples.toggleField))
                  (mkParsedProperty "" "" "" false None "" false))
     = "Binding<" ++ "Bool" ++ ">"
  /\ isBinding (nth 1 (properties (parse Examples.toggleField))
                  (mkParsedProperty "" "" "" false None "" false)) = true.
Proof.
  split; [right; now left|]. split; [reflexivity|].
  apply (binding_property_parsed Examples.toggleField
           (nth 1 (properties (parse Examples.toggleField))
              (mkParsedProperty "" "" "" false None "" false))
           "Bool").
  - right. now left.
  - reflexivity.
Defined.

(** X17: the Swift file of a component does not depend on its bottom and
    trailing padding, on what its states say, or on its slots: two
    components that differ in nothing else give the same file.  The
    vertical padding is the top one, the horizontal padding the leading
    one, and of the states only the presence of a loading state is used. *)
Theorem swift_ignores_states_and_slots (now : string)
  (first second : ParsedComponent) (sourceFile : string) :
  Views.swiftView first = Views.swiftView second ->
  generate numberToString now first sourceFile
  = generate numberToString now second sourceFile.
Proof.
  intros Hview.
  change (generate numberToString now (Views.swiftView first) sourceFile
          = generate numberToString now (Views.swiftView second) sourceFile).
  now rewrite Hview.
Qed.

(** X18: the component that the component command writes for a new name has an
    asynchronous action and a loading state, so its Swift file imports
    CuppaCore, declares the action flag and has two initializers, whatever
    the name and the category. *)
Theorem new_component_has_two_initializers (now name category sourceFile : string) :
  let component := parse (Commands.createBasicComponentSpec name category) in
  let lines := generateLines numberToString now component sourceFile in
  hasAsyncAction component = true
  /\ hasLoadingState component = true
  /\ Spec.initializerCount lines = 2
  /\ In "import CuppaCore" lines
  /\ In "    @State private var isPerformingAction = false" lines.
Proof.
  intros component lines.
  assert (Hasync : hasAsyncAction component = true) by reflexivity.
  split; [exact Hasync|]. split; [reflexivity|]. split.
  - unfold lines. rewrite initializerCount_generateLines. now rewrite Hasync.
  - subst lines component. unfold generateLines, declarationLines.
    rewrite Hasync, orb_true_r.
    split; apply in_or_app; left; cbn [app pushIf];
      repeat first [now left | right | apply in_or_app; right; cbn [app pushIf]].
Qed.

End SwiftComponents.

Lemma swift_ignores_states_and_slots_witness :
  Views.swiftView (ComponentSpecParser.parse Examples.iconButton)
  = Views.swiftView (Views.swiftView (ComponentSpecParser.parse Examples.iconButton))
  /\ ComponentSpecParser.states (ComponentSpecParser.parse Examples.iconButton)
     <> ComponentSpecParser.states
          (Views.swiftView (ComponentSpecParser.parse Examples.iconButton))
  /\ SwiftComponentGenerator.generate NumberText.integerToString
       "2025-11-15T09:30:00.000Z"
       (ComponentSpecParser.parse Examples.iconButton) "icon-button.json"
     = SwiftComponentGenerator.generate NumberText.integerToString
         "2025-11-15T09:30:00.000Z"
         (Views.swiftView (ComponentSpecParser.parse Examples.iconButton))
         "icon-button.json".
Proof.
  split; [reflexivity|]. split; [discriminate|].
  apply (swift_ignores_states_and_slots NumberText.integerToString
           "2025-11-15T09:30:00.000Z"
           (ComponentSpecParser.parse Examples.iconButton)
           (Views.swiftView (ComponentSpecParser.parse Examples.iconButton))
           "icon-button.json").
  reflexivity.
Defined.

(** ** Plugin parser and Swift plugin generator *)

Section PluginFiles.
Import JS PluginSpecParser SwiftPluginGenerator.
Variable numberToString : number -> string.

Lemma append_nonempty_r (a b : string) : b <> EmptyString -> a ++ b <> EmptyString.
Proof. destruct a; [now cbn|discriminate]. Qed.

(** X19: every provider of a parsed plugin conforms to a named protocol: its
    own when it names one, the protocol of the plugin otherwise; and the
    plugin has a protocol exactly when its specification lists a
    provider. *)
Theorem provider_protocol_never_empty (spec : PluginSpec) :
  Forall (fun provider => pprov_protocol provider <> EmptyString)
         (providers (parse spec))
  /\ map pprov_protocol (providers (parse spec))
     = map (fun provider =>
              strOr (prov_protocol provider) (spec_name spec ++ "Provider"))
           (listOr (spec_providers spec))
  /\ hasProtocol (parse spec) = nonEmpty (providers (parse spec)).
Proof.
  unfold hasProtocol. cbn [parse providers protocolName].
  unfold parseProviders, declaresProvider.
  assert (Hdefault : spec_name spec ++ "Provider" <> EmptyString)
    by (apply append_nonempty_r; discriminate).
  destruct (spec_providers spec) as [[|first rest]|]; cbn [listOr map nonEmpty].
  - repeat split. constructor.
  - apply String.eqb_neq in Hdefault as Hnot.
    assert (Hor : strOr (Some (spec_name spec ++ "Provider")) ""
                  = spec_name spec ++ "Provider")
      by (cbn [strOr]; now rewrite Hnot).
    rewrite Hor. split; [|split; [cbn [pprov_protocol]; now rewrite map_map|]].
    + assert (Hone : forall provider,
                 strOr (prov_protocol provider) (spec_name spec ++ "Provider")
                 <> EmptyString).
      { intros provider. destruct (prov_protocol provider) as [own|]; cbn [strOr];
          [|exact Hdefault].
        destruct (String.eqb_spec own "") as [->|Hown]; assumption. }
      constructor; [apply Hone|].
      apply Forall_forall. intros parsed Hin.
      apply in_map_iff in Hin as (provider & <- & _). apply Hone.
    + cbn [strTruthy]. now rewrite Hnot.
  - repeat split. constructor.
Qed.

(** X20: the type of a parameter, a return value or a property is looked up
    without regard to case; a name the table does not know is passed on
    exactly as it was written, unless it is, in lower case, a name that
    every object inherits. *)
Theorem mapType_known_or_unchanged (type : string) :
  (In (toLowerCase type) (map fst typeMap) ->
   In (mapType type) (map snd typeMap)
   /\ mapType (toUpperCase type) = mapType type
   /\ mapType (toLowerCase type) = mapType type)
  /\ (~ In (toLowerCase type) (map fst typeMap) ->
      ~ In (toLowerCase type) Views.inheritedNames ->
      mapType type = type).
Proof.
  unfold mapType. rewrite toLowerCase_toUpperCase, toLowerCase_idem.
  split.
  - intros Hin. cbn in Hin.
    repeat (destruct Hin as [<-|Hin]; [cbn; repeat split; tauto|]).
    contradiction.
  - intros Hnot _.
    destruct (lookup (toLowerCase type) typeMap) as [v|] eqn:Hlookup;
      [|reflexivity].
    apply lookup_In in Hlookup. exfalso. apply Hnot.
    apply in_map_iff. now exists (toLowerCase type, v).
Qed.

(** *** The map of files *)

Lemma mapSet_names (key content f : string) (files : list (string * string)) :
  In f (Views.fileNames (mapSet key content files))
  <-> In f (Views.fileNames files) \/ f = key.
Proof.
  unfold Views.fileNames.
  induction files as [|[k c] files IH]; cbn [mapSet map In fst].
  - intuition congruence.
  - destruct (String.eqb_spec k key) as [->|Hne]; cbn [map In fst].
    + intuition congruence.
    + rewrite IH. tauto.
Qed.

Lemma mapSet_NoDup (key content : string) (files : list (string * string)) :
  NoDup (Views.fileNames files) ->
  NoDup (Views.fileNames (mapSet key content files)).
Proof.
  unfold Views.fileNames.
  induction files as [|[k c] files IH]; cbn [mapSet map fst]; intros Hnodup.
  - repeat constructor. intros [].
  - inversion Hnodup as [|? ? Hnotin Hrest]; subst.
    destruct (String.eqb_spec k key) as [->|Hne]; cbn [map fst].
    + now constructor.
    + constructor; [|now apply IH].
      intros Hin. apply (mapSet_names key content k files) in Hin.
      destruct Hin as [Hin|Heq]; [now apply Hnotin|congruence].
Qed.

Lemma mapSet_lookup_same (key content : string) (files : list (string * string)) :
  lookup key (mapSet key content files) = Some content.
Proof.
  unfold lookup. induction files as [|[k c] files IH]; cbn [mapSet find fst].
  - now rewrite String.eqb_refl.
  - destruct (String.eqb_spec k key) as [->|Hne]; cbn [find fst].
    + now rewrite String.eqb_refl.
    + apply String.eqb_neq in Hne. now rewrite Hne.
Qed.

Lemma mapSet_lookup_other (key content other : string)
  (files : list (string * string)) :
  other <> key ->
  lookup other (mapSet key content files) = lookup other files.
Proof.
  intros Hother. unfold lookup.
  induction files as [|[k c] files IH]; cbn [mapSet find fst].
  - apply not_eq_sym in Hother. apply String.eqb_neq in Hother.
    now rewrite Hother.
  - destruct (String.eqb_spec k key) as [->|Hne]; cbn [find fst].
    + apply not_eq_sym in Hother. apply String.eqb_neq in Hother.
      now rewrite Hother.
    + destruct (k =? other); [reflexivity|exact IH].
Qed.

Lemma fold_mapSet_names {A : Type} (key content : A -> string) (f : string)
  (xs : list A) (files : list (string * string)) :
  In f (Views.fileNames
          (fold_left (fun files x => mapSet (key x) (content x) files) xs files))
  <-> In f (Views.fileNames files) \/ exists x, In x xs /\ f = key x.
Proof.
  revert files. induction xs as [|x xs IH]; intros files; cbn [fold_left].
  - split; [now left|]. intros [H|(x & [] & _)]. exact H.
  - rewrite IH, mapSet_names. split.
    + intros [[H|H]|(y & Hy & Hf)].
      * now left.
      * right. exists x. split; [now left|exact H].
      * right. exists y. split; [now right|exact Hf].
    + intros [H|(y & [<-|Hy] & Hf)].
      * left. now left.
      * left. now right.
      * right. now exists y.
Qed.

Lemma fold_mapSet_NoDup {A : Type} (key content : A -> string)
  (xs : list A) (files : list (string * string)) :
  NoDup (Views.fileNames files) ->
  NoDup (Views.fileNames
           (fold_left (fun files x => mapSet (key x) (content x) files) xs files)).
Proof.
  revert files. induction xs as [|x xs IH]; intros files Hnodup; cbn [fold_left].
  - exact Hnodup.
  - apply IH. now apply mapSet_NoDup.
Qed.

(** X21: the files of a plugin: the plugin, its configuration and its manager,
    the protocol when the plugin has one and a provider, one file per model
    and per provider, and the README.  No name occurs twice, and the README
    is always the text the generator wrote for it. *)
Theorem plugin_files_named (now : string) (plugin : ParsedPlugin) :
  let files := generatePlugin numberToString now plugin in
  NoDup (Views.fileNames files)
  /\ lookup "README.md" files = Some (generateReadme plugin)
  /\ forall f,
       In f (Views.fileNames files)
       <-> f = name plugin ++ ".swift"
           \/ f = name plugin ++ "Configuration.swift"
           \/ f = managerName plugin ++ ".swift"
           \/ (hasProtocol plugin && nonEmpty (providers plugin) = true
               /\ f = protocolText plugin ++ ".swift")
           \/ (exists model, In model (models plugin)
                             /\ f = ppm_name model ++ ".swift")
           \/ (exists provider, In provider (providers plugin)
                                /\ f = pprov_name provider ++ ".swift")
           \/ f = "README.md".
Proof.
  intros files. subst files. unfold generatePlugin.
  split; [|split].
  - apply mapSet_NoDup.
    apply (fold_mapSet_NoDup (fun p => pprov_name p ++ ".swift")
             (fun p => generateProviderFile now p plugin)).
    apply (fold_mapSet_NoDup (fun m => ppm_name m ++ ".swift")
             (fun m => generateModelFile now m plugin)).
    destruct (hasProtocol plugin && nonEmpty (providers plugin));
      repeat apply mapSet_NoDup; constructor.
  - apply mapSet_lookup_same.
  - intros f. rewrite mapSet_names.
    rewrite (fold_mapSet_names (fun p => pprov_name p ++ ".swift")
               (fun p => generateProviderFile now p plugin)).
    rewrite (fold_mapSet_names (fun m => ppm_name m ++ ".swift")
               (fun m => generateModelFile now m plugin)).
    destruct (hasProtocol plugin && nonEmpty (providers plugin));
      rewrite !mapSet_names; cbn [Views.fileNames map In];
      intuition discriminate.
Qed.

Lemma swift_is_not_readme (base : string) : base ++ ".swift" <> "README.md".
Proof.
  intros H. change (base ++ ".swift") with (base ++ ".swif" ++ "t") in H.
  rewrite <- append_assoc in H.
  change "README.md" with ("README.m" ++ "d") in H.
  apply append_last_inj in H. discriminate.
Qed.

(** X22: the file of the last provider replaces whatever was written before
    under the same name: the file of a model of that name, or the protocol
    file when the provider is named like the protocol. *)
Theorem last_provider_file_wins (now : string) (plugin : ParsedPlugin)
  (earlier : list ParsedPluginProvider) (provider : ParsedPluginProvider) :
  providers plugin = earlier +++ [provider] ->
  lookup (pprov_name provider ++ ".swift")
         (generatePlugin numberToString now plugin)
  = Some (generateProviderFile now provider plugin).
Proof.
  intros Hproviders. unfold generatePlugin.
  rewrite mapSet_lookup_other by apply swift_is_not_readme.
  rewrite Hproviders, fold_left_app. cbn [fold_left].
  apply mapSet_lookup_same.
Qed.

End PluginFiles.

Section PluginTemplates.
Import JS PluginSpecParser SwiftPluginGenerator.

Lemma last_provider_file_wins_witness :
  providers (parse Examples.selfNamedSpec)
  = [] +++ [ mkParsedPluginProvider "PaymentProvider" "PaymentProvider"
               "PaymentProvider" ]
  /\ protocolText (parse Examples.selfNamedSpec) ++ ".swift"
     = "PaymentProvider.swift"
  /\ lookup "PaymentProvider.swift"
       (generatePlugin NumberText.integerToString "2025-11-15T09:30:00.000Z"
          (parse Examples.selfNamedSpec))
     = Some (generateProviderFile "2025-11-15T09:30:00.000Z"
               (mkParsedPluginProvider "PaymentProvider" "PaymentProvider"
                  "PaymentProvider")
               (parse Examples.selfNamedSpec)).
Proof.
  split; [reflexivity|]. split; [reflexivity|].
  apply (last_provider_file_wins NumberText.integerToString
           "2025-11-15T09:30:00.000Z" (parse Examples.selfNamedSpec) []
           (mkParsedPluginProvider "PaymentProvider" "PaymentProvider"
              "PaymentProvider")).
  reflexivity.
Defined.

Variable numberToString : number -> string.

Lemma eqb_length_neq (a b : string) :
  String.length a <> String.length b -> (a =? b) = false.
Proof. intros Hlen. apply String.eqb_neq. intros ->. now apply Hlen. Qed.

(** X23: the files of a plugin made from a template of the plugin command: the
    provider template gives six files, among them the protocol and the
    console provider; every other template gives the plugin, its
    configuration, its manager and the README. *)
Theorem template_plugin_files (now base template : string) :
  Views.fileNames
    (generatePlugin numberToString now
       (parse (Commands.createPluginSpec base template)))
  = if template =? "provider" then
      [ "Cuppa" ++ base ++ "Plugin.swift";
        "Cuppa" ++ base ++ "PluginConfiguration.swift";
        base ++ "Manager.swift";
        base ++ "Provider.swift";
        "Console" ++ base ++ "Provider.swift";
        "README.md" ]
    else
      [ "Cuppa" ++ base ++ "Plugin.swift";
        "Cuppa" ++ base ++ "PluginConfiguration.swift";
        base ++ "Manager.swift";
        "README.md" ].
Proof.
  assert (Hprovider : (base ++ "Provider" =? "") = false)
    by (apply String.eqb_neq, append_nonempty_r; discriminate).
  unfold generatePlugin, Commands.createPluginSpec, hasProtocol, protocolText.
  destruct (template =? "provider"); [|destruct (template =? "service")];
    cbn [parse name managerName protocolName providers models declaresProvider
         spec_name spec_providers spec_models listOr parseProviders parseModels
         map nonEmpty strTruthy andb negb fold_left pprov_name prov_name];
    rewrite ?Hprovider; cbn [negb andb mapSet];
    repeat (rewrite eqb_length_neq
              by (rewrite ?append_length; cbn [String.length]; rewrite ?append_length;
                  cbn [String.length]; lia);
            cbn [mapSet]);
    unfold Views.fileNames; cbn [map fst];
    now rewrite ?append_assoc.
Qed.

End PluginTemplates.

(** ** TypeScript theme generator *)

Section CssNames.
Import JS DesignTokensParser TypeScriptThemeGenerator.

Lemma lower_facts (c : ascii) :
  isLower c = true ->
  isUpper c = false /\ isDigit c = false /\ Views.isWordChar c = true
  /\ lowerChar c = c /\ isUpper (upperChar c) = true
  /\ lowerChar (upperChar c) = c /\ isLineTerminator c = false.
Proof.
  destruct c as [[] [] [] [] [] [] [] []]; vm_compute; intros H;
    first [discriminate H|repeat split].
Qed.

Lemma hyphenAfterLower_lower (u : string) :
  allChars isLower u = true -> hyphenAfterLower u = u.
Proof.
  induction u as [|a u IH]; [reflexivity|]. cbn [allChars].
  rewrite andb_true_iff. intros [Ha Hu]. specialize (IH Hu).
  destruct u as [|b u]; [reflexivity|].
  cbn [allChars] in Hu. apply andb_true_iff in Hu as [Hb _].
  apply lower_facts in Hb as (Hb & _).
  cbn [hyphenAfterLower] in *. rewrite Hb, andb_false_r. now rewrite IH.
Qed.

Lemma hyphenAfterLower_boundary (u : string) (D : ascii) (rest : string) :
  allChars isLower u = true -> u <> EmptyString -> isUpper D = true ->
  hyphenAfterLower (u ++ String D rest)
  = u ++ String "-" (String D (hyphenAfterLower rest)).
Proof.
  intros Hu Hne HD. induction u as [|a u IH]; [congruence|].
  cbn [allChars] in Hu. apply andb_true_iff in Hu as [Ha Hu].
  destruct u as [|b u].
  - cbn [append hyphenAfterLower]. now rewrite Ha, HD.
  - assert (Hb : isUpper b = false).
    { cbn [allChars] in Hu. apply andb_true_iff in Hu as [Hb _].
      now apply lower_facts in Hb. }
    specialize (IH Hu ltac:(discriminate)).
    cbn [append hyphenAfterLower] in *. rewrite Hb, andb_false_r.
    now rewrite IH.
Qed.

Lemma hyphenInAcronym_other (a : ascii) (s : string) :
  isUpper a = false ->
  hyphenInAcronym (String a s) = String a (hyphenInAcronym s).
Proof.
  intros Ha. destruct s as [|b r]; [reflexivity|].
  cbn [hyphenInAcronym]. now rewrite Ha.
Qed.

Lemma hyphenInAcronym_single (a b : ascii) (r : string) :
  isUpper b = false ->
  hyphenInAcronym (String a (String b r))
  = String a (hyphenInAcronym (String b r)).
Proof.
  intros Hb. cbn [hyphenInAcronym]. now rewrite Hb, andb_false_r.
Qed.

Lemma hyphenInAcronym_lower (u rest : string) :
  allChars isLower u = true ->
  hyphenInAcronym (u ++ rest) = u ++ hyphenInAcronym rest.
Proof.
  induction u as [|a u IH]; [reflexivity|]. cbn [allChars append].
  rewrite andb_true_iff. intros [Ha Hu]. apply lower_facts in Ha as (Ha & _).
  rewrite (hyphenInAcronym_other a _ Ha). now rewrite IH.
Qed.

Lemma toLowerCase_app (a b : string) :
  toLowerCase (a ++ b) = toLowerCase a ++ toLowerCase b.
Proof.
  induction a as [|c a IH]; [reflexivity|]. cbn. f_equal. exact IH.
Qed.

Lemma toLowerCase_lower (u : string) :
  allChars isLower u = true -> toLowerCase u = u.
Proof.
  induction u as [|a u IH]; [reflexivity|]. cbn [allChars].
  rewrite andb_true_iff. intros [Ha Hu]. apply lower_facts in Ha as (_ & _ & _ & Ha & _).
  cbn. rewrite Ha. f_equal. now apply IH.
Qed.

(** A lower-case word of two or more letters, taken apart. *)
Lemma isLowerWord_inv (w : string) :
  Views.isLowerWord w = true ->
  exists d v, w = String d v /\ isLower d = true
              /\ allChars isLower v = true /\ v <> EmptyString.
Proof.
  unfold Views.isLowerWord. rewrite andb_true_iff, Nat.leb_le.
  intros [Hlen Hall]. destruct w as [|d [|b v]]; cbn in Hlen; try lia.
  cbn [allChars] in Hall. apply andb_true_iff in Hall as [Hd Hv].
  exists d, (String b v). repeat split; [assumption|assumption|discriminate].
Qed.

Lemma hyphenAfterLower_words (ws : list string) (u : string) :
  allChars isLower u = true -> u <> EmptyString ->
  Forall (fun w => Views.isLowerWord w = true) ws ->
  hyphenAfterLower (u ++ join "" (map capitalize ws))
  = u ++ join "" (map (fun w => "-" ++ capitalize w) ws).
Proof.
  intros Hu Hne Hws. revert u Hu Hne.
  induction Hws as [|w ws Hw _ IH]; intros u Hu Hne.
  - cbn [map join]. rewrite append_nil_r. now apply hyphenAfterLower_lower.
  - apply isLowerWord_inv in Hw as (d & v & -> & Hd & Hv & Hvne).
    apply lower_facts in Hd as (_ & _ & _ & _ & Hupper & _).
    cbn [map]. rewrite !join_empty_cons, capitalize_cons.
    cbn [append]. rewrite (hyphenAfterLower_boundary u _ _ Hu Hne Hupper).
    now rewrite (IH v Hv Hvne).
Qed.

Lemma hyphenInAcronym_words (ws : list string) (u : string) :
  allChars isLower u = true ->
  Forall (fun w => Views.isLowerWord w = true) ws ->
  hyphenInAcronym (u ++ join "" (map (fun w => "-" ++ capitalize w) ws))
  = u ++ join "" (map (fun w => "-" ++ capitalize w) ws).
Proof.
  intros Hu Hws. revert u Hu.
  induction Hws as [|w ws Hw _ IH]; intros u Hu.
  - cbn [map join]. now rewrite hyphenInAcronym_lower.
  - apply isLowerWord_inv in Hw as (d & v & -> & Hd & Hv & Hvne).
    cbn [map]. rewrite join_empty_cons, capitalize_cons.
    rewrite (hyphenInAcronym_lower u _ Hu). f_equal.
    cbn [append]. rewrite hyphenInAcronym_other by reflexivity. f_equal.
    destruct v as [|b v]; [congruence|].
    assert (Hb : isUpper b = false).
    { cbn [allChars] in Hv. apply andb_true_iff in Hv as [Hb _].
      now apply lower_facts in Hb. }
    cbn [append]. rewrite (hyphenInAcronym_single _ b _ Hb). f_equal.
    exact (IH (String b v) Hv).
Qed.

Lemma toLowerCase_words (ws : list string) (u : string) :
  allChars isLower u = true ->
  Forall (fun w => Views.isLowerWord w = true) ws ->
  toLowerCase (u ++ join "" (map (fun w => "-" ++ capitalize w) ws))
  = join "-" (u :: ws).
Proof.
  intros Hu Hws. revert u Hu.
  induction Hws as [|w ws Hw _ IH]; intros u Hu.
  - cbn [map join]. rewrite append_nil_r. now apply toLowerCase_lower.
  - apply isLowerWord_inv in Hw as (d & v & -> & Hd & Hv & Hvne).
    cbn [map]. rewrite join_empty_cons, capitalize_cons, join_cons_cons.
    rewrite toLowerCase_app, (toLowerCase_lower u Hu). f_equal.
    rewrite append_assoc, toLowerCase_app. f_equal.
    apply lower_facts in Hd as Hfacts.
    destruct Hfacts as (_ & _ & _ & _ & _ & Hback & _).
    specialize (IH v Hv). cbn [append toLowerCase mapChars] in *.
    rewrite Hback.
    assert (Hhead : join "-" (String d v :: ws) = String d (join "-" (v :: ws)))
      by (destruct ws; reflexivity).
    rewrite Hhead. f_equal. exact IH.
Qed.

(** X24: the name of a CSS variable gives back the name of the token: a token
    name of lower-case words of two or more letters joined by hyphens,
    put in camel case by the parser and in kebab case by the generator, is
    the token name again. *)
Theorem kebab_of_camel_is_identity (w : string) (ws : list string) :
  Forall (fun v => Views.isLowerWord v = true) (w :: ws) ->
  toKebabCase (toCamelCase (join "-" (w :: ws))) = join "-" (w :: ws).
Proof.
  intros Hall. inversion Hall as [|? ? Hw Hws]; subst.
  apply isLowerWord_inv in Hw as Hparts.
  destruct Hparts as (d & v & Hshape & Hd & Hv & _).
  assert (Hlower : allChars isLower w = true)
    by (rewrite Hshape; cbn [allChars]; now rewrite Hd, Hv).
  assert (Hne : w <> EmptyString) by (rewrite Hshape; discriminate).
  assert (Hword : forall x, Views.isLowerWord x = true -> Views.isWord x = true).
  { intros x Hx. apply isLowerWord_inv in Hx as (e & y & -> & He & Hy & _).
    unfold Views.isWord. cbn [String.eqb negb andb allChars].
    apply lower_facts in He as (_ & _ & -> & _). cbn [andb].
    revert Hy. apply allChars_impl. intros c Hc. now apply lower_facts in Hc. }
  assert (Hwords : Forall (fun x => Views.isWord x = true) ws)
    by (revert Hws; apply Forall_impl; exact Hword).
  assert (Hcamel : toCamelCase (join "-" (w :: ws))
                   = w ++ join "" (map capitalize ws)).
  { unfold toCamelCase.
    rewrite (upperAfterSeparator_words "-" w ws (or_introl eq_refl)).
    - rewrite Hshape. cbn [append lowerFirst].
      apply lower_facts in Hd as (_ & _ & _ & -> & _ & _ & ->). reflexivity.
    - revert Hlower. apply allChars_impl. intros c Hc. now apply lower_facts in Hc.
    - exact Hwords. }
  rewrite Hcamel. unfold toKebabCase.
  rewrite (hyphenAfterLower_words ws w Hlower Hne Hws).
  rewrite (hyphenInAcronym_words ws w Hlower Hws).
  now apply toLowerCase_words.
Qed.

Lemma kebab_of_camel_is_identity_witness :
  Forall (fun v => Views.isLowerWord v = true) ["brand"; "primary"; "dark"]
  /\ toCamelCase (join "-" ["brand"; "primary"; "dark"]) = "brandPrimaryDark"
  /\ toKebabCase (toCamelCase (join "-" ["brand"; "primary"; "dark"]))
     = join "-" ["brand"; "primary"; "dark"].
Proof.
  split; [repeat constructor|]. split; [reflexivity|].
  apply (kebab_of_camel_is_identity "brand" ["primary"; "dark"]).
  repeat constructor.
Defined.

(** Words of one letter do not come back: the hyphen between two of them
    is lost. *)
Example kebab_of_camel_single_letters :
  toCamelCase "a-b-c" = "aBC" /\ toKebabCase "aBC" = "a-bc".
Proof. split; reflexivity. Qed.

End CssNames.

Section ObjectBlocks.
Import JS DesignTokensParser TypeScriptThemeGenerator.
Variable numberToString : number -> string.

Lemma eachWithComma_lines {A : Type} (line : A -> string -> string)
  (init : list A) (last : A) :
  eachWithComma (fun x comma => [line x comma]) (init +++ [last])
  = map (fun x => line x ",") init +++ [line last EmptyString].
Proof.
  induction init as [|x init IH]; [reflexivity|].
  cbn [app map]. rewrite <- IH.
  destruct init; reflexivity.
Qed.

(** X25: in a block of measures of the TypeScript file every entry but the last
    ends with a comma, the last one without; a category without entries
    gives no block at all. *)
Theorem measure_block_commas (key : string) (init : list ParsedMeasure)
  (last : ParsedMeasure) :
  measureBlock numberToString key (init +++ [last])
  = [ "  " ++ key ++ ": {" ]
    +++ map (fun e => "    " ++ name e ++ ": '" ++ numberToString (value e)
                      ++ unit e ++ "'" ++ ",") init
    +++ [ "    " ++ name last ++ ": '" ++ numberToString (value last)
          ++ unit last ++ "'" ]
    +++ [ "  },"; EmptyString ]
  /\ measureBlock numberToString key [] = [].
Proof.
  split; [|reflexivity]. unfold measureBlock.
  assert (Hnonempty : nonEmpty (init +++ [last]) = true) by now destruct init.
  rewrite Hnonempty. cbn [pushIf]. f_equal. rewrite app_assoc. f_equal.
  unfold measureLine.
  rewrite (eachWithComma_lines
             (fun e comma => "    " ++ name e ++ ": '" ++ numberToString (value e)
                             ++ unit e ++ "'" ++ comma)).
  reflexivity.
Qed.

End ObjectBlocks.

(** ** Kotlin theme generator: Material typography *)

Section KotlinTypography.
Import JS DesignTokensParser KotlinThemeGenerator.

Lemma flat_map_at_most_one {A B : Type} (f : A -> list B) (xs : list A) :
  (forall x, List.length (f x) <= 1) ->
  List.length (flat_map f xs) <= List.length xs.
Proof.
  intros Hf. induction xs as [|x xs IH]; [reflexivity|].
  cbn [flat_map]. rewrite length_app. cbn [List.length].
  specialize (Hf x). lia.
Qed.

(** X26: the Material typography names a font size exactly when the name of
    the size is, without regard to case, one of the fifteen Material
    styles; of several such sizes the first is taken.  So there are at most
    fifteen entries, and a size of any other name is not mentioned. *)
Theorem material_typography_entries (theme : ParsedTheme) :
  List.length (typographyEntries theme) <= 15
  /\ forall line,
       In line (typographyEntries theme)
       <-> exists style size,
             In style (map snd typographyMap)
             /\ find (fun s => toLowerCase (name s) =? toLowerCase style)
                     (fontSizes (typography theme)) = Some size
             /\ line = "    " ++ style ++ " = TextStyle(fontSize = "
                       ++ theme_name theme ++ ".FontSizes."
                       ++ capitalize (name size) ++ ")".
Proof.
  split.
  - unfold typographyEntries.
    change 15 with (List.length typographyMap).
    apply flat_map_at_most_one. intros [key style].
    destruct (find _ (fontSizes (typography theme))); cbn; lia.
  - intros line. unfold typographyEntries. rewrite in_flat_map. split.
    + intros ([key style] & Hin & Hline).
      assert (Hsame : key = style).
      { cbn in Hin.
        repeat (destruct Hin as [[= <- <-]|Hin]; [reflexivity|]).
        contradiction. }
      subst key.
      destruct (find _ (fontSizes (typography theme))) as [size|] eqn:Hfind;
        [|contradiction].
      destruct Hline as [<-|[]]. exists style, size.
      split; [|now split]. apply in_map_iff. now exists (style, style).
    + intros (style & size & Hstyle & Hfind & ->).
      apply in_map_iff in Hstyle as ([key style'] & Hsnd & Hin).
      cbn [snd] in Hsnd. subst style'.
      assert (Hsame : key = style).
      { cbn in Hin.
        repeat (destruct Hin as [[= <- <-]|Hin]; [reflexivity|]).
        contradiction. }
      subst key. exists (style, style). split; [exact Hin|].
      rewrite Hfind. now left.
Qed.

End KotlinTypography.
